(** * TalentScout hiring assistant: a shallow embedding of the core

  The development follows the layout of the repository:
  - [Py]          the Python string and object primitives the code relies on;
  - [Schemas]     schemas.py   (TechStack, Candidate, Question);
  - [ModelClient] model_client.py (the retrying backend call);
  - [Utils]       utils.py     (splitting, affirmation, JSON extraction);
  - [Llm]         llm.py       (question generation and grading);
  - [App]         app.py       (validators, stack classifier, turn step).

  Texts are strings of 8-bit characters.  Character classes, case mapping
  and white space are those of Python on the ASCII range; a character
  above 127 is taken to be caseless, not a word character and not white
  space.  Libraries outside the repository (the OpenAI SDK, json, rapidfuzz,
  pycountry, geopy, phonenumbers, email_validator, langdetect, vader) are
  taken at their interface, as section variables. *)

From Stdlib Require Import String Ascii List ZArith QArith Qminmax Qpower Lia Bool.
From stdpp Require Import gmap strings list fin_maps pretty.

Set Warnings "-register-all".

Open Scope string_scope.
Open Scope list_scope.
Open Scope stdpp_scope.

(* ===================================================================== *)
(** * Python primitives *)
(* ===================================================================== *)

Module Py.

(** ** Exceptions and fallible results *)

Inductive exn_class :=
| RateLimitError | APIError | APIConnectionError | APITimeoutError
| AttributeError | IndexError | TypeError | ValueError | KeyError
| JSONDecodeError | EmailNotValidError | NumberParseException
| GeocoderServiceError | OSError | RuntimeError | OpenAIError.

Record exn := Exn { exn_class_of : exn_class; exn_msg : string }.

(** [str(e)] *)
Definition str_exn (e : exn) : string := exn_msg e.

Inductive res (A : Type) :=
| Ret (a : A)
| Raise (e : exn).
Arguments Ret {A} a.
Arguments Raise {A} e.

Definition bind {A B} (m : res A) (k : A -> res B) : res B :=
  match m with
  | Ret a => k a
  | Raise e => Raise e
  end.

Definition returns {A} (m : res A) : bool :=
  match m with Ret _ => true | Raise _ => false end.

(** ** Characters *)

Definition code (c : ascii) : nat := nat_of_ascii c.

Definition between (lo hi : nat) (c : ascii) : bool :=
  (lo <=? code c)%nat && (code c <=? hi)%nat.

Definition is_upper (c : ascii) : bool := between 65 90 c.
Definition is_lower (c : ascii) : bool := between 97 122 c.
Definition is_alpha (c : ascii) : bool := is_upper c || is_lower c.
Definition is_digit (c : ascii) : bool := between 48 57 c.

(** [\w] *)
Definition is_word (c : ascii) : bool :=
  is_alpha c || is_digit c || (code c =? 95)%nat.

(** [str.isspace], [\s]: tab, line feed, vertical tab, form feed, carriage
    return, the four separators 28..31 and the blank. *)
Definition is_space (c : ascii) : bool :=
  between 9 13 c || between 28 32 c.

Definition lower_char (c : ascii) : ascii :=
  if is_upper c then ascii_of_nat (code c + 32) else c.

Definition upper_char (c : ascii) : ascii :=
  if is_lower c then ascii_of_nat (code c - 32) else c.

(** ** Strings *)

Fixpoint smap (f : ascii -> ascii) (s : string) : string :=
  match s with
  | EmptyString => EmptyString
  | String c s' => String (f c) (smap f s')
  end.

Fixpoint sfilter (p : ascii -> bool) (s : string) : string :=
  match s with
  | EmptyString => EmptyString
  | String c s' => if p c then String c (sfilter p s') else sfilter p s'
  end.

Fixpoint sforall (p : ascii -> bool) (s : string) : bool :=
  match s with
  | EmptyString => true
  | String c s' => p c && sforall p s'
  end.

Definition is_empty (s : string) : bool :=
  match s with EmptyString => true | _ => false end.

(** [s.lower()], [s.casefold()], [s.upper()] *)
Definition lower : string -> string := smap lower_char.
Definition casefold : string -> string := smap lower_char.
Definition upper : string -> string := smap upper_char.

(** [s.lstrip()], [s.rstrip()], [s.strip()] *)
Fixpoint lstrip (s : string) : string :=
  match s with
  | EmptyString => EmptyString
  | String c s' => if is_space c then lstrip s' else s
  end.

Fixpoint rstrip (s : string) : string :=
  match s with
  | EmptyString => EmptyString
  | String c s' =>
      let r := rstrip s' in
      if is_empty r && is_space c then EmptyString else String c r
  end.

Definition strip (s : string) : string := rstrip (lstrip s).

(** [needle in hay] *)
Fixpoint contains (needle hay : string) : bool :=
  String.prefix needle hay
  || match hay with
     | EmptyString => false
     | String _ hay' => contains needle hay'
     end.

(** [s.startswith(p)] *)
Definition startswith (p s : string) : bool := String.prefix p s.

(** [re.split] on a pattern that matches exactly one character of a class:
    every separator ends a piece, empty pieces are kept. *)
Fixpoint split_on (p : ascii -> bool) (s : string) : list string :=
  match s with
  | EmptyString => [EmptyString]
  | String c s' =>
      if p c then EmptyString :: split_on p s'
      else match split_on p s' with
           | h :: t => String c h :: t
           | [] => [String c EmptyString]
           end
  end.

(** [s.split(sep, 1)] for a one-character separator: the text before the
    first separator and the text after it, when there is one. *)
Fixpoint split_once (sep : ascii) (s : string) : option (string * string) :=
  match s with
  | EmptyString => None
  | String c s' =>
      if Ascii.eqb c sep then Some (EmptyString, s')
      else match split_once sep s' with
           | Some (a, b) => Some (String c a, b)
           | None => None
           end
  end.

(** [re.findall] of [C+] for a character class [C]: the maximal runs. *)
Fixpoint runs (p : ascii -> bool) (s : string) : list string :=
  match s with
  | EmptyString => []
  | String c s' =>
      if p c then
        match s' with
        | String d _ =>
            if p d then
              match runs p s' with
              | h :: t => String c h :: t
              | [] => [String c EmptyString]
              end
            else String c EmptyString :: runs p s'
        | EmptyString => [String c EmptyString]
        end
      else runs p s'
  end.

(** [re.sub(r"\s+", " ", s)] *)
Fixpoint collapse_spaces (s : string) : string :=
  match s with
  | EmptyString => EmptyString
  | String c s' =>
      if is_space c then
        match s' with
        | String d _ =>
            if is_space d then collapse_spaces s'
            else String " " (collapse_spaces s')
        | EmptyString => String " " EmptyString
        end
      else String c (collapse_spaces s')
  end.

(** [sep.join(parts)] *)
Fixpoint join (sep : string) (parts : list string) : string :=
  match parts with
  | [] => EmptyString
  | [p] => p
  | p :: rest => p +:+ sep +:+ join sep rest
  end.

(** [s.capitalize()] *)
Definition capitalize (s : string) : string :=
  match s with
  | EmptyString => EmptyString
  | String c s' => String (upper_char c) (lower s')
  end.

(** [s.title()]: a letter is upper-cased when it follows a character that
    is not a letter and lower-cased otherwise. *)
Fixpoint title_from (prev_cased : bool) (s : string) : string :=
  match s with
  | EmptyString => EmptyString
  | String c s' =>
      String (if prev_cased then lower_char c else upper_char c)
             (title_from (is_alpha c) s')
  end.
Definition title : string -> string := title_from false.

(** [s.replace(old, new)] for a one-character [old] *)
Fixpoint replace_char (old : ascii) (new : string) (s : string) : string :=
  match s with
  | EmptyString => EmptyString
  | String c s' =>
      (if Ascii.eqb c old then new else String c EmptyString)
      +:+ replace_char old new s'
  end.

(** ** Values

    One universe for the values that travel between the backend, the JSON
    decoder and the code: the JSON values ([None], booleans, numbers, text,
    lists, dictionaries in key order) and objects with named attributes, as
    the backend SDK returns them.  A number carries its [str()] rendering. *)
Inductive pyobj :=
| PNone
| PBool (b : bool)
| PNum (rendering : string)
| PStr (s : string)
| PList (items : list pyobj)
| PDict (entries : list (string * pyobj))
| PObj (type_name : string) (attrs : list (string * pyobj)).

Fixpoint assoc {A} (k : string) (l : list (string * A)) : option A :=
  match l with
  | [] => None
  | (k', v) :: l' => if String.eqb k k' then Some v else assoc k l'
  end.

Definition type_name_of (o : pyobj) : string :=
  match o with
  | PNone => "NoneType"
  | PBool _ => "bool"
  | PNum _ => "float"
  | PStr _ => "str"
  | PList _ => "list"
  | PDict _ => "dict"
  | PObj n _ => n
  end.

Definition no_attribute (o : pyobj) (name : string) : exn :=
  Exn AttributeError
      ("'" +:+ type_name_of o +:+ "' object has no attribute '" +:+ name +:+ "'").

(** [o.name] for a data attribute.  The built-in types carry methods only,
    none of which the code reads as an attribute value. *)
Definition getattr (o : pyobj) (name : string) : res pyobj :=
  match o with
  | PObj _ attrs =>
      match assoc name attrs with
      | Some v => Ret v
      | None => Raise (no_attribute o name)
      end
  | _ => Raise (no_attribute o name)
  end.

(** [o[key]] for a text key *)
Definition getitem (o : pyobj) (key : string) : res pyobj :=
  match o with
  | PDict kv =>
      match assoc key kv with
      | Some v => Ret v
      | None => Raise (Exn KeyError ("'" +:+ key +:+ "'"))
      end
  | PList _ => Raise (Exn TypeError "list indices must be integers or slices, not str")
  | PStr _ => Raise (Exn TypeError "string indices must be integers, not 'str'")
  | _ => Raise (Exn TypeError ("'" +:+ type_name_of o +:+ "' object is not subscriptable"))
  end.

(** Truth value of a value, as [if x], [not x] and [x or y] take it. *)
Definition truthy (o : pyobj) : bool :=
  match o with
  | PNone => false
  | PBool b => b
  | PNum r => negb (sforall (fun c => Ascii.eqb c "0" || Ascii.eqb c "." || Ascii.eqb c "-") r)
  | PStr s => negb (is_empty s)
  | PList l => match l with [] => false | _ => true end
  | PDict kv => match kv with [] => false | _ => true end
  | PObj _ _ => true
  end.

Definition is_empty_list {A} (l : list A) : bool :=
  match l with [] => true | _ => false end.

(** [not x] for an optional text: [None] and the empty text are false. *)
Definition not_text_opt (x : option string) : bool :=
  match x with
  | None => true
  | Some s => is_empty s
  end.

(** [l[:n]] for a possibly negative bound *)
Definition slice_to {A} (n : Z) (l : list A) : list A :=
  if (0 <=? n)%Z then take (Z.to_nat n) l
  else take (length l - Z.to_nat (- n)) l.

(** Floating-point values as far as the code compares them. *)
Inductive pyfloat :=
| Finite (q : Q)
| PosInf
| NegInf
| NaN.

End Py.

(* ===================================================================== *)
(** * schemas.py *)
(* ===================================================================== *)

Module Schemas.
Import Py.

Definition END_KEYWORDS : list string := ["exit"; "bye"; "quit"; "stop"; "goodbye"].

Record TechStack := mkTechStack {
  languages : list string;
  frameworks : list string;
  databases : list string;
  tools : list string
}.

Record Candidate := mkCandidate {
  consent : bool;
  full_name : option string;
  email : option string;
  phone : option string;
  years_experience : option pyfloat;
  desired_positions : list string;
  current_location : option string;
  tech_stack : option TechStack;
  language : option string
}.

(** [Candidate()] *)
Definition Candidate_default : Candidate :=
  {| consent := false; full_name := None; email := None; phone := None;
     years_experience := None; desired_positions := []; current_location := None;
     tech_stack := None; language := Some "en" |}.

Definition not_text : option string -> bool := not_text_opt.

(** [not x] for an optional model instance: a model defines neither
    [__bool__] nor [__len__], so every instance is true. *)
Definition not_model {A} (x : option A) : bool :=
  match x with
  | None => true
  | Some _ => false
  end.

Definition is_None {A} (x : option A) : bool :=
  match x with
  | None => true
  | Some _ => false
  end.

Definition append_if (b : bool) (name : string) (missing : list string) : list string :=
  if b then missing ++ [name] else missing.

Definition missing_fields (self : Candidate) : list string :=
  let missing := [] in
  let missing := append_if (negb (consent self)) "consent" missing in
  let missing := append_if (not_text (full_name self)) "full_name" missing in
  let missing := append_if (not_text (email self)) "email" missing in
  let missing := append_if (not_text (phone self)) "phone" missing in
  let missing := append_if (is_None (years_experience self)) "years_experience" missing in
  let missing := append_if (is_empty_list (desired_positions self)) "desired_positions" missing in
  let missing := append_if (not_text (current_location self)) "current_location" missing in
  let missing := append_if (not_model (tech_stack self)) "tech_stack" missing in
  missing.

(** A dumped [Question]: the three text fields of the model. *)
Record Question := mkQuestion {
  topic : string;
  question : string;
  difficulty : string
}.

(** [Question] built from the keywords of [q]: [q] has to be a mapping with text keys; the three
    fields are required and each has to be a text (numbers, booleans, [None],
    lists and dictionaries are rejected); other keys are ignored. *)
Definition Question_validate (q : pyobj) : res Question :=
  match q with
  | PDict kw =>
      match assoc "topic" kw, assoc "question" kw, assoc "difficulty" kw with
      | Some (PStr t), Some (PStr qu), Some (PStr d) =>
          Ret {| topic := t; question := qu; difficulty := d |}
      | _, _, _ => Raise (Exn ValueError "validation error for Question")
      end
  | _ => Raise (Exn TypeError "argument after ** must be a mapping")
  end.

End Schemas.

(* ===================================================================== *)
(** * model_client.py *)
(* ===================================================================== *)

Module ModelClient.
Import Py.

Record request := mkRequest {
  req_model : string;
  req_temperature : Q;
  req_messages : list (string * string);
  req_timeout : Z
}.

(** The backend as the call sees it: [OpenAI()] either fails (no key is
    configured) or gives a client whose [chat.completions.create] answers the
    [i]-th attempt for a request with a response or with an exception. *)
Inductive backend :=
| Unconfigured (e : exn)
| Client (create : request -> nat -> res pyobj).

(** Modelled from the SDK: a chat completion holds its choices in a list,
    each choice holds a message, the message holds the text. *)
Definition ChatCompletion (text : pyobj) : pyobj :=
  PObj "ChatCompletion"
    [("choices",
      PList [PObj "Choice"
               [("index", PNum "0");
                ("message", PObj "ChatCompletionMessage"
                              [("role", PStr "assistant"); ("content", text)])]])].

Record ChatResult := mkChatResult {
  ok : bool;
  content : pyobj;
  insufficient_quota : bool;
  error : string
}.

(** What a call does that can be observed from outside: the requests it
    sends and the pauses it takes, in order. *)
Inductive event :=
| Create (attempt : nat)
| Sleep (attempt : nat) (seconds : Q).

Definition is_create (ev : event) : bool :=
  match ev with Create _ => true | Sleep _ _ => false end.

(** [min(cap, base * (2 ** attempt)) + random.uniform(0, 0.25)], the random
    draw being [jitter]. *)
Definition _jittered_backoff (attempt : nat) (jitter : Q) (base cap : Q) : Q :=
  (Qmin cap (base * (2 ^ Z.of_nat attempt)) + jitter)%Q.

(** [resp.choices.message.content] *)
Definition read_content (resp : pyobj) : res pyobj :=
  bind (getattr resp "choices") (fun choices =>
  bind (getattr choices "message") (fun message =>
  getattr message "content")).

Definition quota_exhausted (e : exn) : bool :=
  let msg := lower (str_exn e) in
  contains "insufficient_quota" msg || contains "exceeded your current quota" msg.

Section Chat.
Variable OPENAI_MODEL_DEFAULT : string.
(** the draws of [random.uniform(0, 0.25)], one per attempt *)
Variable uniform : nat -> Q.

(** The body of [for i in range(max_tries)], over the attempts left. *)
Fixpoint attempts (create : request -> nat -> res pyobj) (req : request)
    (range : list nat) : ChatResult * list event :=
  match range with
  | [] =>
      ({| ok := false; content := PNone; insufficient_quota := false;
          error := "max_retries" |}, [])
  | i :: range' =>
      let retry :=
        let '(r, evs) := attempts create req range' in
        (r, Create i :: Sleep i (_jittered_backoff i (uniform i) (1 # 2) 8) :: evs) in
      match bind (create req i) read_content with
      | Ret c =>
          ({| ok := true; content := c; insufficient_quota := false; error := "" |},
           [Create i])
      | Raise e =>
          match exn_class_of e with
          | RateLimitError =>
              if quota_exhausted e then
                ({| ok := false; content := PNone; insufficient_quota := true;
                    error := "insufficient_quota" |}, [Create i])
              else retry
          | APIError | APIConnectionError | APITimeoutError => retry
          | _ =>
              ({| ok := false; content := PNone; insufficient_quota := false;
                  error := str_exn e |}, [Create i])
          end
      end
  end.

Definition chat (b : backend) (messages : list (string * string))
    (model : option string) (temperature : Q) (timeout : Z) (max_tries : Z)
    : res (ChatResult * list event) :=
  match b with
  | Unconfigured e => Raise e
  | Client create =>
      let model := if not_text_opt model then OPENAI_MODEL_DEFAULT else default "" model in
      let req := {| req_model := model; req_temperature := temperature;
                    req_messages := messages; req_timeout := timeout |} in
      Ret (attempts create req (seq 0 (Z.to_nat max_tries)))
  end.

End Chat.

End ModelClient.

(* ===================================================================== *)
(** * utils.py *)
(* ===================================================================== *)

Module Utils.
Import Py.

Definition is_semicolon_or_comma (c : ascii) : bool :=
  Ascii.eqb c ";" || Ascii.eqb c ",".

(** [[x.strip() for x in re.split(r"[;,]", text or "") if x.strip()]] *)
Definition csv_or_list (text : string) : list string :=
  List.filter (fun x => negb (is_empty x))
              (List.map strip (split_on is_semicolon_or_comma text)).

Definition AFFIRM_WORDS : list string :=
  ["y"; "yes"; "yeah"; "yep"; "yup"; "sure"; "ok"; "okay"; "affirmative"; "agree";
   "si"; "sÃ­"; "oui"; "da"].

Definition is_affirmative (text : string) : bool :=
  if is_empty text then false
  else
    let t := sfilter is_word (lower (strip text)) in
    bool_decide (t ∈ AFFIRM_WORDS) || startswith "y" t.

(** ** JSON extraction *)

(** The shortest text matching [.*?] followed by [close], if any. *)
Fixpoint up_to_first (close : ascii) (s : string) : option string :=
  match s with
  | EmptyString => None
  | String c s' =>
      if Ascii.eqb c close then Some (String c EmptyString)
      else option_map (String c) (up_to_first close s')
  end.

(** [re.search(r"(\{.*?\}|\[.*?\])", s, flags=re.DOTALL)]: the leftmost
    opening brace or bracket that has a matching closer somewhere after it,
    with the text up to the first such closer. *)
Fixpoint search_bracketed (s : string) : option string :=
  match s with
  | EmptyString => None
  | String c s' =>
      let here :=
        if Ascii.eqb c "{" then option_map (String c) (up_to_first "}" s')
        else if Ascii.eqb c "[" then option_map (String c) (up_to_first "]" s')
        else None in
      match here with
      | Some m => Some m
      | None => search_bracketed s'
      end
  end.

(** The pattern of the first search, as it stands in the source: six
    backquotes and no group. *)
Definition FENCE : string := "``````".

(** What the two searches leave in [m]. *)
Inductive found :=
| FoundFence
| FoundBracketed (group1 : string)
| NotFound.

Definition search (s : string) : found :=
  if contains FENCE s then FoundFence
  else match search_bracketed s with
       | Some g => FoundBracketed g
       | None => NotFound
       end.

(** [m.group(1) if m else s] *)
Definition candidate_of (m : found) (s : string) : res string :=
  match m with
  | FoundFence => Raise (Exn IndexError "no such group")
  | FoundBracketed g => Ret g
  | NotFound => Ret s
  end.

Definition has_question (i : pyobj) : bool :=
  match i with
  | PDict kv => bool_decide (is_Some (assoc "question" kv))
  | _ => false
  end.

(** [{"questions": l} if any(...) else {"items": l}] *)
Definition wrap_list (l : list pyobj) : list (string * pyobj) :=
  if existsb has_question l then [("questions", PList l)] else [("items", PList l)].

(** The part shared by the parsing attempts: a list is wrapped, a
    dictionary is returned, anything else falls through. *)
Definition as_object (parsed : pyobj) : option (list (string * pyobj)) :=
  match parsed with
  | PList l => Some (wrap_list l)
  | PDict d => Some d
  | _ => None
  end.

Section Extract.
(** [json.loads] *)
Variable json_loads : string -> res pyobj.
(** [str(x)] of a list, a dictionary or an object *)
Variable str_compound : pyobj -> string.

Definition py_str (x : pyobj) : string :=
  match x with
  | PNone => "None"
  | PBool true => "True"
  | PBool false => "False"
  | PNum r => r
  | PStr s => s
  | _ => str_compound x
  end.

(** [_ensure_text] on what reaches it here: neither [None], nor a list, nor
    a dictionary. *)
Definition _ensure_text (x : pyobj) : string :=
  match x with
  | PNone => ""
  | _ => py_str x
  end.

(** [try: parsed = json.loads(t) ... except Exception: pass] *)
Definition try_loads (t : string) : option (list (string * pyobj)) :=
  match json_loads t with
  | Ret parsed => as_object parsed
  | Raise _ => None
  end.

(** The last [try] block. *)
Definition try_nested (candidate : string) : list (string * pyobj) :=
  match json_loads candidate with
  | Raise _ => []
  | Ret inner =>
      match inner with
      | PStr inner_text =>
          match json_loads (_ensure_text inner) with
          | Raise _ => []
          | Ret parsed =>
              match as_object parsed with
              | Some d => d
              | None => []
              end
          end
      | PDict d => d
      | PList l => wrap_list l
      | _ => []
      end
  end.

Definition extract_first_json_object (text : pyobj) : res (list (string * pyobj)) :=
  match text with
  | PDict d => Ret d
  | PList l => Ret (wrap_list l)
  | PNone => Ret []
  | _ =>
      let s := _ensure_text text in
      let m := search s in
      bind (candidate_of m s) (fun candidate =>
        match try_loads candidate with
        | Some d => Ret d
        | None =>
            match try_loads s with
            | Some d => Ret d
            | None => Ret (try_nested candidate)
            end
        end)
  end.

End Extract.

End Utils.

(* ===================================================================== *)
(** * prompts.py *)
(* ===================================================================== *)

Module Prompts.
Import Schemas.

Definition SYSTEM_PROMPT : string :=
  "You are a concise, fair technical interviewer. "
  +:+ "Generate clear, unambiguous questions and keep outputs in JSON when asked.".

Definition GEN_QUESTIONS_INSTRUCTION : string :=
  "Given the candidate's declared tech stack, produce structured interview "
  +:+ "questions grouped by topic and difficulty. Return JSON with the top-level "
  +:+ "key 'questions' as a list of items, each item having keys: "
  +:+ "'topic' (string), 'question' (string), and 'difficulty' "
  +:+ "in {'beginner','intermediate','advanced'}.".

Definition FEWSHOTS : list (string * list Question) :=
  [("Python",
    [{| topic := "Python"; difficulty := "beginner";
        question := "Explain what a list and a dict are in Python and show a short example." |};
     {| topic := "Python"; difficulty := "intermediate";
        question := "When would a context manager be used? Provide a short with-statement example." |}]);
   ("Django",
    [{| topic := "Django"; difficulty := "beginner";
        question := "What are models, views, and templates? Give a brief overview." |}]);
   ("SQL",
    [{| topic := "SQL"; difficulty := "intermediate";
        question := "Compare INNER JOIN and LEFT JOIN with a simple example." |}])].

End Prompts.

(* ===================================================================== *)
(** * llm.py *)
(* ===================================================================== *)

Module Llm.
Import Py Schemas ModelClient Utils Prompts.

(** What callers pass as [stack]: a model instance, a dictionary, or
    anything else. *)
Inductive stack_arg :=
| StackModel (ts : TechStack)
| StackDict (d : gmap string (list string))
| StackOther.

(** [TechStack.model_dump()] *)
Definition model_dump (ts : TechStack) : gmap string (list string) :=
  <["languages" := languages ts]>
  (<["frameworks" := frameworks ts]>
  (<["databases" := databases ts]>
  (<["tools" := tools ts]> ∅))).

Definition _as_dict (stack : stack_arg) : gmap string (list string) :=
  match stack with
  | StackModel ts => model_dump ts
  | StackDict d => d
  | StackOther => model_dump (mkTechStack [] [] [] [])
  end.

(** [s.get(k, []) or []] *)
Definition get_list (s : gmap string (list string)) (k : string) : list string :=
  default [] (s !! k).

Definition CATEGORIES : list string := ["languages"; "frameworks"; "databases"; "tools"].

(** The loop of [_validate_questions]: an item that the model accepts is
    appended, an item on which it raises is skipped. *)
Definition validate_step (validated : list Question) (q : pyobj) : list Question :=
  match Question_validate q with
  | Ret v => validated ++ [v]
  | Raise _ => validated
  end.

Definition _validate_questions (items : list pyobj) : list Question :=
  fold_left validate_step items [].

(** A dumped question as the dictionary it is. *)
Definition question_dict (q : Question) : pyobj :=
  PDict [("topic", PStr (topic q)); ("question", PStr (question q));
         ("difficulty", PStr (difficulty q))].

Definition _topics (stack : stack_arg) : list string :=
  let s := _as_dict stack in
  fold_left (fun topics k => topics ++ get_list s k) CATEGORIES [].

Definition _format_stack (stack : stack_arg) : string :=
  let s := _as_dict stack in
  let fmt k := join ", " (get_list s k) in
  let nl := String (ascii_of_nat 10) EmptyString in
  "Languages: " +:+ fmt "languages" +:+ nl
  +:+ "Frameworks: " +:+ fmt "frameworks" +:+ nl
  +:+ "Databases: " +:+ fmt "databases" +:+ nl
  +:+ "Tools: " +:+ fmt "tools".

(** The three fixed templates of [_fallback], as the dictionaries built
    there. *)
Definition fallback_items (t : string) : list pyobj :=
  [PDict [("topic", PStr t);
          ("question", PStr ("Explain fundamentals of " +:+ t +:+ " and show a simple example."));
          ("difficulty", PStr "beginner")];
   PDict [("topic", PStr t);
          ("question", PStr ("Describe a debugging incident you solved in " +:+ t +:+ "."));
          ("difficulty", PStr "intermediate")];
   PDict [("topic", PStr t);
          ("question", PStr ("Design for performance/reliability in " +:+ t
                             +:+ " under load—key trade-offs?"));
          ("difficulty", PStr "advanced")]].

Definition KEYWORDS : list (string * list string) :=
  [("python", ["function"; "class"; "list"; "dict"; "loop"; "with"; "context"; "generator"; "example"]);
   ("django", ["model"; "view"; "template"; "orm"; "queryset"; "middleware"; "settings"; "migration"]);
   ("react", ["state"; "props"; "hook"; "component"; "useeffect"; "memo"; "render"; "jsx"]);
   ("sql", ["select"; "join"; "index"; "transaction"; "foreign key"; "where"; "group by"; "explain"]);
   ("docker", ["image"; "container"; "dockerfile"; "build"; "compose"; "registry"; "volume"; "network"]);
   ("kubernetes", ["pod"; "deployment"; "service"; "ingress"; "namespace"; "cluster"; "helm"; "scaling"]);
   ("pytorch", ["tensor"; "autograd"; "module"; "optimizer"; "dataset"; "dataloader"; "backward"])].

Record Grade := mkGrade {
  verdict : string;
  feedback : pyobj
}.

(** [sum(1 for k in kws if k in text)] *)
Definition count_hits (kws : list string) (text : string) : nat :=
  length (List.filter (fun k => contains k text) kws).

Definition _heuristic_grade (q : Question) (answer : string) : Grade :=
  let topic := lower (topic q) in
  let text := " " +:+ lower answer +:+ " " in
  let kws := default [] (assoc topic KEYWORDS) in
  let hits := count_hits kws text in
  let verdict :=
    if (2 <=? hits)%nat || (80 <=? String.length (strip answer))%nat
    then "pass" else "needs_improvement" in
  let feedback :=
    if String.eqb verdict "pass" then "Covers several key concepts."
    else "Add key concepts and a small code/example to strengthen the answer." in
  {| verdict := verdict; feedback := PStr feedback |}.

(** [for q in v]: the items a value yields when it is iterated. *)
Definition iterate (v : pyobj) : res (list pyobj) :=
  match v with
  | PList l => Ret l
  | PDict kv => Ret (List.map (fun e => PStr (fst e)) kv)
  | PStr s => Ret (List.map (fun c => PStr (String c EmptyString)) (list_ascii_of_string s))
  | _ => Raise (Exn TypeError ("'" +:+ type_name_of v +:+ "' object is not iterable"))
  end.

(** [x or y] *)
Definition por (x y : pyobj) : pyobj := if truthy x then x else y.

(** [d.get(k)] *)
Definition dict_get (d : list (string * pyobj)) (k : string) : pyobj :=
  default PNone (assoc k d).

Section Config.
(** Settings read from the environment when the module is loaded. *)
Variable PROVIDER OPENAI_MODEL OLLAMA_MODEL : string.
Variable QUESTIONS_PER_TOPIC MAX_TOPICS : Z.
Variable TEMPERATURE : Q.
Variable EVAL_ANSWERS : bool.
(** Collaborators. *)
Variable OPENAI_MODEL_DEFAULT : string.
Variable uniform : nat -> Q.
Variable openai : backend.
Variable ollama_chat : request -> res pyobj.
Variable json_loads : string -> res pyobj.
Variable json_dumps : pyobj -> string.
Variable str_compound : pyobj -> string.

(** The loop of [_cap_per_topic]: [per] counts the items seen per topic,
    [out] keeps an item while its topic's count is within the limit. *)
Definition cap_step (st : gmap string Z * list Question) (q : Question)
    : gmap string Z * list Question :=
  let '(per, out) := st in
  let t := topic q in
  let per := <[t := (default 0 (per !! t) + 1)%Z]> per in
  if (default 0 (per !! t) <=? QUESTIONS_PER_TOPIC)%Z then (per, out ++ [q])
  else (per, out).

Definition _cap_per_topic (items : list Question) : list Question :=
  snd (fold_left cap_step items (∅, [])).

Definition _fewshot_snippets (stack : stack_arg) : list Question :=
  let topics := _topics stack in
  let out :=
    fold_left (fun out t =>
                 match assoc t FEWSHOTS with
                 | Some shots => out ++ shots
                 | None => out
                 end)
              (slice_to MAX_TOPICS topics) [] in
  slice_to (Z.max QUESTIONS_PER_TOPIC 3) out.

Definition _fallback (stack : stack_arg) : list Question :=
  let topics := _topics stack in
  let topics := if is_empty_list topics then ["General"] else topics in
  let base :=
    fold_left (fun base t => base ++ fallback_items t)
              (if (0 <? MAX_TOPICS)%Z then slice_to MAX_TOPICS topics else topics) [] in
  _cap_per_topic (_validate_questions base).

(** [openai_chat(messages, model=..., temperature=...)], with the defaults
    of the other parameters; the events of the call are not kept. *)
Definition openai_chat (messages : list (string * string)) (model : string)
    (temperature : Q) : res ChatResult :=
  bind (chat OPENAI_MODEL_DEFAULT uniform openai messages (Some model) temperature 30 5)
       (fun r => Ret (fst r)).

Definition a_few_shot (q : Question) : pyobj :=
  PDict [("topic", PStr (topic q)); ("difficulty", PStr (difficulty q));
         ("question", PStr (question q))].

Definition generation_messages (examples : list Question) (user_prompt : string)
    : list (string * string) :=
  [("system", SYSTEM_PROMPT);
   ("user", if is_empty_list examples then "No examples."
            else json_dumps (PDict [("examples", PList (List.map a_few_shot examples))]));
   ("user", user_prompt)].

(** The first part of the [try] of [generate_questions]: either the text
    of the backend ([inl]) or the early [return] of the fallback ([inr]). *)
Definition generation_content (stack_dict : stack_arg) (examples : list Question)
    (user_prompt : string) : res (pyobj + (list Question * string)) :=
  if String.eqb PROVIDER "openai" then
    bind (openai_chat (generation_messages examples user_prompt) OPENAI_MODEL TEMPERATURE)
      (fun res =>
         if negb (ok res) then Ret (inr (_fallback stack_dict, "fallback:" +:+ error res))
         else Ret (inl (content res)))
  else if String.eqb PROVIDER "ollama" then
    bind (ollama_chat {| req_model := OLLAMA_MODEL; req_temperature := TEMPERATURE;
                         req_messages := generation_messages examples user_prompt;
                         req_timeout := 0 |})
      (fun resp =>
         bind (getitem resp "message") (fun message =>
         bind (getitem message "content") (fun content => Ret (inl content))))
  else Raise (Exn RuntimeError ("Unknown PROVIDER: " +:+ PROVIDER)).

(** The rest of the [try]: extraction, validation, the per-topic limit. *)
Definition generation_parse (content : pyobj) : res (list Question * string) :=
  bind (extract_first_json_object json_loads str_compound content) (fun data =>
  bind (iterate (default (PList []) (assoc "questions" data))) (fun raw_items =>
  let items := _validate_questions raw_items in
  if is_empty_list items then Raise (Exn ValueError "Empty or invalid questions")
  else Ret (_cap_per_topic items, ""))).

Definition generate_questions (stack : stack_arg) (language : string)
    : list Question * string :=
  let stack_dict := StackDict (_as_dict stack) in
  let nl := String (ascii_of_nat 10) EmptyString in
  let user_prompt :=
    GEN_QUESTIONS_INSTRUCTION
    +:+ nl +:+ nl +:+ "Declared tech stack:" +:+ nl +:+ _format_stack stack_dict +:+ nl +:+ nl
    +:+ (if is_empty language then ""
         else "Respond in ISO language '" +:+ language +:+ "'. ")
    +:+ "Return JSON only." in
  let examples := _fewshot_snippets stack_dict in
  let body :=
    bind (generation_content stack_dict examples user_prompt) (fun r =>
      match r with
      | inr early => Ret early
      | inl content => generation_parse content
      end) in
  match body with
  | Ret r => r
  | Raise e => (_fallback stack_dict, "fallback:" +:+ str_exn e)
  end.

(** [x.lower()] on a value that may not be a text *)
Definition str_lower (x : pyobj) : res string :=
  match x with
  | PStr s => Ret (lower s)
  | _ => Raise (no_attribute x "lower")
  end.

Definition grade_answer (q : Question) (answer : string) (language : string) : Grade :=
  if negb EVAL_ANSWERS || negb (String.eqb PROVIDER "openai") then _heuristic_grade q answer
  else
    let rubric :=
      "Topic: " +:+ topic q +:+ ". Difficulty: " +:+ difficulty q +:+ "."
      +:+ " Judge correctness, clarity, key concepts, and presence of a brief example when appropriate. Reply JSON only." in
    let messages :=
      [("system", "You are a strict but fair technical interviewer. Reply with JSON only.");
       ("user", json_dumps (PDict [("rubric", PStr rubric); ("question", PStr (question q));
                                   ("answer", PStr answer); ("language", PStr language)]))] in
    let body :=
      bind (openai_chat messages OPENAI_MODEL (1 # 10)) (fun res =>
        if negb (ok res) then Ret (_heuristic_grade q answer)
        else
          bind (extract_first_json_object json_loads str_compound (content res)) (fun data =>
          bind (str_lower (por (dict_get data "verdict") (PStr "needs_improvement"))) (fun v =>
          let verdict := replace_char " " "_" v in
          let feedback := por (dict_get data "feedback") (PStr "") in
          if negb (bool_decide (verdict ∈ ["pass"; "needs_improvement"]))
          then Ret (_heuristic_grade q answer)
          else Ret {| verdict := verdict; feedback := feedback |}))) in
    match body with
    | Ret g => g
    | Raise _ => _heuristic_grade q answer
    end.

End Config.

End Llm.

(* ===================================================================== *)
(** * app.py *)
(* ===================================================================== *)

Module App.
Import Py Schemas ModelClient Utils Prompts Llm.

(** [ensure_text] on a text: the text itself.  Only texts reach it from the
    chat input. *)
Definition ensure_text (x : string) : string := x.

(** ** End-of-conversation test *)

Definition is_exit (text : string) : bool :=
  let lower := lower (strip (ensure_text text)) in
  let tokens := runs is_word lower in
  existsb (fun k => bool_decide (k ∈ tokens) || String.eqb k lower) END_KEYWORDS.

(** ** Field validators *)

Definition is_blank (c : ascii) : bool := Ascii.eqb c " ".

Definition name_char (c : ascii) : bool :=
  is_alpha c || Ascii.eqb c "." || Ascii.eqb c "'" || Ascii.eqb c "-".

(** [re.fullmatch(r"[A-Za-z][A-Za-z.'\-]{1,}", p)] *)
Definition name_part_ok (p : string) : bool :=
  match p with
  | String c (String d rest) => is_alpha c && name_char d && sforall name_char rest
  | _ => false
  end.

Definition validate_full_name (name : string) : res string :=
  let s := collapse_spaces (strip (ensure_text name)) in
  let parts := List.filter (fun p => negb (is_empty p)) (split_on is_blank s) in
  if (length parts <? 2)%nat then
    Raise (Exn ValueError "Please enter first and last name")
  else if existsb (fun p => negb (name_part_ok p)) parts then
    Raise (Exn ValueError "Name must contain only letters and common separators")
  else if (String.length s <? 4)%nat || (100 <? String.length s)%nat then
    Raise (Exn ValueError "Name length must be 4–100 characters")
  else Ret (join " " (List.map capitalize parts)).

Definition TECH_ROLE_KEYWORDS : list string :=
  ["engineer"; "developer"; "dev"; "data"; "ml"; "ai"; "machine"; "learning"; "backend"; "front";
   "frontend"; "full"; "stack"; "fullstack"; "devops"; "site"; "reliability"; "sre"; "mobile";
   "android"; "ios"; "qa"; "test"; "testing"; "automation"; "cloud"; "platform"; "security";
   "analyst"; "scientist"; "architect"; "etl"; "mle"; "nlp"; "cv"; "vision"; "infra";
   "infrastructure"].

Definition role_char (c : ascii) : bool :=
  is_alpha c || is_digit c
  || bool_decide (c ∈ [" "; "/"; "&"; "+"; "-"; "_"; "."]%char).

(** [re.fullmatch(r"[A-Za-z0-9 /&+\-_.]{2,50}", it)] *)
Definition role_ok (it : string) : bool :=
  sforall role_char it && (2 <=? String.length it)%nat && (String.length it <=? 50)%nat.

Definition check_role (ok : res (list string)) (it : string) : res (list string) :=
  bind ok (fun ok =>
    if negb (role_ok it) then
      Raise (Exn ValueError ("Role contains invalid characters: " +:+ it))
    else
      let tokens := runs is_alpha (lower it) in
      if negb (existsb (fun k => bool_decide (k ∈ tokens)) TECH_ROLE_KEYWORDS) then
        Raise (Exn ValueError ("Role seems non‑technical: " +:+ it))
      else Ret (ok ++ [it])).

Definition validate_positions_strict (text : string) : res (list string) :=
  let items := csv_or_list (ensure_text text) in
  if is_empty_list items then Raise (Exn ValueError "Please provide at least one role")
  else fold_left check_role items (Ret []).

(** ** Stack classifier: vocabulary *)

Definition KNOWN : list (string * list string) :=
  [("languages",
    ["Python"; "JavaScript"; "TypeScript"; "Java"; "C++"; "C#"; "Go"; "Rust"; "Kotlin"; "Swift";
     "Ruby"; "PHP"; "R"; "Scala"; "MATLAB"; "SQL"; "Bash"; "Shell"]);
   ("frameworks",
    ["Django"; "Flask"; "FastAPI"; "Spring"; "Spring Boot"; "React"; "Next.js"; "Angular"; "Vue";
     "Express"; "Node.js"; ".NET"; "ASP.NET"; "Laravel"; "Rails"; "Svelte"; "Nuxt"; "NestJS";
     "PyTorch"; "TensorFlow"; "Keras"; "scikit-learn"; "XGBoost"; "LightGBM"; "pandas"; "NumPy"]);
   ("databases",
    ["PostgreSQL"; "MySQL"; "SQLite"; "MongoDB"; "Redis"; "Cassandra"; "Elasticsearch"; "Oracle";
     "SQL Server"; "DynamoDB"; "Snowflake"; "BigQuery"]);
   ("tools",
    ["Docker"; "Kubernetes"; "AWS"; "GCP"; "Azure"; "Git"; "GitHub"; "GitLab"; "Bitbucket";
     "Terraform"; "Ansible"; "Jenkins"; "Airflow"; "Kafka"; "RabbitMQ"; "Nginx"; "Linux"; "VSCode"])].

Definition ALIASES : list (string * string) :=
  [("postgres", "PostgreSQL"); ("postgresql", "PostgreSQL"); ("postgre", "PostgreSQL");
   ("node", "Node.js"); ("nodejs", "Node.js"); ("reactjs", "React"); ("nextjs", "Next.js");
   ("ms sql", "SQL Server"); ("mssql", "SQL Server"); ("google cloud", "GCP"); ("gcloud", "GCP");
   ("amazon web services", "AWS"); ("azure devops", "Azure"); ("k8s", "Kubernetes");
   ("tf", "Terraform"); ("scikit learn", "scikit-learn"); ("pytorch lightning", "PyTorch");
   ("ts", "TypeScript"); ("js", "JavaScript")].

Definition NON_TECH : list string :=
  ["snake"; "cat"; "dog"; "human"; "food"; "movie"; "music"; "song"; "dance"].

(** The two loops that fill [INDEX_LOWER] and [ALIASES_LOWER]. *)
Definition INDEX_LOWER : gmap string (string * string) :=
  fold_left (fun index '(cat, vocab) =>
               fold_left (fun index item => <[casefold item := (cat, item)]> index) vocab index)
            KNOWN ∅.

Definition ALIASES_LOWER : gmap string (string * string) :=
  fold_left (fun aliases '(alias, canon) =>
               match INDEX_LOWER !! casefold canon with
               | Some hit => <[casefold alias := hit]> aliases
               | None => aliases
               end)
            ALIASES ∅.

(** [list(INDEX_LOWER.keys())], in insertion order *)
Definition ALL_CANON_KEYS : list string :=
  List.concat (List.map (fun '(_, vocab) => List.map casefold vocab) KNOWN).

(** [re.split(r"[;,/|]+|\s{2,}", s)].  The scan remembers whether it is
    inside a run of separator signs or inside a run of white space; the
    head of the result is the piece being read. *)
Inductive scan_mode := InText | InSigns | InSpaces.

Definition sep_sign (c : ascii) : bool :=
  bool_decide (c ∈ [";"; ","; "/"; "|"]%char).

Definition starts_with_space (s : string) : bool :=
  match s with
  | String d _ => is_space d
  | EmptyString => false
  end.

Definition push_char (c : ascii) (pieces : list string) : list string :=
  match pieces with
  | h :: t => String c h :: t
  | [] => [String c EmptyString]
  end.

Fixpoint split_free (m : scan_mode) (s : string) : list string :=
  match s with
  | EmptyString => [EmptyString]
  | String c s' =>
      if sep_sign c then
        match m with
        | InSigns => split_free InSigns s'
        | _ => EmptyString :: split_free InSigns s'
        end
      else if is_space c then
        match m with
        | InSpaces => split_free InSpaces s'
        | _ =>
            if starts_with_space s' then EmptyString :: split_free InSpaces s'
            else push_char c (split_free InText s')
        end
      else push_char c (split_free InText s')
  end.

(** [s.splitlines()]: a line ends at a line feed, a carriage return (with
    the line feed that follows it, if any), a vertical tab, a form feed or
    one of the separators 28..30; no empty last line. *)
Definition is_linebreak (c : ascii) : bool :=
  between 10 13 c || between 28 30 c.

Definition starts_with_lf (s : string) : bool :=
  match s with
  | String d _ => (code d =? 10)%nat
  | EmptyString => false
  end.

Fixpoint splitlines (s : string) : list string :=
  match s with
  | EmptyString => []
  | String c s' =>
      if (code c =? 13)%nat && starts_with_lf s' then splitlines s'
      else if is_linebreak c then EmptyString :: splitlines s'
      else push_char c (splitlines s')
  end.

(** The four empty buckets. *)
Definition empty_buckets : gmap string (list string) :=
  model_dump (mkTechStack [] [] [] []).

(** [any(buckets.values())] *)
Definition any_bucket (buckets : gmap string (list string)) : bool :=
  existsb (fun cat => negb (is_empty_list (get_list buckets cat))) CATEGORIES.

(** [buckets[cat].append(item)] guarded by [item not in buckets[cat]] *)
Definition add_hit (buckets : gmap string (list string)) (cat item : string)
    : gmap string (list string) :=
  if bool_decide (item ∈ get_list buckets cat) then buckets
  else <[cat := get_list buckets cat ++ [item]]> buckets.

(** ** Field resolver *)

Definition FIELD_ORDER : list string :=
  ["consent"; "full_name"; "email"; "phone"; "years_experience"; "desired_positions";
   "current_location"; "tech_stack"].

(** [for f in order: if f in missing: return f] and the final [return ""] *)
Definition next_missing_field (cand : Candidate) : string :=
  let missing := missing_fields cand in
  default "" (List.find (fun f => bool_decide (f ∈ missing)) FIELD_ORDER).

(** ** Session state *)

Record Prefs := mkPrefs {
  preferred_difficulty : string;
  recent_topics : list string
}.

(** A personalization profile, with the shape [save_profile] writes. *)
Record Profile := mkProfile {
  prof_language : option string;
  prof_preferred_difficulty : option string;
  prof_recent_topics : option (list string)
}.

Definition no_profile : Profile :=
  {| prof_language := None; prof_preferred_difficulty := None; prof_recent_topics := None |}.

Record Answer := mkAnswer {
  ans_question : Question;
  ans_answer : string;
  ans_verdict : string;
  ans_feedback : string
}.

(** [list(dict.fromkeys(l))]: the first occurrences, in order. *)
Fixpoint dedup_first (seen l : list string) : list string :=
  match l with
  | [] => []
  | x :: l' =>
      if bool_decide (x ∈ seen) then dedup_first seen l'
      else x :: dedup_first (x :: seen) l'
  end.

(** [re.fullmatch(r"[A-Za-z]{2,3}(-[A-Za-z]{2})?", s)] *)
Definition iso_code_ok (s : string) : bool :=
  let tail_ok (r : string) :=
    match r with
    | EmptyString => true
    | String h (String a (String b EmptyString)) =>
        Ascii.eqb h "-" && is_alpha a && is_alpha b
    | _ => false
    end in
  match s with
  | String a (String b r) =>
      is_alpha a && is_alpha b
      && (tail_ok r
          || match r with
             | String c r' => is_alpha c && tail_ok r'
             | EmptyString => false
             end)
  | _ => false
  end.

(** [s.split("-")[0]] *)
Definition before_dash (s : string) : string :=
  match split_once "-" s with
  | Some (a, _) => a
  | None => s
  end.

Definition I18N_en : list (string * string) :=
  [("greet", "Hello! I’m TalentScout, the hiring assistant for technology roles. I’ll gather a few details and then ask tailored technical questions; type 'exit' or 'bye' anytime to finish.");
   ("ask_name", "What is the full name?");
   ("ask_email", "What is the email address?");
   ("ask_phone", "What is the phone number with country code ");
   ("ask_yexp", "How many years of professional experience?");
   ("ask_roles", "What position(s) are desired? (e.g., 'Backend Engineer; MLE')");
   ("ask_loc", "What is the current location (City, Country)?");
   ("ask_stack", "Could you share the primary technologies worked with recently? For example: Python, Django, PostgreSQL, Docker.");
   ("thanks", "Thanks for the time. This conversation is now closed. Expect a follow‑up email with next steps.")].

Definition I18N_hi : list (string * string) :=
  [("greet", "नमस्ते! मैं TalentScout हूँ, तकनीकी भूमिकाओं के लिए भर्ती सहायक। कुछ विवरण लेकर उपयुक्त तकनीकी प्रश्न पूछूँगा; समाप्त करने के लिए 'exit' या 'bye' टाइप करें।");
   ("ask_name", "पूरा नाम क्या है?");
   ("ask_email", "ईमेल पता क्या है?");
   ("ask_phone", "फ़ोन नंबर देश कोड सहित");
   ("ask_yexp", "कुल अनुभव (वर्षों में) कितना है?");
   ("ask_roles", "वांछित पद क्या हैं? (उदा., 'Backend Engineer; MLE')");
   ("ask_loc", "वर्तमान स्थान (शहर, देश) क्या है?");
   ("ask_stack", "हाल ही में किन तकनीकों पर काम किया है? उदाहरण: Python, Django, PostgreSQL, Docker.");
   ("thanks", "समय देने के लिए धन्यवाद। यह वार्तालाप अब समाप्त है। आगे की प्रक्रिया की सूचना दी जाएगी।")].

Definition I18N : list (string * list (string * string)) :=
  [("en", I18N_en); ("hi", I18N_hi)].

Record Sentiment := mkSentiment {
  label : string;
  score : Q
}.

Record Meta := mkMeta {
  meta_lang : string;
  meta_sentiment : Sentiment
}.

Record Message := mkMessage {
  msg_role : string;
  msg_content : string;
  msg_meta : option Meta
}.

(** [st.session_state], as far as the conversation uses it.  The stored
    candidate is the dictionary a [Candidate] dumps, so it is kept as the
    record itself: building a [Candidate] from [d] and dumping it gives [d] back.  The
    candidate identifier is used by the side bar only and is left out. *)
Record State := mkState {
  messages : list Message;
  candidate : Candidate;
  phase : string;
  questions : list Question;
  q_index : Z;
  answers : list Answer;
  language : string;
  prefs : Prefs
}.

Definition set_messages (v : list Message) (st : State) : State :=
  mkState v (candidate st) (phase st) (questions st) (q_index st) (answers st)
          (language st) (prefs st).
Definition set_candidate (v : Candidate) (st : State) : State :=
  mkState (messages st) v (phase st) (questions st) (q_index st) (answers st)
          (language st) (prefs st).
Definition set_phase (v : string) (st : State) : State :=
  mkState (messages st) (candidate st) v (questions st) (q_index st) (answers st)
          (language st) (prefs st).
Definition set_questions (v : list Question) (st : State) : State :=
  mkState (messages st) (candidate st) (phase st) v (q_index st) (answers st)
          (language st) (prefs st).
Definition set_q_index (v : Z) (st : State) : State :=
  mkState (messages st) (candidate st) (phase st) (questions st) v (answers st)
          (language st) (prefs st).
Definition set_answers (v : list Answer) (st : State) : State :=
  mkState (messages st) (candidate st) (phase st) (questions st) (q_index st) v
          (language st) (prefs st).
Definition set_language (v : string) (st : State) : State :=
  mkState (messages st) (candidate st) (phase st) (questions st) (q_index st) (answers st)
          v (prefs st).
Definition set_prefs (v : Prefs) (st : State) : State :=
  mkState (messages st) (candidate st) (phase st) (questions st) (q_index st) (answers st)
          (language st) v.

(** The state of a new session. *)
Definition initial_state : State :=
  {| messages := []; candidate := Candidate_default; phase := "greet"; questions := [];
     q_index := 0; answers := []; language := "en";
     prefs := {| preferred_difficulty := "auto"; recent_topics := [] |} |}.

(** [x or y] on texts *)
Definition sor (x y : string) : string := if is_empty x then y else x.

Definition say (role text : string) (meta : option Meta) (st : State) : State :=
  set_messages (messages st ++ [mkMessage role text meta]) st.

Definition t (key : string) (st : State) : string :=
  let lang := before_dash (sor (language st) "en") in
  let table := default I18N_en (assoc lang I18N) in
  default (default key (assoc key I18N_en)) (assoc key table).

Definition ask_for (field : string) (st : State) : State :=
  let prompts :=
    [("consent", "May I collect a few basic details to begin the screening? Reply 'yes' to proceed or 'exit' to stop.");
     ("full_name", t "ask_name" st);
     ("email", t "ask_email" st);
     ("phone", t "ask_phone" st);
     ("years_experience", t "ask_yexp" st);
     ("desired_positions", t "ask_roles" st);
     ("current_location", t "ask_loc" st);
     ("tech_stack", t "ask_stack" st)] in
  say "assistant" (default "" (assoc field prompts)) None st.

(** [questions[i]] guarded by [0 <= i < len(questions)] *)
Definition current_question (st : State) : option Question :=
  let i := q_index st in
  if (0 <=? i)%Z && (i <? Z.of_nat (length (questions st)))%Z
  then questions st !! Z.to_nat i else None.

Definition ask_current_question (st : State) : State :=
  match current_question st with
  | Some q =>
      say "assistant"
          ("Q" +:+ pretty (q_index st + 1)%Z +:+ ". [" +:+ topic q +:+ ", " +:+ difficulty q
           +:+ "] " +:+ question q) None st
  | None => say "assistant" "No more questions." None st
  end.

(** [s.rsplit(sep, 1)] when [sep] occurs in [s] *)
Fixpoint rsplit_once (sep : ascii) (s : string) : option (string * string) :=
  match s with
  | EmptyString => None
  | String c s' =>
      match rsplit_once sep s' with
      | Some (a, b) => Some (String c a, b)
      | None => if Ascii.eqb c sep then Some (EmptyString, s') else None
      end
  end.

Record GeoAddress := mkGeoAddress {
  addr_country : option string;
  addr_city : option string;
  addr_town : option string;
  addr_village : option string
}.

(** [x or y] on an optional text and a text *)
Definition oor (x : option string) (y : string) : string :=
  if not_text x then y else default "" x.

Definition COMMON : list string :=
  ["gmail.com"; "yahoo.com"; "outlook.com"; "hotmail.com"; "icloud.com";
   "proton.me"; "protonmail.com"; "live.com"; "aol.com"; "pm.me"].

Inductive outcome :=
| Completed (st : State)
| Stopped (st : State)
| Crashed (e : exn) (st : State).

Section Conversation.
(** Settings of llm.py and of the backend call. *)
Variable PROVIDER OPENAI_MODEL OLLAMA_MODEL : string.
Variable QUESTIONS_PER_TOPIC MAX_TOPICS : Z.
Variable TEMPERATURE : Q.
Variable EVAL_ANSWERS : bool.
Variable OPENAI_MODEL_DEFAULT : string.
Variable uniform : nat -> Q.
Variable openai : backend.
Variable ollama_chat : request -> res pyobj.
Variable json_loads : string -> res pyobj.
Variable json_dumps : pyobj -> string.
Variable str_compound : pyobj -> string.
(** rapidfuzz: [process.extractOne] with the two scorers, giving the best
    choice and its score. *)
Variable extractOne_token_set : string -> list string -> option (string * Q).
Variable extractOne_WRatio : string -> list string -> option (string * Q).
(** pycountry: the country names, and [countries.lookup] giving the name
    and the two-letter code. *)
Variable COUNTRIES : list string.
Variable countries_lookup : string -> res (string * string).
(** geopy: [geocode(city, country_codes=..., ...)], the address of the
    place found. *)
Variable geocode : string -> option string -> res (option GeoAddress).
(** The e-mail collaborators: Unicode normalisation together with the
    removal of the zero-width characters (the identity on ASCII text), the
    search for an address-shaped piece, [validate_email], the deliverability
    setting and the profile store. *)
Variable normalize_unicode : string -> string.
Variable search_email_shape : string -> option string.
Variable validate_email : string -> bool -> res string.
Variable EMAIL_DELIVERABILITY : string.
Variable load_profile : string -> res (option Profile).
(** phonenumbers *)
Variable PhoneNumber : Type.
Variable phonenumbers_parse : string -> option string -> res PhoneNumber.
Variable is_valid_number : PhoneNumber -> bool.
Variable format_E164 : PhoneNumber -> string.
Variable DEFAULT_REGION : option string.
(** [float(text)] *)
Variable float_of_string : string -> res pyfloat.
(** langdetect and vader; [round3] is [round(x, 3)]. *)
Variable langdetect_detect : string -> res string.
Variable vader_compound : option (string -> Q).
Variable round3 : Q -> Q.

(** *** utils.py: the two text helpers of the turn *)

Definition detect_language (text default : string) : string :=
  let t := strip text in
  if is_empty t then default
  else match langdetect_detect t with
       | Ret code => sor code default
       | Raise _ => default
       end.

Definition analyze_sentiment (text : string) : Sentiment :=
  match vader_compound with
  | None => {| label := "neutral"; score := 1 # 2 |}
  | Some polarity =>
      let s := strip text in
      if is_empty s then {| label := "neutral"; score := 1 # 2 |}
      else
        let comp := polarity s in
        {| label := if Qle_bool (5 # 100) comp then "positive"
                    else if Qle_bool comp (- (5 # 100)) then "negative"
                    else "neutral";
           score := round3 ((comp + 1) / 2) |}
  end.

(** *** Stack classifier *)

Definition _match_known (token : string) : res (option (string * string)) :=
  let tkn := strip token in
  if is_empty tkn then Ret None
  else
    let low := casefold tkn in
    if bool_decide (low ∈ NON_TECH) then Ret None
    else match INDEX_LOWER !! low with
         | Some hit => Ret (Some hit)
         | None =>
             match ALIASES_LOWER !! low with
             | Some hit => Ret (Some hit)
             | None =>
                 match extractOne_token_set low ALL_CANON_KEYS with
                 | Some (best, best_score) =>
                     if Qle_bool 92 best_score then
                       match INDEX_LOWER !! best with
                       | Some hit => Ret (Some hit)
                       | None => Raise (Exn KeyError ("'" +:+ best +:+ "'"))
                       end
                     else Ret None
                 | None => Ret None
                 end
             end
         end.

(** One step of the inner loops of [parse_stack]: match the token and put
    the hit into its bucket; [only] is the category a hit has to have, when
    the loop asks for one. *)
Definition match_into (only : option string) (acc : res (gmap string (list string)))
    (token : string) : res (gmap string (list string)) :=
  bind acc (fun buckets =>
  bind (_match_known token) (fun hit =>
    match hit with
    | Some (cat, item) =>
        match only with
        | Some wanted =>
            if String.eqb cat wanted then Ret (add_hit buckets cat item) else Ret buckets
        | None => Ret (add_hit buckets cat item)
        end
    | None => Ret buckets
    end)).

Definition str_of : pyobj -> string := Utils.py_str str_compound.

(** 1) the JSON attempt; [None] when the [try] leaves without a result *)
Definition parse_stack_json (s : string) : option (gmap string (list string)) :=
  match json_loads s with
  | Raise _ => None
  | Ret (PDict data) =>
      let filled :=
        fold_left (fun acc cat =>
                     bind acc (fun buckets =>
                     bind (iterate (por (default (PList []) (assoc cat data)) (PList [])))
                       (fun items =>
                          fold_left (match_into (Some cat)) (List.map str_of items)
                                    (Ret buckets))))
                  CATEGORIES (Ret empty_buckets) in
      match filled with
      | Ret buckets => if any_bucket buckets then Some buckets else None
      | Raise _ => None
      end
  | Ret _ => None
  end.

(** 2) one labeled line *)
Definition labeled_line (acc : res (gmap string (list string) * bool)) (line : string)
    : res (gmap string (list string) * bool) :=
  bind acc (fun '(buckets, any_label) =>
    match split_once ":" line with
    | None => Ret (buckets, any_label)
    | Some (key, val) =>
        let k := lower (strip key) in
        if bool_decide (k ∈ CATEGORIES) then
          bind (fold_left (match_into (Some k)) (csv_or_list val) (Ret buckets))
               (fun buckets => Ret (buckets, true))
        else Ret (buckets, any_label)
    end).

Definition parse_stack (text : string) : res (gmap string (list string)) :=
  let s := ensure_text text in
  match parse_stack_json s with
  | Some buckets => Ret buckets
  | None =>
      bind (fold_left labeled_line (splitlines s) (Ret (empty_buckets, false)))
        (fun '(buckets, any_label) =>
           if any_label && any_bucket buckets then Ret buckets
           else fold_left (match_into None) (split_free InText s) (Ret buckets))
  end.

(** *** Location *)

Definition _correct_country (name : string) : res (option string) :=
  match extractOne_WRatio (strip (ensure_text name)) COUNTRIES with
  | Some (cand, score) => Ret (if Qle_bool 90 score then Some cand else None)
  | None => Raise (Exn TypeError "cannot unpack non-iterable NoneType object")
  end.

Definition normalize_location_input (text : string) : res string :=
  let s := collapse_spaces (strip (ensure_text text)) in
  match split_once "," s with
  | None => Raise (Exn ValueError "Please provide location as 'City, Country'")
  | Some (city_part, country_part) =>
      let raw_city := strip city_part in
      let raw_country := strip country_part in
      if is_empty raw_city || is_empty raw_country then
        Raise (Exn ValueError "Please provide both city and country")
      else
        bind (_correct_country raw_country) (fun corrected =>
        let fixed_country := oor corrected raw_country in
        match countries_lookup fixed_country with
        | Raise _ => Raise (Exn ValueError "Country not recognized, please correct spelling")
        | Ret (country_name, country_code) =>
            bind (geocode raw_city (Some country_code)) (fun loc =>
            match loc with
            | None =>
                bind (geocode raw_city None) (fun probe =>
                match probe with
                | Some addr =>
                    if negb (not_text (addr_country addr)) then
                      Raise (Exn ValueError
                               ("City not found in " +:+ country_name +:+ ". Did you mean "
                                +:+ title raw_city +:+ ", " +:+ default "" (addr_country addr)
                                +:+ "?"))
                    else
                      Raise (Exn ValueError
                               ("City '" +:+ raw_city +:+ "' not found in " +:+ country_name
                                +:+ ". Please re‑enter."))
                | None =>
                    Raise (Exn ValueError
                             ("City '" +:+ raw_city +:+ "' not found in " +:+ country_name
                              +:+ ". Please re‑enter."))
                end)
            | Some addr =>
                let geo_country := addr_country addr in
                if not_text geo_country
                   || negb (String.eqb (lower (default "" geo_country)) (lower country_name))
                then
                  Raise (Exn ValueError
                           ("City not found in " +:+ country_name +:+ ". Please re‑enter."))
                else
                  let city_norm :=
                    oor (addr_city addr) (oor (addr_town addr) (oor (addr_village addr) raw_city)) in
                  Ret (title city_norm +:+ ", " +:+ country_name)
            end)
        end)
  end.

(** *** E-mail helpers of [validate_and_set] *)

Definition clean_email (s : string) : string :=
  let s := strip (normalize_unicode s) in
  match search_email_shape s with
  | Some m => m
  | None => s
  end.

Definition fix_domain (addr : string) : string :=
  match rsplit_once "@" addr with
  | None => addr
  | Some (local, dom) =>
      match extractOne_WRatio dom COMMON with
      | Some (cand, score) => if Qle_bool 92 score then local +:+ "@" +:+ cand else addr
      | None => addr
      end
  end.

(** *** The validation step *)

(** The [except Exception] branch: the generic reply; the record is left
    as it is. *)
Definition rejected (field : string) (st : State) : bool * State :=
  (false,
   say "assistant"
       ("That doesn't look valid for " +:+ field
        +:+ ". Please re-check and try again, or type 'exit' to finish.") None st).

(** The end of the [try]: [st.session_state.candidate = c.model_dump()] and
    [return True]. *)
Definition accepted (c : Candidate) (st : State) : bool * State :=
  (true, set_candidate c st).

Definition with_consent (c : Candidate) (v : bool) : Candidate :=
  mkCandidate v (full_name c) (email c) (phone c) (years_experience c)
              (desired_positions c) (current_location c) (tech_stack c) (Schemas.language c).
Definition with_full_name (c : Candidate) (v : string) : Candidate :=
  mkCandidate (consent c) (Some v) (email c) (phone c) (years_experience c)
              (desired_positions c) (current_location c) (tech_stack c) (Schemas.language c).
Definition with_email (c : Candidate) (v : string) : Candidate :=
  mkCandidate (consent c) (full_name c) (Some v) (phone c) (years_experience c)
              (desired_positions c) (current_location c) (tech_stack c) (Schemas.language c).
Definition with_phone (c : Candidate) (v : string) : Candidate :=
  mkCandidate (consent c) (full_name c) (email c) (Some v) (years_experience c)
              (desired_positions c) (current_location c) (tech_stack c) (Schemas.language c).
Definition with_years_experience (c : Candidate) (v : pyfloat) : Candidate :=
  mkCandidate (consent c) (full_name c) (email c) (phone c) (Some v)
              (desired_positions c) (current_location c) (tech_stack c) (Schemas.language c).
Definition with_desired_positions (c : Candidate) (v : list string) : Candidate :=
  mkCandidate (consent c) (full_name c) (email c) (phone c) (years_experience c)
              v (current_location c) (tech_stack c) (Schemas.language c).
Definition with_current_location (c : Candidate) (v : string) : Candidate :=
  mkCandidate (consent c) (full_name c) (email c) (phone c) (years_experience c)
              (desired_positions c) (Some v) (tech_stack c) (Schemas.language c).
Definition with_tech_stack (c : Candidate) (v : TechStack) : Candidate :=
  mkCandidate (consent c) (full_name c) (email c) (phone c) (years_experience c)
              (desired_positions c) (current_location c) (Some v) (Schemas.language c).
Definition with_language (c : Candidate) (v : string) : Candidate :=
  mkCandidate (consent c) (full_name c) (email c) (phone c) (years_experience c)
              (desired_positions c) (current_location c) (tech_stack c) (Some v).

(** [0 <= val <= 60] *)
Definition years_in_range (val : pyfloat) : bool :=
  match val with
  | Finite q => Qle_bool 0 q && Qle_bool q 60
  | _ => false
  end.

(** The profile found for an address is applied to the session. *)
Definition apply_profile (prof : Profile) (st : State) : State :=
  let st :=
    if not_text (prof_language prof) then st
    else set_language (default "" (prof_language prof)) st in
  let st :=
    if not_text (prof_preferred_difficulty prof) then st
    else set_prefs (mkPrefs (default "" (prof_preferred_difficulty prof))
                            (recent_topics (prefs st))) st in
  match prof_recent_topics prof with
  | Some (_ :: _ as topics) =>
      set_prefs (mkPrefs (preferred_difficulty (prefs st)) (take 8 topics)) st
  | _ => st
  end.

Definition set_email (c : Candidate) (ttxt : string) (st : State) : bool * State :=
  let mode := lower (strip EMAIL_DELIVERABILITY) in
  let raw := clean_email ttxt in
  match validate_email (fix_domain raw) false with
  | Raise _ => rejected "email" st
  | Ret normalized =>
      let checked :=
        if String.eqb mode "strict" then
          match validate_email normalized true with
          | Ret _ => Ret st
          | Raise e =>
              match exn_class_of e with
              | EmailNotValidError =>
                  Ret (say "assistant"
                           ("Email looks valid but DNS/MX couldn’t be verified ("
                            +:+ str_exn e
                            +:+ "). Proceeding; this will be re‑checked later.") None st)
              | _ => Raise e
              end
          end
        else Ret st in
      match checked with
      | Raise _ => rejected "email" st
      | Ret st =>
          let c := with_email c normalized in
          match load_profile normalized with
          | Raise _ => rejected "email" st
          | Ret prof => accepted c (apply_profile (default no_profile prof) st)
          end
      end
  end.

Definition set_tech_stack (c : Candidate) (text : string) (st : State) : bool * State :=
  match parse_stack text with
  | Raise _ => rejected "tech_stack" st
  | Ret parsed =>
      if negb (any_bucket parsed) then
        (false,
         set_candidate c
           (say "assistant"
                "That input doesn’t look like a technology list. Please enter items like 'Python, Django, PostgreSQL, Docker'."
                None st))
      else
        let c := with_tech_stack c
                   (mkTechStack (get_list parsed "languages") (get_list parsed "frameworks")
                                (get_list parsed "databases") (get_list parsed "tools")) in
        let topics := fold_left (fun topics k => topics ++ get_list parsed k) CATEGORIES [] in
        let st :=
          if is_empty_list topics then st
          else set_prefs (mkPrefs (preferred_difficulty (prefs st))
                                  (take 8 (dedup_first [] topics))) st in
        accepted c st
  end.

Definition validate_and_set (field text : string) (st : State) : bool * State :=
  let c := candidate st in
  let ttxt := strip (ensure_text text) in
  if String.eqb field "consent" then
    if is_affirmative ttxt then accepted (with_consent c true) st
    else
      (false,
       set_candidate c
         (say "assistant" "No problem. Type 'yes' to proceed with consent or 'exit' to end."
              None st))
  else if String.eqb field "full_name" then
    match validate_full_name ttxt with
    | Ret v => accepted (with_full_name c v) st
    | Raise _ => rejected field st
    end
  else if String.eqb field "email" then set_email c ttxt st
  else if String.eqb field "phone" then
    match phonenumbers_parse ttxt (if startswith "+" ttxt then None else DEFAULT_REGION) with
    | Raise _ => rejected field st
    | Ret num =>
        if negb (is_valid_number num) then rejected field st
        else accepted (with_phone c (format_E164 num)) st
    end
  else if String.eqb field "years_experience" then
    match float_of_string ttxt with
    | Raise _ => rejected field st
    | Ret val =>
        if negb (years_in_range val) then rejected field st
        else accepted (with_years_experience c val) st
    end
  else if String.eqb field "desired_positions" then
    match validate_positions_strict ttxt with
    | Ret v => accepted (with_desired_positions c v) st
    | Raise _ => rejected field st
    end
  else if String.eqb field "current_location" then
    match normalize_location_input ttxt with
    | Ret v => accepted (with_current_location c v) st
    | Raise _ => rejected field st
    end
  else if String.eqb field "tech_stack" then set_tech_stack c text st
  else accepted c st.

(** *** The turn step *)

Definition generate : stack_arg -> string -> list Question * string :=
  generate_questions PROVIDER OPENAI_MODEL OLLAMA_MODEL QUESTIONS_PER_TOPIC MAX_TOPICS
                     TEMPERATURE OPENAI_MODEL_DEFAULT uniform openai ollama_chat
                     json_loads json_dumps str_compound.

Definition grade : Question -> string -> string -> Grade :=
  grade_answer PROVIDER OPENAI_MODEL EVAL_ANSWERS OPENAI_MODEL_DEFAULT uniform openai
               json_loads json_dumps str_compound.

(** The greeting block: it runs on every pass of the script, before the
    input is read. *)
Definition greeting (st : State) : State :=
  if String.eqb (phase st) "greet" then
    set_phase "gather" (say "assistant" (t "greet" st) None st)
  else st.

(** The input is read: the language is detected and the message of the user
    is recorded. *)
Definition record_input (user_text : string) (st : State) : State :=
  let detected := detect_language user_text (sor (language st) "en") in
  let st := if negb (iso_code_ok (language st)) then set_language detected st else st in
  let sent := analyze_sentiment user_text in
  say "user" (ensure_text user_text) (Some (mkMeta (language st) sent)) st.

(** [if is_exit(user_text): ...; st.stop()] *)
Definition close_conversation (st : State) : State :=
  set_phase "end" (say "assistant" (t "thanks" st) None st).

(** The branch of the question phase. *)
Definition answer_turn (user_text : string) (st : State) : outcome :=
  match current_question st with
  | Some q =>
      let result := grade q (ensure_text user_text) (sor (language st) "en") in
      let verdict := title (replace_char "_" " " (verdict result)) in
      match feedback result with
      | PStr f =>
          let feedback := strip f in
          let st :=
            set_answers (answers st ++ [mkAnswer q (ensure_text user_text) verdict feedback]) st in
          let st :=
            say "assistant"
                (if is_empty feedback then "Evaluation: " +:+ verdict +:+ "."
                 else "Evaluation: " +:+ verdict +:+ ". " +:+ feedback) None st in
          let st := set_q_index (q_index st + 1)%Z st in
          if (q_index st <? Z.of_nat (length (questions st)))%Z then
            Completed (ask_current_question st)
          else
            Completed
              (set_phase "wrapup"
                 (say "assistant"
                      "Thanks for answering the questions. Type 'exit' to finish or share more details."
                      None st))
      | other => Crashed (no_attribute other "strip") st
      end
  | None =>
      Completed
        (say "assistant" "No more questions. Type 'exit' to finish or share more details."
             None st)
  end.

(** The branch of the other phases. *)
Definition gather_turn (user_text : string) (st : State) : outcome :=
  let cand := candidate st in
  let st :=
    if not_text (Schemas.language cand)
    then set_candidate (with_language cand (language st)) st else st in
  let cand := candidate st in
  let missing := next_missing_field cand in
  if is_empty missing then
    Completed (say "assistant" "Noted. Type 'exit' to conclude, or add more details." None st)
  else
    let '(valid, st) := validate_and_set missing user_text st in
    if valid then
      let cand := candidate st in
      let next_field := next_missing_field cand in
      if negb (is_empty next_field) then Completed (ask_for next_field st)
      else
        let stack_dict :=
          match tech_stack cand with
          | Some ts => StackDict (model_dump ts)
          | None => StackDict ∅
          end in
        let '(qs, err) := generate stack_dict (oor (Schemas.language cand) (language st)) in
        let st := set_answers [] (set_q_index 0 (set_questions qs st)) in
        if negb (is_empty_list (questions st)) then
          Completed (ask_current_question (set_phase "questions" st))
        else
          Completed
            (say "assistant"
                 "Unable to prepare questions right now. Please try again or type 'exit' to finish."
                 None st)
    else Completed (ask_for missing st).

(** One pass of the script with the text the user typed. *)
Definition turn (user_text : string) (st : State) : outcome :=
  let st := greeting st in
  if is_empty user_text then Completed st
  else
    let st := record_input user_text st in
    if is_exit user_text then Stopped (close_conversation st)
    else if String.eqb (phase st) "questions" then answer_turn user_text st
    else gather_turn user_text st.

End Conversation.

End App.

(* ===================================================================== *)
(** * The vocabulary of the properties

    What the statements below need besides the program: the rules as the
    specification words them, the invariants of the loops, and the concrete
    inputs of the examples. *)
(* ===================================================================== *)

Import Py Schemas ModelClient Utils Prompts Llm App.

(** ** The backend call *)

(** The failures after which the loop sleeps and tries again. *)
Definition transient (e : exn) : bool :=
  match exn_class_of e with
  | APIError | APIConnectionError | APITimeoutError => true
  | RateLimitError => negb (quota_exhausted e)
  | _ => false
  end.

(** One failed attempt that is tried again: the request and the sleep. *)
Definition pause (uniform : nat -> Q) (i : nat) : list event :=
  [Create i; Sleep i (_jittered_backoff i (uniform i) (1 # 2) 8)].

(** Four time-outs, then a completion with the text [c]. *)
Definition four_timeouts_then (c : string) (req : request) (i : nat) : res pyobj :=
  if (i <? 4)%nat then Raise (Exn APITimeoutError "Request timed out.")
  else Ret (ChatCompletion (PStr c)).

(** ** The field resolver *)

Definition text_present (x : option string) : bool :=
  match x with
  | Some (String _ _) => true
  | _ => false
  end.

(** The presence rule the code applies, field by field: consent given, a
    non-empty text, a number, a non-empty list, a stack that is not [None]. *)
Definition is_set (f : string) (c : Candidate) : bool :=
  if String.eqb f "consent" then consent c
  else if String.eqb f "full_name" then text_present (full_name c)
  else if String.eqb f "email" then text_present (email c)
  else if String.eqb f "phone" then text_present (phone c)
  else if String.eqb f "years_experience" then
    match years_experience c with Some _ => true | None => false end
  else if String.eqb f "desired_positions" then
    match desired_positions c with _ :: _ => true | [] => false end
  else if String.eqb f "current_location" then text_present (current_location c)
  else if String.eqb f "tech_stack" then
    match tech_stack c with Some _ => true | None => false end
  else true.

(** The presence rule as the specification words it: the same, except that
    a stack is set only when it is not null and at least one of its
    categories is non-empty. *)
Definition stack_has_entries (ts : TechStack) : bool :=
  negb (is_empty_list (languages ts)) || negb (is_empty_list (frameworks ts))
  || negb (is_empty_list (databases ts)) || negb (is_empty_list (tools ts)).

Definition is_set_spec (f : string) (c : Candidate) : bool :=
  if String.eqb f "tech_stack" then
    match tech_stack c with Some ts => stack_has_entries ts | None => false end
  else is_set f c.

(** The first field of the order that a rule leaves unset, or the empty
    text. *)
Definition first_unset (rule : string -> Candidate -> bool) (c : Candidate) : string :=
  default "" (List.find (fun f => negb (rule f c)) FIELD_ORDER).

(** A record in which every field has a value and the stack has no entry. *)
Definition record_with_empty_stack : Candidate :=
  {| consent := true;
     full_name := Some "Ada Lovelace";
     email := Some "ada@example.org";
     phone := Some "+442079460000";
     years_experience := Some (Finite 5);
     desired_positions := ["Backend Engineer"];
     current_location := Some "London, United Kingdom";
     tech_stack := Some (mkTechStack [] [] [] []);
     Schemas.language := Some "en" |}.

(** ** Schema validation *)

Definition is_text (v : option pyobj) : bool :=
  match v with
  | Some (PStr _) => true
  | _ => false
  end.

Definition text_of (v : option pyobj) : string :=
  match v with
  | Some (PStr s) => s
  | _ => ""
  end.

(** The item is a dictionary in which the three required fields are present
    and each holds a text. *)
Definition has_required_fields (q : pyobj) : bool :=
  match q with
  | PDict kw =>
      is_text (assoc "topic" kw) && is_text (assoc "question" kw)
      && is_text (assoc "difficulty" kw)
  | _ => false
  end.

(** The three fields of an item. *)
Definition fields_of (q : pyobj) : Question :=
  match q with
  | PDict kw =>
      {| topic := text_of (assoc "topic" kw); question := text_of (assoc "question" kw);
         difficulty := text_of (assoc "difficulty" kw) |}
  | _ => {| topic := ""; question := ""; difficulty := "" |}
  end.

Definition DIFFICULTIES : list string := ["beginner"; "intermediate"; "advanced"].

(** The schema as the specification words it: the required fields, and a
    difficulty among the three values. *)
Definition schema_valid_spec (q : pyobj) : bool :=
  has_required_fields q && bool_decide (difficulty (fields_of q) ∈ DIFFICULTIES).

(** An item with all the fields and a difficulty outside the three values. *)
Definition expert_item : pyobj :=
  PDict [("topic", PStr "Go"); ("question", PStr "How does the scheduler park a goroutine?");
         ("difficulty", PStr "expert")].

(** ** The limit per topic and the fallback *)

Definition on_topic (t : string) (q : Question) : bool := String.eqb (topic q) t.

(** The number of questions of a list that are on a topic. *)
Definition count_topic (t : string) (l : list Question) : nat :=
  length (List.filter (on_topic t) l).

(** The invariant of the loop: [per] holds, for every topic, the number of
    items seen so far, and [out] holds of them the first [limit]. *)
Definition cap_inv (limit : Z) (seen : list Question)
    (st : gmap string Z * list Question) : Prop :=
  forall t,
    default 0%Z (fst st !! t) = Z.of_nat (count_topic t seen)
    /\ count_topic t (snd st) = Nat.min (count_topic t seen) (Z.to_nat limit).

(** The three fixed questions on a topic. *)
Definition template_questions (t : string) : list Question :=
  [{| topic := t;
      question := "Explain fundamentals of " +:+ t +:+ " and show a simple example.";
      difficulty := "beginner" |};
   {| topic := t;
      question := "Describe a debugging incident you solved in " +:+ t +:+ ".";
      difficulty := "intermediate" |};
   {| topic := t;
      question := "Design for performance/reliability in " +:+ t
                  +:+ " under load—key trade-offs?";
      difficulty := "advanced" |}].

(** Every category of the stack is empty. *)
Definition all_empty (stack : stack_arg) : Prop :=
  forall k, In k CATEGORIES -> get_list (_as_dict stack) k = [].

Definition empty_stack : stack_arg := StackModel (mkTechStack [] [] [] []).

(** A configuration without a key for the backend. *)
Definition no_key : backend :=
  Unconfigured (Exn OpenAIError "The api_key client option must be set").

Definition generate_without_backend (limit : Z) : stack_arg -> string -> list Question * string :=
  Llm.generate_questions "openai" "gpt-4o-mini" "llama3.1" limit 2 (1 # 5) "gpt-4o-mini"
    (fun _ => 0%Q) no_key
    (fun _ => Raise (Exn OSError "connection refused"))
    (fun _ => Raise (Exn JSONDecodeError "Expecting value"))
    (fun _ => "") (fun _ => "").

(** ** Heuristic grading *)

(** The last character of a text is [c]. *)
Fixpoint ends_with (c : ascii) (s : string) : bool :=
  match s with
  | EmptyString => false
  | String d EmptyString => Ascii.eqb d c
  | String _ s' => ends_with c s'
  end.

Definition begins_with (c : ascii) (s : string) : bool :=
  match s with
  | String d _ => Ascii.eqb d c
  | EmptyString => false
  end.

(** A keyword that is not empty and has no blank at either end. *)
Definition trimmed_keyword (k : string) : bool :=
  negb (is_empty k) && negb (begins_with " " k) && negb (ends_with " " k).

(** The keywords of the topic of a question. *)
Definition keywords_of (q : Question) : list string :=
  default [] (assoc (lower (topic q)) KEYWORDS).

(** The number of keywords of the topic that occur in the answer, letter
    case apart. *)
Definition keyword_hits (q : Question) (answer : string) : nat :=
  length (List.filter (fun k => contains k (lower answer)) (keywords_of q)).

(** The verdict as the specification words it: the length of the raw
    answer decides. *)
Definition verdict_spec (q : Question) (answer : string) : string :=
  if (2 <=? keyword_hits q answer)%nat || (80 <=? String.length answer)%nat
  then "pass" else "needs_improvement".

(** An answer of 85 characters, 13 of them text and 72 of them blanks at
    the end, on a topic without keywords. *)
Definition padded_answer : string :=
  "I do not know"
  +:+ "                                                                        ".

Definition some_question : Question :=
  {| topic := "Rust"; question := "What does the borrow checker enforce?";
     difficulty := "beginner" |}.

(** An answer of 85 characters without blanks around it. *)
Definition long_answer : string :=
  "It keeps all references valid: one writer or many readers, and no use after the move.".

(** ** The classifier *)

(** A decoder that accepts nothing, and a matcher that finds nothing. *)
Definition rejecting_decoder (s : string) : res pyobj :=
  Raise (Exn JSONDecodeError "Expecting value: line 1 column 1 (char 0)").

Definition no_fuzzy_match (query : string) (choices : list string) : option (string * Q) :=
  None.

(** ** The end of the conversation *)

Definition starts_with_class (p : ascii -> bool) (s : string) : bool :=
  match s with
  | String d _ => p d
  | EmptyString => false
  end.

(** A text after which a word can begin: nothing, or a text that ends with
    a character that is not a word character. *)
Definition boundary_before (pre : string) : Prop :=
  pre = EmptyString \/ exists u c, pre = u +:+ String c EmptyString /\ is_word c = false.

(** [k] stands in [text] as a whole word: what comes before it is nothing
    or ends with a character that is not a word character, and what comes
    after it is nothing or begins with such a character. *)
Definition whole_token (k text : string) : Prop :=
  exists pre post,
    text = pre +:+ k +:+ post
    /\ boundary_before pre
    /\ starts_with_class is_word post = false.

(** The message, trimmed and in lower case, is one of the tokens or holds
    one as a whole word. *)
Definition ends_conversation (message : string) : Prop :=
  exists k, In k END_KEYWORDS
            /\ (lower (strip message) = k \/ whole_token k (lower (strip message))).

(** ** A test bench for the turn

    No backend key, and collaborators that find nothing. *)
Definition bench_validate_and_set : string -> string -> State -> bool * State :=
  App.validate_and_set rejecting_decoder (fun _ => "") no_fuzzy_match no_fuzzy_match
    ["India"; "France"] (fun _ => Raise (Exn KeyError "country"))
    (fun _ _ => Ret None) (fun s => s) (fun _ => None)
    (fun _ _ => Raise (Exn EmailNotValidError "The email address is not valid."))
    "relaxed" (fun _ => Ret None) string
    (fun _ _ => Raise (Exn NumberParseException "The string supplied did not seem to be a phone number."))
    (fun _ => false) (fun n => n) None
    (fun _ => Raise (Exn ValueError "could not convert string to float")).

Definition bench_turn : string -> State -> outcome :=
  App.turn "openai" "gpt-4o-mini" "llama3.1" 3 2 (1 # 5) true "gpt-4o-mini" (fun _ => 0%Q)
    no_key (fun _ => Raise (Exn OSError "connection refused"))
    rejecting_decoder (fun _ => "") (fun _ => "") no_fuzzy_match no_fuzzy_match
    ["India"; "France"] (fun _ => Raise (Exn KeyError "country"))
    (fun _ _ => Ret None) (fun s => s) (fun _ => None)
    (fun _ _ => Raise (Exn EmailNotValidError "The email address is not valid."))
    "relaxed" (fun _ => Ret None) string
    (fun _ _ => Raise (Exn NumberParseException "The string supplied did not seem to be a phone number."))
    (fun _ => false) (fun n => n) None
    (fun _ => Raise (Exn ValueError "could not convert string to float"))
    (fun _ => Ret "en") None (fun q => q).

(** A session in the gathering phase that waits for the consent. *)
Definition waiting_for_consent : State := set_phase "gather" initial_state.

(** ** Further vocabulary *)

(** A pair of a category and an item that stands under this category in
    the vocabulary. *)
Definition in_vocabulary (hit : string * string) : bool :=
  existsb (fun entry => String.eqb (fst entry) (fst hit) && bool_decide (snd hit ∈ snd entry))
          KNOWN.

(** What the classifier keeps true of its buckets: no item twice in a
    list, and every item an entry of the vocabulary under the category of
    its list. *)
Definition buckets_canonical (buckets : gmap string (list string)) : Prop :=
  forall cat,
    NoDup (get_list buckets cat)
    /\ Forall (fun item => in_vocabulary (cat, item) = true) (get_list buckets cat).

(** The state in which a turn ends. *)
Definition outcome_state (o : outcome) : State :=
  match o with
  | Completed st => st
  | Stopped st => st
  | Crashed _ st => st
  end.

(** The transcript of [st'] continues the transcript of [st]. *)
Definition transcript_grows (st st' : State) : Prop :=
  exists more, messages st' = messages st ++ more.

(** ** Further examples *)

(** A backend that times out once and then reports an exhausted quota; one
    that always times out; one whose second answer is not an API error. *)
Definition timeout_then_quota (req : request) (i : nat) : res pyobj :=
  if (i <? 1)%nat then Raise (Exn APITimeoutError "Request timed out.")
  else Raise (Exn RateLimitError
                "You exceeded your current quota, please check your plan and billing details.").

Definition always_timeout (req : request) (i : nat) : res pyobj :=
  Raise (Exn APITimeoutError "Request timed out.").

Definition timeout_then_type_error (req : request) (i : nat) : res pyobj :=
  if (i <? 1)%nat then Raise (Exn APITimeoutError "Request timed out.")
  else Raise (Exn TypeError "Object of type set is not JSON serializable").

Definition python_docker : stack_arg := StackModel (mkTechStack ["Python"] [] [] ["Docker"]).

(** A reader of numbers that knows the text "5". *)
Definition float_of_five (s : string) : res pyfloat :=
  if String.eqb s "5" then Ret (Finite 5)
  else Raise (Exn ValueError "could not convert string to float").

(** The validation step with this reader and otherwise the collaborators
    of [bench_validate_and_set]. *)
Definition bench_years : string -> string -> State -> bool * State :=
  App.validate_and_set rejecting_decoder (fun _ => "") no_fuzzy_match no_fuzzy_match
    ["India"; "France"] (fun _ => Raise (Exn KeyError "country"))
    (fun _ _ => Ret None) (fun s => s) (fun _ => None)
    (fun _ _ => Raise (Exn EmailNotValidError "The email address is not valid."))
    "relaxed" (fun _ => Ret None) string
    (fun _ _ => Raise (Exn NumberParseException "The string supplied did not seem to be a phone number."))
    (fun _ => false) (fun n => n) None float_of_five.

(** A matcher that proposes the query itself with the highest score, a
    catalogue of countries that knows India, and a geocoder that knows Pune. *)
Definition echo_match (query : string) (choices : list string) : option (string * Q) :=
  Some (query, 100%Q).

Definition lookup_india (name : string) : res (string * string) :=
  if String.eqb (lower name) "india" then Ret ("India", "IN")
  else Raise (Exn KeyError name).

Definition geocode_pune (city : string) (code : option string) : res (option GeoAddress) :=
  if String.eqb (lower city) "pune"
  then Ret (Some (mkGeoAddress (Some "India") (Some "Pune") None None))
  else Ret None.

(* ===================================================================== *)
(** * The backend call (model_client.py) *)
(* ===================================================================== *)

Section BackendCall.
Import Py ModelClient.

Variable OPENAI_MODEL_DEFAULT : string.
Variable uniform : nat -> Q.

Lemma attempts_transient create req i range e :
  create req i = Raise e ->
  transient e = true ->
  attempts uniform create req (i :: range)
  = (fst (attempts uniform create req range),
     pause uniform i ++ snd (attempts uniform create req range)).
Proof.
  intros Hc Ht. simpl. rewrite Hc. simpl.
  destruct (attempts uniform create req range) as [r evs]. simpl.
  unfold transient in Ht.
  destruct (exn_class_of e); try discriminate; try reflexivity.
  destruct (quota_exhausted e); [discriminate | reflexivity].
Qed.

(** A run of transient failures is slept through, one pause per attempt. *)
Lemma attempts_skip_transients create req (failing range : list nat) :
  (forall i, i ∈ failing -> exists e, create req i = Raise e /\ transient e = true) ->
  attempts uniform create req (failing ++ range)
  = (fst (attempts uniform create req range),
     List.concat (List.map (pause uniform) failing) ++ snd (attempts uniform create req range)).
Proof.
  induction failing as [|i failing IH]; intros H.
  - simpl. destruct (attempts uniform create req range); reflexivity.
  - destruct (H i) as (e & He & Ht); [left |].
    change ((i :: failing) ++ range) with (i :: (failing ++ range)).
    rewrite (attempts_transient _ _ _ _ _ He Ht), IH.
    + reflexivity.
    + intros j Hj. apply H. right. exact Hj.
Qed.

(** The retry loop itself is sound: when the text of the fifth response can
    be read, four transient failures are slept through and the call succeeds
    with that text. *)
Lemma attempts_succeed_on_readable_response create req resp c :
  (forall i, (i < 4)%nat -> exists e, create req i = Raise e /\ transient e = true) ->
  create req 4%nat = Ret resp ->
  read_content resp = Ret c ->
  fst (attempts uniform create req (seq 0 5))
  = {| ok := true; content := c; insufficient_quota := false; error := "" |}.
Proof.
  intros Hfail Hresp Hread.
  change (seq 0 5) with ([0; 1; 2; 3] ++ [4])%nat.
  rewrite attempts_skip_transients.
  - cbn [fst attempts]. rewrite Hresp. cbn [bind]. rewrite Hread. reflexivity.
  - intros i Hi. apply Hfail.
    repeat (apply elem_of_cons in Hi as [-> | Hi]; [lia |]).
    inversion Hi.
Qed.

(** A list has no attribute [message]: whatever the response holds, reading
    its text through [choices] fails when [choices] is a list. *)
Lemma read_content_of_list tn attrs items :
  assoc "choices" attrs = Some (PList items) ->
  read_content (PObj tn attrs)
  = Raise (Exn AttributeError "'list' object has no attribute 'message'").
Proof.
  intros H. unfold read_content. cbn [getattr bind]. rewrite H. reflexivity.
Qed.

Lemma read_content_ChatCompletion text :
  read_content (ChatCompletion text)
  = Raise (Exn AttributeError "'list' object has no attribute 'message'").
Proof. reflexivity. Qed.

(** C1 (as the code behaves): attempts 1 to 4 time out and
    attempt 5 is answered with a completion whose text is [c]; the call makes
    the five attempts, sleeps four times, and then reports a failure, because
    reading [resp.choices.message] raises on the list of choices.  The claim
    promises success with content [c]. *)
Theorem chat_fifth_attempt_answer_is_lost c messages model temperature timeout :
  chat OPENAI_MODEL_DEFAULT uniform (Client (four_timeouts_then c))
       messages model temperature timeout 5
  = Ret ({| ok := false; content := PNone; insufficient_quota := false;
            error := "'list' object has no attribute 'message'" |},
         pause uniform 0 ++ pause uniform 1 ++ pause uniform 2 ++ pause uniform 3 ++ [Create 4%nat]).
Proof. reflexivity. Qed.

(** A first attempt that fails with quota exhaustion ends the call at
    once: one request, no pause, the quota failure as result. *)
Lemma chat_quota_exhausted_returns_at_once create messages model temperature timeout
    max_tries e :
  (0 < max_tries)%Z ->
  (forall req, create req 0%nat = Raise e) ->
  exn_class_of e = RateLimitError ->
  quota_exhausted e = true ->
  chat OPENAI_MODEL_DEFAULT uniform (Client create) messages model temperature timeout
       max_tries
  = Ret ({| ok := false; content := PNone; insufficient_quota := true;
            error := "insufficient_quota" |}, [Create 0%nat]).
Proof.
  intros Hpos Hc Hcls Hq. unfold chat.
  destruct (Z.to_nat max_tries) as [|n] eqn:Hn; [lia |].
  cbn [seq attempts]. rewrite Hc. cbn [bind]. rewrite Hcls, Hq. reflexivity.
Qed.

(** Every call on a configured client returns a result; no exception
    leaves the loop. *)
Lemma chat_returns create messages model temperature timeout max_tries :
  returns (chat OPENAI_MODEL_DEFAULT uniform (Client create) messages model temperature
                timeout max_tries) = true.
Proof. reflexivity. Qed.

(** The number of requests never exceeds [max_tries]. *)
Lemma attempts_bounded create req range :
  (length (List.filter is_create (snd (attempts uniform create req range)))
   <= length range)%nat.
Proof.
  induction range as [|i range IH]; [simpl; lia |].
  cbn [attempts].
  destruct (attempts uniform create req range) as [r evs].
  destruct (bind (create req i) read_content) as [c|e]; [simpl; lia |].
  destruct (exn_class_of e); try (simpl; lia); try (simpl in *; lia).
  destruct (quota_exhausted e); simpl in *; lia.
Qed.

End BackendCall.

(* ===================================================================== *)
(** * The field resolver (schemas.py, app.py) *)
(* ===================================================================== *)

Section FieldResolver.
Import Py Schemas App.

Lemma find_ext_on {A} (f g : A -> bool) (l : list A) :
  (forall x, In x l -> f x = g x) -> List.find f l = List.find g l.
Proof.
  induction l as [|x l IH]; intros H; [reflexivity |].
  simpl. rewrite <- (H x) by (left; reflexivity).
  destruct (f x); [reflexivity |]. apply IH. intros y Hy. apply H. right. exact Hy.
Qed.

Lemma next_missing_field_first_unset c :
  next_missing_field c = first_unset is_set c.
Proof.
  destruct c as [co fn em ph ye dp cl ts la].
  destruct co, fn as [[|? ?]|], em as [[|? ?]|], ph as [[|? ?]|], ye as [?|],
           dp as [|? ?], cl as [[|? ?]|], ts as [?|]; reflexivity.
Qed.

Lemma first_unset_empty_iff rule c :
  first_unset rule c = "" <-> (forall f, In f FIELD_ORDER -> rule f c = true).
Proof.
  unfold first_unset.
  destruct (List.find _ FIELD_ORDER) as [f|] eqn:Hfind; simpl.
  - apply find_some in Hfind as [Hin Hf]. split.
    + intros ->. simpl in Hin. intuition discriminate.
    + intros Hall. rewrite (Hall f Hin) in Hf. discriminate.
  - split; [| reflexivity]. intros _ f Hin.
    pose proof (find_none _ _ Hfind f Hin) as Hf. simpl in Hf.
    destruct (rule f c); [reflexivity | discriminate].
Qed.

(** C3 (as the code behaves): the resolver returns the first field of the
    fixed order that is unset, where a stack counts as set as soon as it is
    not null; a new record gives "consent"; the result is empty exactly when
    every field of the order is set in that sense. *)
Theorem next_missing_field_resolves c :
  next_missing_field c = first_unset is_set c
  /\ next_missing_field Candidate_default = "consent"
  /\ (next_missing_field c = "" <-> forall f, In f FIELD_ORDER -> is_set f c = true).
Proof.
  split; [apply next_missing_field_first_unset |].
  split; [reflexivity |].
  rewrite next_missing_field_first_unset. apply first_unset_empty_iff.
Qed.

(** C3 (as stated, refuted): with the presence rule of the specification a
    stack without entries is unset, yet the resolver returns the empty
    result for a record that holds one. *)
Lemma next_missing_field_ignores_empty_stack :
  next_missing_field record_with_empty_stack = ""
  /\ is_set_spec "tech_stack" record_with_empty_stack = false
  /\ ~ (next_missing_field record_with_empty_stack = ""
        <-> forall f, In f FIELD_ORDER -> is_set_spec f record_with_empty_stack = true).
Proof.
  split; [reflexivity |]. split; [reflexivity |].
  intros [H _]. specialize (H eq_refl "tech_stack").
  assert (Hin : In "tech_stack" FIELD_ORDER) by (simpl; tauto).
  specialize (H Hin). discriminate.
Qed.

(** The two rules differ on nothing else: for a stack with an entry, or
    none at all, the resolver follows the rule of the specification. *)
Lemma next_missing_field_spec_rule c :
  match tech_stack c with Some ts => stack_has_entries ts = true | None => True end ->
  next_missing_field c = first_unset is_set_spec c.
Proof.
  intros H. rewrite next_missing_field_first_unset.
  unfold first_unset. f_equal. apply find_ext_on.
  intros f _. f_equal. unfold is_set_spec.
  destruct (String.eqb f "tech_stack") eqn:E; [| reflexivity].
  apply String.eqb_eq in E. subst f. unfold is_set. simpl.
  destruct (tech_stack c); [rewrite H |]; reflexivity.
Qed.

End FieldResolver.

(* ===================================================================== *)
(** * Schema validation of question items (llm.py) *)
(* ===================================================================== *)

Section SchemaValidation.
Import Py Schemas Llm.

Lemma Question_validate_spec q :
  Question_validate q
  = if has_required_fields q then Ret (fields_of q)
    else match q with
         | PDict _ => Raise (Exn ValueError "validation error for Question")
         | _ => Raise (Exn TypeError "argument after ** must be a mapping")
         end.
Proof.
  destruct q as [| | | | |kw|]; try reflexivity.
  unfold Question_validate, has_required_fields, fields_of.
  destruct (assoc "topic" kw) as [[]|]; try reflexivity;
    destruct (assoc "question" kw) as [[]|]; try reflexivity;
    destruct (assoc "difficulty" kw) as [[]|]; reflexivity.
Qed.

Lemma validate_loop items validated :
  fold_left validate_step items validated
  = validated ++ List.map fields_of (List.filter has_required_fields items).
Proof.
  revert validated. induction items as [|q items IH]; intros validated.
  - simpl. rewrite app_nil_r. reflexivity.
  - simpl. rewrite IH. unfold validate_step. rewrite Question_validate_spec.
    destruct (has_required_fields q).
    + simpl. rewrite <- app_assoc. reflexivity.
    + destruct q; reflexivity.
Qed.

(** C5 (as the code behaves): validation keeps, in order, exactly the items
    that are dictionaries holding a text under each of topic, question and
    difficulty, reduced to these three fields, and drops every other item;
    it returns a list for every input list.  The value of the difficulty is
    not looked at. *)
Theorem validate_questions_keeps_items_with_fields items :
  _validate_questions items = List.map fields_of (List.filter has_required_fields items).
Proof. unfold _validate_questions. rewrite validate_loop. reflexivity. Qed.

(** C5 (as stated, refuted): an item whose difficulty is none of the three
    values is kept. *)
Lemma validate_questions_keeps_any_difficulty :
  schema_valid_spec expert_item = false
  /\ _validate_questions [expert_item] = [fields_of expert_item]
  /\ _validate_questions [expert_item]
     <> List.map fields_of (List.filter schema_valid_spec [expert_item]).
Proof. split; [reflexivity |]. split; [reflexivity |]. discriminate. Qed.

(** The items the specification's schema accepts are among those kept. *)
Lemma schema_valid_spec_kept q :
  schema_valid_spec q = true -> _validate_questions [q] = [fields_of q].
Proof.
  intros H. unfold _validate_questions. rewrite validate_loop. simpl.
  unfold schema_valid_spec in H. apply andb_prop in H as [-> _]. reflexivity.
Qed.

End SchemaValidation.

(* ===================================================================== *)
(** * The per-topic limit and the fallback questions (llm.py) *)
(* ===================================================================== *)

Section Fallback.
Import Py Schemas Llm.

Variable QUESTIONS_PER_TOPIC MAX_TOPICS : Z.

Local Abbreviation cap_step := (Llm.cap_step QUESTIONS_PER_TOPIC).
Local Abbreviation _cap_per_topic := (Llm._cap_per_topic QUESTIONS_PER_TOPIC).
Local Abbreviation _fallback := (Llm._fallback QUESTIONS_PER_TOPIC MAX_TOPICS).

Lemma count_topic_app t l1 l2 :
  count_topic t (l1 ++ l2) = (count_topic t l1 + count_topic t l2)%nat.
Proof. unfold count_topic. rewrite List.filter_app, length_app. reflexivity. Qed.

Lemma count_topic_one t q :
  count_topic t [q] = if String.eqb (topic q) t then 1%nat else 0%nat.
Proof. unfold count_topic, on_topic. simpl. destruct (String.eqb (topic q) t); reflexivity. Qed.

Lemma cap_step_eq per out q :
  cap_step (per, out) q
  = (<[topic q := (default 0%Z (per !! topic q) + 1)%Z]> per,
     if (default 0%Z (per !! topic q) + 1 <=? QUESTIONS_PER_TOPIC)%Z
     then out ++ [q] else out).
Proof.
  unfold Llm.cap_step. rewrite lookup_insert_eq. simpl.
  destruct (_ <=? _)%Z; reflexivity.
Qed.

Lemma cap_step_inv seen st q :
  cap_inv QUESTIONS_PER_TOPIC seen st -> cap_inv QUESTIONS_PER_TOPIC (seen ++ [q]) (cap_step st q).
Proof.
  intros Hinv t. destruct st as [per out]. rewrite cap_step_eq. cbn [fst snd].
  destruct (Hinv (topic q)) as [Hper Hout]. cbn [fst snd] in Hper, Hout.
  destruct (Hinv t) as [Hper_t Hout_t]. cbn [fst snd] in Hper_t, Hout_t.
  rewrite count_topic_app, count_topic_one.
  destruct (String.eqb (topic q) t) eqn:E.
  - apply String.eqb_eq in E. subst t. rewrite lookup_insert_eq.
    split; [simpl; lia |].
    destruct (Z.leb_spec (default 0%Z (per !! topic q) + 1) QUESTIONS_PER_TOPIC) as [Hle|Hgt].
    + rewrite count_topic_app, count_topic_one, String.eqb_refl. lia.
    + lia.
  - pose proof E as E'. apply String.eqb_neq in E'.
    rewrite lookup_insert_ne by exact E'.
    split; [lia |].
    destruct (Z.leb_spec (default 0%Z (per !! topic q) + 1) QUESTIONS_PER_TOPIC) as [Hle|Hgt].
    + rewrite count_topic_app, count_topic_one, E. lia.
    + lia.
Qed.

Lemma cap_loop_inv items seen st :
  cap_inv QUESTIONS_PER_TOPIC seen st -> cap_inv QUESTIONS_PER_TOPIC (seen ++ items) (fold_left cap_step items st).
Proof.
  revert seen st. induction items as [|q items IH]; intros seen st Hinv.
  - rewrite app_nil_r. exact Hinv.
  - simpl. replace (seen ++ q :: items) with ((seen ++ [q]) ++ items)
      by (rewrite <- app_assoc; reflexivity).
    apply IH, cap_step_inv, Hinv.
Qed.

(** After the limit every topic has as many questions as it had, up to
    the limit. *)
Lemma cap_per_topic_count items t :
  count_topic t (_cap_per_topic items)
  = Nat.min (count_topic t items) (Z.to_nat QUESTIONS_PER_TOPIC).
Proof.
  unfold Llm._cap_per_topic.
  assert (H0 : cap_inv QUESTIONS_PER_TOPIC [] (∅, [])).
  { intros t'. cbn [fst snd]. rewrite lookup_empty. split; reflexivity. }
  apply (cap_loop_inv items) in H0. apply H0.
Qed.

Lemma cap_per_topic_bound items t :
  (Z.of_nat (count_topic t (_cap_per_topic items)) <= Z.max 0 QUESTIONS_PER_TOPIC)%Z.
Proof. rewrite cap_per_topic_count. lia. Qed.

(** The items kept so far stay, and an item within the limit of its topic
    is appended. *)
Lemma cap_loop_keeps_all items per out :
  (forall t, (default 0%Z (per !! t) + Z.of_nat (count_topic t items)
              <= QUESTIONS_PER_TOPIC)%Z) ->
  snd (fold_left cap_step items (per, out)) = out ++ items.
Proof.
  revert per out. induction items as [|q items IH]; intros per out H.
  - simpl. rewrite app_nil_r. reflexivity.
  - cbn [fold_left]. rewrite cap_step_eq.
    assert (Hq : (default 0%Z (per !! topic q) + 1 <= QUESTIONS_PER_TOPIC)%Z).
    { specialize (H (topic q)).
      change (q :: items) with ([q] ++ items) in H.
      rewrite count_topic_app, count_topic_one, String.eqb_refl in H. lia. }
    apply Z.leb_le in Hq. rewrite Hq. rewrite IH.
    + rewrite <- app_assoc. reflexivity.
    + intros t. specialize (H t).
      change (q :: items) with ([q] ++ items) in H.
      rewrite count_topic_app, count_topic_one in H.
      destruct (String.eqb (topic q) t) eqn:E.
      * apply String.eqb_eq in E. subst t. rewrite lookup_insert_eq. simpl. lia.
      * apply String.eqb_neq in E. rewrite lookup_insert_ne by exact E. lia.
Qed.

(** A list in which no topic exceeds the limit passes unchanged. *)
Lemma cap_per_topic_within items :
  (forall t, (Z.of_nat (count_topic t items) <= QUESTIONS_PER_TOPIC)%Z) ->
  _cap_per_topic items = items.
Proof.
  intros H. unfold Llm._cap_per_topic. rewrite cap_loop_keeps_all; [reflexivity |].
  intros t. rewrite lookup_empty. cbn [default]. apply H.
Qed.

Lemma validate_fallback_items t validated :
  fold_left validate_step (fallback_items t) validated = validated ++ template_questions t.
Proof. rewrite validate_loop. reflexivity. Qed.

Lemma topics_of_empty_stack stack : all_empty stack -> _topics stack = [].
Proof.
  intros H. unfold _topics, CATEGORIES. cbn [fold_left].
  rewrite !H by (simpl; tauto). reflexivity.
Qed.

Lemma fallback_of_no_topics stack :
  _topics stack = [] ->
  _fallback stack = _cap_per_topic (template_questions "General").
Proof.
  intros H. unfold Llm._fallback. rewrite H. cbn [is_empty_list].
  assert (Htopics : (if (0 <? MAX_TOPICS)%Z then slice_to MAX_TOPICS ["General"]
                     else ["General"]) = ["General"]).
  { destruct (Z.ltb_spec 0 MAX_TOPICS) as [Hpos|Hneg]; [| reflexivity].
    unfold slice_to. destruct (Z.leb_spec 0 MAX_TOPICS); [| lia].
    destruct (Z.to_nat MAX_TOPICS) as [|[|n]] eqn:E; [lia | reflexivity | reflexivity]. }
  rewrite Htopics. reflexivity.
Qed.

(** For a stack without any entry the fallback takes the single topic
    "General"; when the configured limit per topic is at least 3 it returns
    the three fixed questions on it, one at each difficulty. *)
Lemma fallback_of_empty_stack stack :
  all_empty stack ->
  (3 <= QUESTIONS_PER_TOPIC)%Z ->
  _fallback stack = template_questions "General"
  /\ List.map topic (_fallback stack) = ["General"; "General"; "General"]
  /\ List.map difficulty (_fallback stack) = ["beginner"; "intermediate"; "advanced"].
Proof.
  intros Hempty Hcap.
  assert (H : _fallback stack = template_questions "General").
  { rewrite fallback_of_no_topics by (apply topics_of_empty_stack, Hempty).
    apply cap_per_topic_within. intros t.
    assert (count_topic t (template_questions "General") <= 3)%nat; [| lia].
    unfold count_topic. etransitivity; [apply List.filter_length_le | simpl; lia]. }
  rewrite H. repeat split; reflexivity.
Qed.

(** The limit keeps items of its input only. *)
Lemma cap_loop_sub items per out q :
  In q (snd (fold_left cap_step items (per, out))) -> In q out \/ In q items.
Proof.
  revert per out. induction items as [|x items IH]; intros per out; [simpl; tauto |].
  cbn [fold_left]. rewrite cap_step_eq. intros Hin. apply IH in Hin.
  destruct (_ <=? _)%Z.
  - destruct Hin as [Hin|Hin]; [| right; right; exact Hin].
    apply in_app_or in Hin as [Hin|[->|[]]]; [left; exact Hin | right; left; reflexivity].
  - destruct Hin; [left | right; right]; assumption.
Qed.

Lemma cap_per_topic_sub items q : In q (_cap_per_topic items) -> In q items.
Proof. intros H. apply cap_loop_sub in H as [[]|H]. exact H. Qed.

Lemma count_topic_all t l :
  (forall q, In q l -> topic q = t) -> count_topic t l = length l.
Proof.
  unfold count_topic. induction l as [|q l IH]; intros H; [reflexivity |].
  simpl. unfold on_topic at 1. rewrite (H q) by (left; reflexivity).
  rewrite String.eqb_refl. simpl. rewrite IH; [reflexivity |].
  intros q' Hq'. apply H. right. exact Hq'.
Qed.

(** What was kept stays in front. *)
Lemma cap_loop_prefix items per out :
  exists more, snd (fold_left cap_step items (per, out)) = out ++ more.
Proof.
  revert per out. induction items as [|q items IH]; intros per out.
  - exists []. simpl. rewrite app_nil_r. reflexivity.
  - cbn [fold_left]. rewrite cap_step_eq.
    destruct (_ <=? _)%Z.
    + destruct (IH (<[topic q := (default 0%Z (per !! topic q) + 1)%Z]> per) (out ++ [q]))
        as [more ->].
      exists (q :: more). rewrite <- app_assoc. reflexivity.
    + apply IH.
Qed.

(** With a limit of at least 1 the first item passes. *)
Lemma cap_per_topic_head q items :
  (1 <= QUESTIONS_PER_TOPIC)%Z ->
  exists more, _cap_per_topic (q :: items) = q :: more.
Proof.
  intros H. unfold Llm._cap_per_topic. cbn [fold_left]. rewrite cap_step_eq.
  rewrite lookup_empty. cbn [default].
  destruct (Z.leb_spec (0 + 1) QUESTIONS_PER_TOPIC) as [_|Hgt]; [| lia].
  destruct (cap_loop_prefix items (<[topic q := (0 + 1)%Z]> ∅) ([] ++ [q])) as [more ->].
  exists more. reflexivity.
Qed.

Lemma fallback_base_loop topics base :
  fold_left (fun base t => base ++ fallback_items t) topics base
  = base ++ List.concat (List.map fallback_items topics).
Proof.
  revert base. induction topics as [|t topics IH]; intros base.
  - simpl. rewrite app_nil_r. reflexivity.
  - cbn [fold_left List.map List.concat]. rewrite IH, <- app_assoc. reflexivity.
Qed.

(** With a limit of at least 1 the fallback is never empty, whatever the
    stack and the limit on topics. *)
Lemma fallback_nonempty stack :
  (1 <= QUESTIONS_PER_TOPIC)%Z -> _fallback stack <> [].
Proof.
  intros Hcap. unfold Llm._fallback.
  set (topics := if is_empty_list (_topics stack) then ["General"] else _topics stack).
  assert (Htopics : exists t rest,
             (if (0 <? MAX_TOPICS)%Z then slice_to MAX_TOPICS topics else topics) = t :: rest).
  { assert (Hne : exists t rest, topics = t :: rest).
    { unfold topics. destruct (_topics stack) as [|t rest]; cbn [is_empty_list]; eauto. }
    destruct Hne as (t & rest & ->).
    destruct (Z.ltb_spec 0 MAX_TOPICS) as [Hpos|Hneg]; [| eauto].
    unfold slice_to. destruct (Z.leb_spec 0 MAX_TOPICS); [| lia].
    destruct (Z.to_nat MAX_TOPICS) as [|n] eqn:E; [lia |]. cbn [take]. eauto. }
  destruct Htopics as (t & rest & ->).
  rewrite fallback_base_loop. cbn [List.map List.concat app].
  unfold _validate_questions. rewrite validate_loop. cbn [app].
  change (fallback_items t ++ List.concat (List.map fallback_items rest))
    with (List.hd PNone (fallback_items t)
          :: List.tl (fallback_items t) ++ List.concat (List.map fallback_items rest)).
  cbn [List.filter List.hd fallback_items has_required_fields assoc String.eqb Ascii.eqb
       Bool.eqb is_text andb List.map].
  match goal with
  | |- Llm._cap_per_topic _ (?q :: ?l) <> [] =>
      destruct (cap_per_topic_head q l Hcap) as [more ->]
  end.
  discriminate.
Qed.

(** With a smaller limit the fallback for an empty stack is cut down to the
    first questions, and to nothing when the limit is not positive. *)
Lemma fallback_general_count stack :
  all_empty stack ->
  length (_fallback stack) = Nat.min 3 (Z.to_nat QUESTIONS_PER_TOPIC).
Proof.
  intros Hempty.
  rewrite fallback_of_no_topics by (apply topics_of_empty_stack, Hempty).
  rewrite <- (count_topic_all "General").
  - rewrite cap_per_topic_count. reflexivity.
  - intros q Hq. apply cap_per_topic_sub in Hq.
    simpl in Hq. destruct Hq as [<-|[<-|[<-|[]]]]; reflexivity.
Qed.

End Fallback.

Section FallbackExamples.
Import Py Schemas Llm.

(** C7: with the topic limit 2 and the limit 3 per topic, a stack whose
    topics are Python and Docker gets exactly six fallback questions: the
    three templates for each topic, one at each difficulty, and no topic has
    more than 3. *)
Theorem fallback_python_docker stack :
  _topics stack = ["Python"; "Docker"] ->
  _fallback 3 2 stack = template_questions "Python" ++ template_questions "Docker"
  /\ length (_fallback 3 2 stack) = 6%nat
  /\ List.map difficulty (List.filter (on_topic "Python") (_fallback 3 2 stack))
     = ["beginner"; "intermediate"; "advanced"]
  /\ List.map difficulty (List.filter (on_topic "Docker") (_fallback 3 2 stack))
     = ["beginner"; "intermediate"; "advanced"]
  /\ (forall t, (count_topic t (_fallback 3 2 stack) <= 3)%nat).
Proof.
  intros H.
  assert (Hq : _fallback 3 2 stack
               = template_questions "Python" ++ template_questions "Docker").
  { unfold _fallback. rewrite H. vm_compute. reflexivity. }
  split; [exact Hq |]. rewrite Hq.
  split; [reflexivity |]. split; [reflexivity |]. split; [reflexivity |].
  intros t. rewrite <- Hq.
  pose proof (cap_per_topic_bound 3 (_validate_questions
    (fold_left (fun base t => base ++ fallback_items t)
               (if (0 <? 2)%Z then slice_to 2 ["Python"; "Docker"] else ["Python"; "Docker"])
               [])) t) as Hb.
  unfold _fallback. rewrite H. cbn [is_empty_list]. lia.
Qed.

Lemma fallback_python_docker_witness :
  _topics (StackModel (mkTechStack ["Python"] [] [] ["Docker"])) = ["Python"; "Docker"]
  /\ length (_fallback 3 2 (StackModel (mkTechStack ["Python"] [] [] ["Docker"]))) = 6%nat.
Proof.
  split; [reflexivity |].
  apply (fallback_python_docker (StackModel (mkTechStack ["Python"] [] [] ["Docker"]))).
  reflexivity.
Defined.

End FallbackExamples.

Section Generation.
Import Py Schemas ModelClient Utils Llm.

Variable PROVIDER OPENAI_MODEL OLLAMA_MODEL : string.
Variable QUESTIONS_PER_TOPIC MAX_TOPICS : Z.
Variable TEMPERATURE : Q.
Variable OPENAI_MODEL_DEFAULT : string.
Variable uniform : nat -> Q.
Variable openai : backend.
Variable ollama_chat : request -> res pyobj.
Variable json_loads : string -> res pyobj.
Variable json_dumps : pyobj -> string.
Variable str_compound : pyobj -> string.

Local Abbreviation _fallback := (Llm._fallback QUESTIONS_PER_TOPIC MAX_TOPICS).
Local Abbreviation generate_questions :=
  (Llm.generate_questions PROVIDER OPENAI_MODEL OLLAMA_MODEL QUESTIONS_PER_TOPIC MAX_TOPICS
     TEMPERATURE OPENAI_MODEL_DEFAULT uniform openai ollama_chat json_loads json_dumps
     str_compound).

(** The early return of the [try] is the fallback. *)
Lemma generation_content_early stack_dict examples user_prompt early :
  generation_content PROVIDER OPENAI_MODEL OLLAMA_MODEL QUESTIONS_PER_TOPIC MAX_TOPICS
    TEMPERATURE OPENAI_MODEL_DEFAULT uniform openai ollama_chat json_dumps
    stack_dict examples user_prompt = Ret (inr early) ->
  exists cause, early = (_fallback stack_dict, "fallback:" +:+ cause).
Proof.
  unfold generation_content.
  destruct (String.eqb PROVIDER "openai").
  - destruct (openai_chat _ _ _ _ _ _) as [r|e]; [| discriminate].
    cbn [bind]. destruct (negb (ok r)); intros [= <-]. eexists. reflexivity.
  - destruct (String.eqb PROVIDER "ollama"); [| discriminate].
    destruct (ollama_chat _) as [resp|e]; [| discriminate]. cbn [bind].
    destruct (getitem resp "message") as [m|e]; [| discriminate]. cbn [bind].
    destruct (getitem m "content") as [c|e]; discriminate.
Qed.

Lemma generation_parse_diagnostic content r :
  generation_parse QUESTIONS_PER_TOPIC json_loads str_compound content = Ret r ->
  snd r = "".
Proof.
  unfold generation_parse.
  destruct (extract_first_json_object _ _ _) as [data|e]; [| discriminate]. cbn [bind].
  destruct (iterate _) as [raw|e]; [| discriminate]. cbn [bind].
  destruct (is_empty_list _); [discriminate |]. intros [= <-]. reflexivity.
Qed.

(** Generation has two ways out: the questions of the backend with an empty
    diagnostic, or the fallback with a diagnostic that names the cause. *)
Lemma generate_questions_two_ways stack language :
  snd (generate_questions stack language) = ""
  \/ exists cause,
       generate_questions stack language
       = (_fallback (StackDict (_as_dict stack)), "fallback:" +:+ cause).
Proof.
  unfold Llm.generate_questions.
  destruct (generation_content _ _ _ _ _ _ _ _ _ _ _ _ _ _) as [[content|early]|e] eqn:Hc;
    cbn [bind].
  - destruct (generation_parse _ _ _ content) as [r|e] eqn:Hp.
    + left. exact (generation_parse_diagnostic _ _ Hp).
    + right. eexists. reflexivity.
  - right. apply generation_content_early in Hc as [cause ->]. eexists. reflexivity.
  - right. eexists. reflexivity.
Qed.

(** C10 (as the code behaves): for a stack without any entry, and a limit
    per topic of at least 3, the fallback takes the single topic "General"
    and returns the three fixed questions on it, one at each difficulty; and
    whenever generation leaves through the fallback (its diagnostic is not
    empty) it returns these three questions; for no stack at all does it
    then return an empty list. *)
Theorem fallback_general_for_empty_stack stack language :
  all_empty stack ->
  (3 <= QUESTIONS_PER_TOPIC)%Z ->
  _fallback stack = template_questions "General"
  /\ List.map topic (_fallback stack) = ["General"; "General"; "General"]
  /\ List.map difficulty (_fallback stack) = ["beginner"; "intermediate"; "advanced"]
  /\ (snd (generate_questions stack language) <> "" ->
      fst (generate_questions stack language) = template_questions "General")
  /\ (forall any_stack,
        snd (generate_questions any_stack language) <> "" ->
        fst (generate_questions any_stack language) <> []).
Proof.
  intros Hempty Hcap.
  destruct (fallback_of_empty_stack QUESTIONS_PER_TOPIC MAX_TOPICS stack Hempty Hcap)
    as (H1 & H2 & H3).
  split; [exact H1 |]. split; [exact H2 |]. split; [exact H3 |]. split.
  - intros Hdiag.
    destruct (generate_questions_two_ways stack language) as [H|[cause H]]; [contradiction |].
    rewrite H. cbn [fst].
    apply (fallback_of_empty_stack QUESTIONS_PER_TOPIC MAX_TOPICS); [| exact Hcap].
    exact Hempty.
  - intros any_stack Hdiag.
    destruct (generate_questions_two_ways any_stack language) as [H|[cause H]];
      [contradiction |].
    rewrite H. cbn [fst]. apply fallback_nonempty. lia.
Qed.

End Generation.

Section GenerationExamples.
Import Py Schemas ModelClient Utils Llm.

Lemma empty_stack_all_empty : all_empty empty_stack.
Proof.
  intros k Hk. simpl in Hk. destruct Hk as [<-|[<-|[<-|[<-|[]]]]]; reflexivity.
Defined.

Lemma fallback_general_for_empty_stack_witness :
  all_empty empty_stack
  /\ (3 <= 3)%Z
  /\ Llm._fallback 3 2 empty_stack = template_questions "General"
  /\ fst (generate_without_backend 3 empty_stack "en") = template_questions "General".
Proof.
  split; [exact empty_stack_all_empty |]. split; [lia |].
  pose proof (fallback_general_for_empty_stack "openai" "gpt-4o-mini" "llama3.1" 3 2 (1 # 5)
                "gpt-4o-mini" (fun _ => 0%Q) no_key
                (fun _ => Raise (Exn OSError "connection refused"))
                (fun _ => Raise (Exn JSONDecodeError "Expecting value"))
                (fun _ => "") (fun _ => "") empty_stack "en" empty_stack_all_empty
                ltac:(lia)) as (H1 & _ & _ & H4 & _).
  split; [exact H1 |]. apply H4. discriminate.
Defined.

(** C10 (as stated, refuted): the limit per topic is read from the
    environment and is applied to the fallback as well.  With the limit 1
    the fallback for an empty stack has one question, not three; with the
    limit 0 it has none, and generation then returns an empty list on the
    fallback path. *)
Lemma fallback_cut_by_small_limit :
  Llm._fallback 1 2 empty_stack
  = [{| topic := "General";
        question := "Explain fundamentals of General and show a simple example.";
        difficulty := "beginner" |}]
  /\ Llm._fallback 0 2 empty_stack = []
  /\ generate_without_backend 0 empty_stack "en"
     = ([], "fallback:The api_key client option must be set").
Proof. split; [| split]; vm_compute; reflexivity. Qed.

End GenerationExamples.

(* ===================================================================== *)
(** * Heuristic grading (llm.py) *)
(* ===================================================================== *)

Section HeuristicGrading.
Import Py Schemas Llm.

Lemma keywords_trimmed :
  forallb (fun entry => forallb trimmed_keyword (snd entry)) KEYWORDS = true.
Proof. vm_compute. reflexivity. Qed.

Lemma prefix_cons_other k c s :
  is_empty k = false -> begins_with c k = false -> String.prefix k (String c s) = false.
Proof.
  destruct k as [|d k]; [discriminate |]. simpl. intros _ H.
  destruct (ascii_dec d c) as [->|]; [| reflexivity].
  rewrite Ascii.eqb_refl in H. discriminate.
Qed.

Lemma contains_cons_other k c s :
  is_empty k = false -> begins_with c k = false ->
  contains k (String c s) = contains k s.
Proof.
  intros Hk Hc. cbn [contains]. rewrite prefix_cons_other by assumption. reflexivity.
Qed.

Lemma prefix_snoc_other k c s :
  is_empty k = false -> ends_with c k = false ->
  String.prefix k (s +:+ String c EmptyString) = String.prefix k s.
Proof.
  revert k. induction s as [|x s IH]; intros k Hk Hc.
  - destruct k as [|d [|d' k]]; [discriminate | |].
    + simpl in *. destruct (ascii_dec d c) as [->|]; [| reflexivity].
      rewrite Ascii.eqb_refl in Hc. discriminate.
    + simpl. destruct (ascii_dec d c); reflexivity.
  - destruct k as [|d k]; [discriminate |].
    change (String x s +:+ String c EmptyString) with (String x (s +:+ String c EmptyString)).
    cbn [String.prefix]. destruct (ascii_dec d x); [| reflexivity].
    destruct k as [|d' k]; [destruct s; reflexivity |].
    apply IH; [reflexivity | exact Hc].
Qed.

Lemma contains_snoc_other k c s :
  is_empty k = false -> ends_with c k = false ->
  contains k (s +:+ String c EmptyString) = contains k s.
Proof.
  intros Hk Hc. induction s as [|x s IH].
  - pose proof (prefix_snoc_other k c EmptyString Hk Hc) as H.
    change (EmptyString +:+ String c EmptyString) with (String c EmptyString) in *.
    cbn [contains]. rewrite H.
    destruct (String.prefix k EmptyString); reflexivity.
  - change (String x s +:+ String c EmptyString) with (String x (s +:+ String c EmptyString)).
    cbn [contains]. rewrite IH.
    change (String x (s +:+ String c EmptyString)) with (String x s +:+ String c EmptyString).
    rewrite prefix_snoc_other by assumption. reflexivity.
Qed.

(** The blanks that the grader puts around the answer change nothing for a
    keyword without a blank at its ends. *)
Lemma contains_padded k a :
  trimmed_keyword k = true ->
  contains k (" " +:+ a +:+ " ") = contains k a.
Proof.
  unfold trimmed_keyword. intros H.
  apply andb_prop in H as [H Hend]. apply andb_prop in H as [Hne Hbegin].
  apply negb_true_iff in Hend, Hne, Hbegin.
  change (" " +:+ a +:+ " ") with (String " " (a +:+ String " " EmptyString)).
  rewrite contains_cons_other by assumption.
  apply contains_snoc_other; assumption.
Qed.

Lemma assoc_In {A} k (l : list (string * A)) v : assoc k l = Some v -> In (k, v) l.
Proof.
  induction l as [|[k' v'] l IH]; [discriminate |]. simpl.
  destruct (String.eqb k k') eqn:E.
  - apply String.eqb_eq in E. subst k'. intros [= ->]. left. reflexivity.
  - intros H. right. apply IH, H.
Qed.

Lemma keywords_of_trimmed q k : In k (keywords_of q) -> trimmed_keyword k = true.
Proof.
  unfold keywords_of. destruct (assoc (lower (topic q)) KEYWORDS) as [kws|] eqn:E; [| intros []].
  apply assoc_In in E. cbn [default]. intros Hk.
  pose proof keywords_trimmed as H. rewrite forallb_forall in H.
  specialize (H _ E). cbn [snd] in H. rewrite forallb_forall in H. apply H, Hk.
Qed.

Lemma filter_ext_on {A} (f g : A -> bool) (l : list A) :
  (forall x, In x l -> f x = g x) -> List.filter f l = List.filter g l.
Proof.
  induction l as [|x l IH]; intros H; [reflexivity |].
  simpl. rewrite (H x) by (left; reflexivity). rewrite IH; [reflexivity |].
  intros y Hy. apply H. right. exact Hy.
Qed.

Lemma count_hits_padded q answer :
  count_hits (keywords_of q) (" " +:+ lower answer +:+ " ") = keyword_hits q answer.
Proof.
  unfold count_hits, keyword_hits. f_equal. apply filter_ext_on.
  intros k Hk. apply contains_padded, (keywords_of_trimmed q), Hk.
Qed.

(** The verdict written out. *)
Lemma heuristic_grade_verdict q answer :
  verdict (_heuristic_grade q answer)
  = if (2 <=? keyword_hits q answer)%nat || (80 <=? String.length (strip answer))%nat
    then "pass" else "needs_improvement".
Proof.
  unfold _heuristic_grade. cbn [verdict].
  fold (keywords_of q). rewrite count_hits_padded. reflexivity.
Qed.

Lemma lstrip_length s : (String.length (lstrip s) <= String.length s)%nat.
Proof.
  induction s as [|c s IH]; [simpl; lia |].
  simpl. destruct (is_space c); simpl; lia.
Qed.

Lemma rstrip_length s : (String.length (rstrip s) <= String.length s)%nat.
Proof.
  induction s as [|c s IH]; [simpl; lia |].
  simpl. destruct (is_empty (rstrip s) && is_space c); simpl; lia.
Qed.

Lemma strip_length s : (String.length (strip s) <= String.length s)%nat.
Proof.
  unfold strip. etransitivity; [apply rstrip_length | apply lstrip_length].
Qed.



Example heuristic_grade_long_answer :
  String.length long_answer = 85%nat
  /\ keyword_hits some_question long_answer = 0%nat
  /\ verdict (_heuristic_grade some_question long_answer) = "pass".
Proof. repeat split; vm_compute; reflexivity. Qed.

Example heuristic_grade_short_answer :
  String.length "No idea..." = 10%nat
  /\ keyword_hits some_question "No idea..." = 0%nat
  /\ verdict (_heuristic_grade some_question "No idea...") = "needs_improvement".
Proof. repeat split; vm_compute; reflexivity. Qed.

End HeuristicGrading.

(* ===================================================================== *)
(** * JSON extraction (utils.py) *)
(* ===================================================================== *)

Section JsonExtraction.
Import Py Utils.

Variable json_loads : string -> res pyobj.
Variable str_compound : pyobj -> string.

Local Abbreviation extract_first_json_object :=
  (Utils.extract_first_json_object json_loads str_compound).
Local Abbreviation try_loads := (Utils.try_loads json_loads).
Local Abbreviation try_nested := (Utils.try_nested json_loads str_compound).

(** Six backquotes in a row make the first search succeed, and the group
    that is then asked for does not exist: the function raises, outside of
    every [try]. *)
Lemma extract_raises_after_fence s :
  contains FENCE s = true ->
  extract_first_json_object (PStr s) = Raise (Exn IndexError "no such group").
Proof.
  intros H. unfold Utils.extract_first_json_object, search.
  cbn [_ensure_text py_str]. rewrite H. reflexivity.
Qed.

(** C6 (as the code behaves): on the text of six backquotes the extraction
    raises [IndexError] instead of returning the empty object, whatever the
    JSON decoder does.  The claim promises that it never raises. *)
Theorem extract_raises_on_six_backquotes :
  extract_first_json_object (PStr "``````") = Raise (Exn IndexError "no such group").
Proof. apply extract_raises_after_fence. reflexivity. Qed.

(** Without six backquotes in a row the function returns, and the parsing
    attempts are made in the order: the bracketed piece (or the whole text
    when there is none), the whole text, the piece decoded twice; the first
    that gives a list or a dictionary wins, and the empty object is the
    result when none does. *)
Lemma extract_without_fence s :
  contains FENCE s = false ->
  extract_first_json_object (PStr s)
  = let candidate := default s (search_bracketed s) in
    Ret (match try_loads candidate with
         | Some d => d
         | None =>
             match try_loads s with
             | Some d => d
             | None => try_nested candidate
             end
         end).
Proof.
  intros H. unfold Utils.extract_first_json_object, search.
  cbn [_ensure_text py_str]. rewrite H.
  destruct (search_bracketed s) as [g|]; cbn [candidate_of bind default];
    (destruct (Utils.try_loads json_loads _); [reflexivity |]);
    destruct (Utils.try_loads json_loads s); reflexivity.
Qed.

Lemma extract_returns_without_fence s :
  contains FENCE s = false -> returns (extract_first_json_object (PStr s)) = true.
Proof. intros H. rewrite extract_without_fence by exact H. reflexivity. Qed.

(** When every attempt fails the result is the empty object. *)
Lemma extract_total_failure s :
  contains FENCE s = false ->
  (forall t, returns (json_loads t) = false) ->
  extract_first_json_object (PStr s) = Ret [].
Proof.
  intros H Hfail. rewrite extract_without_fence by exact H. cbn zeta.
  unfold Utils.try_loads, Utils.try_nested.
  pose proof (Hfail (default s (search_bracketed s))) as H1.
  pose proof (Hfail s) as H2.
  destruct (json_loads (default s (search_bracketed s))); [discriminate |].
  destruct (json_loads s); [discriminate |]. reflexivity.
Qed.

(** The same for every value the function is given: it returns unless
    the text made of the value holds six backquotes in a row. *)
Lemma extract_returns (text : pyobj) :
  contains FENCE (_ensure_text str_compound text) = false ->
  returns (extract_first_json_object text) = true.
Proof.
  intros Hfence. destruct text; try reflexivity;
    unfold Utils.extract_first_json_object, search; rewrite Hfence;
    destruct (search_bracketed _); cbn [candidate_of bind];
    repeat match goal with
           | |- context [Utils.try_loads ?j ?x] => destruct (Utils.try_loads j x)
           end; reflexivity.
Qed.

End JsonExtraction.

(* ===================================================================== *)
(** * The stack classifier (app.py) *)
(* ===================================================================== *)

Section Classifier.
Import Py Schemas Utils Llm App.

Variable json_loads : string -> res pyobj.
Variable str_compound : pyobj -> string.
Variable extractOne_token_set : string -> list string -> option (string * Q).

Local Abbreviation parse_stack := (App.parse_stack json_loads str_compound extractOne_token_set).
Local Abbreviation _match_known := (App._match_known extractOne_token_set).

(** "postgres" is no entry of the vocabulary; the alias table sends it to
    the entry PostgreSQL of the databases. *)
Lemma postgres_is_an_alias :
  INDEX_LOWER !! "postgres" = None
  /\ ALIASES_LOWER !! "postgres" = Some ("databases", "PostgreSQL")
  /\ INDEX_LOWER !! casefold "PostgreSQL" = Some ("databases", "PostgreSQL").
Proof. repeat split; vm_compute; reflexivity. Qed.

(** Every alias that was kept leads to an entry of the vocabulary. *)
Lemma aliases_lead_to_vocabulary :
  forallb (fun '(alias, canon) =>
             match ALIASES_LOWER !! casefold alias, INDEX_LOWER !! casefold canon with
             | Some hit, Some entry =>
                 String.eqb (fst hit) (fst entry) && String.eqb (snd hit) (snd entry)
             | _, _ => false
             end) ALIASES = true.
Proof. vm_compute. reflexivity. Qed.

(** C4: the text "python, django, postgres, docker" is not JSON, so the
    decoder rejects it; the classifier then finds no labeled line, splits the
    text at the commas and puts Python under languages, Django under
    frameworks, PostgreSQL (through the alias "postgres") under databases and
    Docker under tools, and nothing else anywhere. *)
Theorem parse_stack_python_django_postgres_docker :
  returns (json_loads "python, django, postgres, docker") = false ->
  parse_stack "python, django, postgres, docker"
  = Ret (model_dump (mkTechStack ["Python"] ["Django"] ["PostgreSQL"] ["Docker"]))
  /\ _match_known " postgres" = Ret (Some ("databases", "PostgreSQL")).
Proof.
  intros H. split.
  - unfold App.parse_stack, parse_stack_json, ensure_text.
    destruct (json_loads "python, django, postgres, docker") as [v|e]; [discriminate |].
    vm_compute. reflexivity.
  - vm_compute. reflexivity.
Qed.

End Classifier.

Section ClassifierExamples.
Import Py Schemas Utils Llm App.

Lemma parse_stack_python_django_postgres_docker_witness :
  returns (rejecting_decoder "python, django, postgres, docker") = false
  /\ App.parse_stack rejecting_decoder (fun _ => "") no_fuzzy_match
       "python, django, postgres, docker"
     = Ret (model_dump (mkTechStack ["Python"] ["Django"] ["PostgreSQL"] ["Docker"])).
Proof.
  split; [reflexivity |].
  apply (parse_stack_python_django_postgres_docker rejecting_decoder (fun _ => "")
           no_fuzzy_match).
  reflexivity.
Defined.

(** "snake, cat" leaves the four categories empty. *)
Example parse_stack_snake_cat :
  App.parse_stack rejecting_decoder (fun _ => "") no_fuzzy_match "snake, cat"
  = Ret empty_buckets.
Proof. vm_compute. reflexivity. Qed.

End ClassifierExamples.

(* ===================================================================== *)
(** * The end-of-conversation test (app.py) *)
(* ===================================================================== *)

Section EndOfConversation.
Import Py Schemas App.

Lemma append_cons c s t : String c s +:+ t = String c (s +:+ t).
Proof. reflexivity. Qed.

Lemma append_assoc_snoc u c rest :
  (u +:+ String c EmptyString) +:+ rest = u +:+ String c rest.
Proof.
  induction u as [|x u IH]; [reflexivity |].
  rewrite !append_cons, IH. reflexivity.
Qed.

(** One step of [runs]. *)
Lemma runs_cons p c s :
  runs p (String c s)
  = if p c then
      if starts_with_class p s then
        match runs p s with
        | h :: t => String c h :: t
        | [] => [String c EmptyString]
        end
      else String c EmptyString :: runs p s
    else runs p s.
Proof. destruct s as [|d s]; cbn [runs starts_with_class]; destruct (p c); reflexivity. Qed.

Lemma runs_nonempty p d w : p d = true -> runs p (String d w) <> [].
Proof.
  intros Hd. rewrite runs_cons, Hd.
  destruct (starts_with_class p w); [destruct (runs p w) |]; discriminate.
Qed.

(** A run that is followed by the end of the text or by a character outside
    the class is found as a whole. *)
Lemma runs_run_then p k rest :
  is_empty k = false -> sforall p k = true -> starts_with_class p rest = false ->
  runs p (k +:+ rest) = k :: runs p rest.
Proof.
  intros Hk Hall Hrest. induction k as [|c k IH]; [discriminate |].
  cbn [sforall] in Hall. apply andb_prop in Hall as [Hc Hall].
  rewrite append_cons, runs_cons, Hc.
  destruct k as [|d k].
  - change (EmptyString +:+ rest) with rest. rewrite Hrest. reflexivity.
  - rewrite IH by (reflexivity || assumption).
    rewrite append_cons. cbn [starts_with_class].
    cbn [sforall] in Hall. apply andb_prop in Hall as [-> _]. reflexivity.
Qed.

(** A character outside the class separates the runs on its two sides. *)
Lemma runs_split_at p u c rest :
  p c = false ->
  runs p (u +:+ String c rest) = runs p u ++ runs p rest.
Proof.
  intros Hc. induction u as [|a u IH].
  - change (EmptyString +:+ String c rest) with (String c rest).
    rewrite runs_cons, Hc. reflexivity.
  - rewrite append_cons, !runs_cons, IH.
    destruct (p a); [| reflexivity].
    destruct u as [|d u].
    + change (EmptyString +:+ String c rest) with (String c rest).
      cbn [starts_with_class]. rewrite Hc. reflexivity.
    + rewrite append_cons. cbn [starts_with_class].
      destruct (p d) eqn:Hd; [| reflexivity].
      pose proof (runs_nonempty p d u Hd) as Hne.
      destruct (runs p (String d u)); [contradiction | reflexivity].
Qed.

(** ** The rule as the specification words it *)

Lemma END_KEYWORDS_are_words :
  forallb (fun k => negb (is_empty k) && sforall is_word k) END_KEYWORDS = true.
Proof. reflexivity. Qed.

Lemma whole_token_in_runs k text :
  is_empty k = false -> sforall is_word k = true ->
  whole_token k text -> k ∈ runs is_word text.
Proof.
  intros Hk Hw (pre & post & -> & Hpre & Hpost).
  destruct Hpre as [-> | (u & c & -> & Hc)].
  - change (EmptyString +:+ k +:+ post) with (k +:+ post).
    rewrite runs_run_then by assumption. left.
  - rewrite append_assoc_snoc, runs_split_at by exact Hc.
    rewrite runs_run_then by assumption.
    apply elem_of_app. right. left.
Qed.

(** Every message that the rule of the specification takes for the end of
    the conversation is recognised. *)
Lemma is_exit_complete message : ends_conversation message -> is_exit message = true.
Proof.
  intros (k & Hin & H). unfold is_exit, ensure_text.
  apply existsb_exists. exists k. split; [exact Hin |].
  destruct H as [-> | Htok].
  - rewrite String.eqb_refl. apply orb_true_r.
  - pose proof END_KEYWORDS_are_words as Hall. rewrite forallb_forall in Hall.
    specialize (Hall k Hin). apply andb_prop in Hall as [Hne Hw].
    apply negb_true_iff in Hne.
    rewrite bool_decide_eq_true_2; [reflexivity |].
    apply whole_token_in_runs; assumption.
Qed.

Lemma starts_with_class_append p a b :
  is_empty a = false -> starts_with_class p (a +:+ b) = starts_with_class p a.
Proof. destruct a; [discriminate | reflexivity]. Qed.

(** Every run begins with a character of the class. *)
Lemma runs_begin p s k : In k (runs p s) -> starts_with_class p k = true.
Proof.
  revert k. induction s as [|c s IH]; intros k; [intros [] |].
  rewrite runs_cons. destruct (p c) eqn:Hc; [| apply IH].
  destruct (starts_with_class p s).
  - destruct (runs p s) as [|h t].
    + intros [<-|[]]. exact Hc.
    + intros [<-|Hin]; [exact Hc | apply IH; right; exact Hin].
  - intros [<-|Hin]; [exact Hc | apply IH, Hin].
Qed.

Lemma boundary_before_cons c pre :
  boundary_before pre -> (pre = EmptyString -> is_word c = false) ->
  boundary_before (String c pre).
Proof.
  intros [-> | (u & d & -> & Hd)] Hc.
  - right. exists EmptyString, c. split; [reflexivity | apply Hc; reflexivity].
  - right. exists (String c u), d. split; [reflexivity | exact Hd].
Qed.

(** Every run of word characters stands in the text as a whole word, after
    the runs that precede it. *)
Lemma runs_decompose text : forall l1 k l2,
  runs is_word text = l1 ++ k :: l2 ->
  exists pre post,
    text = pre +:+ k +:+ post /\ boundary_before pre
    /\ starts_with_class is_word post = false /\ runs is_word pre = l1.
Proof.
  induction text as [|c s IH]; intros l1 k l2 H.
  - destruct l1; discriminate.
  - rewrite runs_cons in H. destruct (is_word c) eqn:Hc.
    + destruct (starts_with_class is_word s) eqn:Hs.
      * destruct (runs is_word s) as [|h t] eqn:Hr.
        { destruct s as [|d s]; [discriminate |]. cbn [starts_with_class] in Hs.
          exfalso. exact (runs_nonempty is_word d s Hs Hr). }
        destruct l1 as [|x l1].
        -- injection H as <- <-.
           destruct (IH [] h t eq_refl) as (pre & post & Hs' & Hb & Hpost & Hpre).
           assert (pre = EmptyString) as ->.
           { destruct pre as [|d pre]; [reflexivity |]. exfalso.
             rewrite Hs' in Hs. rewrite append_cons in Hs. cbn [starts_with_class] in Hs.
             exact (runs_nonempty is_word d pre Hs Hpre). }
           exists EmptyString, post. rewrite Hs'. repeat split; [left; reflexivity | exact Hpost].
        -- injection H as <- Ht.
           destruct (IH (h :: l1) k l2) as (pre & post & Hs' & Hb & Hpost & Hpre).
           { rewrite Ht. reflexivity. }
           exists (String c pre), post. rewrite Hs'. split; [reflexivity |].
           split.
           { apply boundary_before_cons; [exact Hb |]. intros ->. discriminate. }
           split; [exact Hpost |].
           rewrite runs_cons, Hc.
           assert (Hne : is_empty pre = false) by (destruct pre; [discriminate | reflexivity]).
           rewrite Hs', starts_with_class_append in Hs by exact Hne.
           rewrite Hs, Hpre. reflexivity.
      * destruct l1 as [|x l1].
        -- injection H as <- <-.
           exists EmptyString, s. repeat split; [left; reflexivity | exact Hs].
        -- injection H as <- Ht.
           destruct (IH l1 k l2 Ht) as (pre & post & Hs' & Hb & Hpost & Hpre).
           assert (Hk : starts_with_class is_word k = true).
           { apply (runs_begin is_word s). rewrite Ht. apply in_elt. }
           assert (Hne : is_empty pre = false).
           { destruct pre; [| reflexivity]. exfalso.
             rewrite Hs' in Hs. change (EmptyString +:+ k +:+ post) with (k +:+ post) in Hs.
             rewrite starts_with_class_append in Hs by (destruct k; [discriminate | reflexivity]).
             congruence. }
           exists (String c pre), post. rewrite Hs'. split; [reflexivity |].
           split.
           { apply boundary_before_cons; [exact Hb |]. intros ->. discriminate. }
           split; [exact Hpost |].
           rewrite runs_cons, Hc.
           rewrite Hs', starts_with_class_append in Hs by exact Hne.
           rewrite Hs, Hpre. reflexivity.
    + destruct (IH l1 k l2 H) as (pre & post & Hs' & Hb & Hpost & Hpre).
      exists (String c pre), post. rewrite Hs'. split; [reflexivity |].
      split; [apply boundary_before_cons; [exact Hb | intros _; exact Hc] |].
      split; [exact Hpost |].
      rewrite runs_cons, Hc. exact Hpre.
Qed.

Lemma runs_in_whole_token k text : In k (runs is_word text) -> whole_token k text.
Proof.
  intros H. apply in_split in H as (l1 & l2 & H).
  destruct (runs_decompose text l1 k l2 H) as (pre & post & -> & Hb & Hpost & _).
  exists pre, post. repeat split; assumption.
Qed.

(** Nothing else is recognised: the test of the code and the rule of the
    specification accept the same messages. *)
Lemma is_exit_sound message : is_exit message = true -> ends_conversation message.
Proof.
  unfold is_exit, ensure_text. intros H.
  apply existsb_exists in H as (k & Hin & Hk). exists k. split; [exact Hin |].
  apply orb_prop in Hk as [Hk|Hk].
  - right. apply bool_decide_eq_true_1 in Hk.
    apply runs_in_whole_token, list_elem_of_In, Hk.
  - left. apply String.eqb_eq in Hk. symmetry. exact Hk.
Qed.

Lemma is_exit_iff message : is_exit message = true <-> ends_conversation message.
Proof. split; [apply is_exit_sound | apply is_exit_complete]. Qed.

Lemma is_exit_empty : is_exit "" = false.
Proof. reflexivity. Qed.

(** "BYE" in every letter case. *)
Example is_exit_bye :
  is_exit "BYE" = true /\ is_exit "bye" = true /\ is_exit "Bye" = true
  /\ is_exit "  bYe  " = true /\ is_exit "ok, bye!" = true /\ is_exit "goodbyes" = false.
Proof. repeat split; reflexivity. Qed.

End EndOfConversation.

(* ===================================================================== *)
(** * The validation step and the turn step (app.py) *)
(* ===================================================================== *)

Section Turn.
Import Py Schemas ModelClient Utils Llm App.

Variable PROVIDER OPENAI_MODEL OLLAMA_MODEL : string.
Variable QUESTIONS_PER_TOPIC MAX_TOPICS : Z.
Variable TEMPERATURE : Q.
Variable EVAL_ANSWERS : bool.
Variable OPENAI_MODEL_DEFAULT : string.
Variable uniform : nat -> Q.
Variable openai : backend.
Variable ollama_chat : request -> res pyobj.
Variable json_loads : string -> res pyobj.
Variable json_dumps : pyobj -> string.
Variable str_compound : pyobj -> string.
Variable extractOne_token_set : string -> list string -> option (string * Q).
Variable extractOne_WRatio : string -> list string -> option (string * Q).
Variable COUNTRIES : list string.
Variable countries_lookup : string -> res (string * string).
Variable geocode : string -> option string -> res (option GeoAddress).
Variable normalize_unicode : string -> string.
Variable search_email_shape : string -> option string.
Variable validate_email : string -> bool -> res string.
Variable EMAIL_DELIVERABILITY : string.
Variable load_profile : string -> res (option Profile).
Variable PhoneNumber : Type.
Variable phonenumbers_parse : string -> option string -> res PhoneNumber.
Variable is_valid_number : PhoneNumber -> bool.
Variable format_E164 : PhoneNumber -> string.
Variable DEFAULT_REGION : option string.
Variable float_of_string : string -> res pyfloat.
Variable langdetect_detect : string -> res string.
Variable vader_compound : option (string -> Q).
Variable round3 : Q -> Q.

Local Abbreviation validate_and_set :=
  (App.validate_and_set json_loads str_compound extractOne_token_set extractOne_WRatio
     COUNTRIES countries_lookup geocode normalize_unicode search_email_shape validate_email
     EMAIL_DELIVERABILITY load_profile PhoneNumber phonenumbers_parse is_valid_number
     format_E164 DEFAULT_REGION float_of_string).
Local Abbreviation set_email :=
  (App.set_email extractOne_WRatio normalize_unicode search_email_shape validate_email
     EMAIL_DELIVERABILITY load_profile).
Local Abbreviation set_tech_stack :=
  (App.set_tech_stack json_loads str_compound extractOne_token_set).
Local Abbreviation record_input := (App.record_input langdetect_detect vader_compound round3).
Local Abbreviation turn :=
  (App.turn PROVIDER OPENAI_MODEL OLLAMA_MODEL QUESTIONS_PER_TOPIC MAX_TOPICS TEMPERATURE
     EVAL_ANSWERS OPENAI_MODEL_DEFAULT uniform openai ollama_chat json_loads json_dumps
     str_compound extractOne_token_set extractOne_WRatio COUNTRIES countries_lookup geocode
     normalize_unicode search_email_shape validate_email EMAIL_DELIVERABILITY load_profile
     PhoneNumber phonenumbers_parse is_valid_number format_E164 DEFAULT_REGION
     float_of_string langdetect_detect vader_compound round3).
Local Abbreviation gather_turn :=
  (App.gather_turn PROVIDER OPENAI_MODEL OLLAMA_MODEL QUESTIONS_PER_TOPIC MAX_TOPICS TEMPERATURE
     OPENAI_MODEL_DEFAULT uniform openai ollama_chat json_loads json_dumps
     str_compound extractOne_token_set extractOne_WRatio COUNTRIES countries_lookup geocode
     normalize_unicode search_email_shape validate_email EMAIL_DELIVERABILITY load_profile
     PhoneNumber phonenumbers_parse is_valid_number format_E164 DEFAULT_REGION
     float_of_string).

(** ** What the small steps leave alone *)

Lemma candidate_say role text meta st : candidate (say role text meta st) = candidate st.
Proof. reflexivity. Qed.

Lemma candidate_set_candidate c st : candidate (set_candidate c st) = c.
Proof. reflexivity. Qed.

Lemma rejected_keeps_record field st : candidate (snd (rejected field st)) = candidate st.
Proof. reflexivity. Qed.

Lemma accepted_true c st : fst (accepted c st) = true.
Proof. reflexivity. Qed.

Lemma set_email_failure c ttxt st :
  c = candidate st ->
  fst (set_email c ttxt st) = false ->
  candidate (snd (set_email c ttxt st)) = candidate st.
Proof.
  intros Hc. unfold App.set_email.
  destruct (validate_email _ false) as [normalized|e]; [| reflexivity].
  destruct (String.eqb _ "strict").
  - destruct (validate_email normalized true) as [v|e].
    + destruct (load_profile normalized); [discriminate | reflexivity].
    + destruct (exn_class_of e); try reflexivity.
      destruct (load_profile normalized); [discriminate | reflexivity].
  - destruct (load_profile normalized); [discriminate | reflexivity].
Qed.

Lemma set_tech_stack_failure c text st :
  c = candidate st ->
  fst (set_tech_stack c text st) = false ->
  candidate (snd (set_tech_stack c text st)) = candidate st.
Proof.
  intros Hc. unfold App.set_tech_stack.
  destruct (App.parse_stack _ _ _ text) as [parsed|e]; [| reflexivity].
  destruct (negb (any_bucket parsed)); [intros _; exact Hc | discriminate].
Qed.

(** Every way out of the step that answers [False] stores the record that
    was loaded at its start. *)
Lemma validate_and_set_failure field text st :
  fst (validate_and_set field text st) = false ->
  candidate (snd (validate_and_set field text st)) = candidate st.
Proof.
  unfold App.validate_and_set.
  repeat match goal with
         | |- context [if String.eqb field ?f then _ else _] =>
             destruct (String.eqb field f)
         end.
  - destruct (is_affirmative _); [discriminate | reflexivity].
  - destruct (validate_full_name _); [discriminate | reflexivity].
  - apply set_email_failure. reflexivity.
  - destruct (phonenumbers_parse _ _) as [num|e]; [| reflexivity].
    destruct (negb (is_valid_number num)); [reflexivity | discriminate].
  - destruct (float_of_string _) as [val|e]; [| reflexivity].
    destruct (negb (years_in_range val)); [reflexivity | discriminate].
  - destruct (validate_positions_strict _); [discriminate | reflexivity].
  - destruct (App.normalize_location_input _ _ _ _ _); [discriminate | reflexivity].
  - apply set_tech_stack_failure. reflexivity.
  - discriminate.
Qed.


(** Hence a record that differs after the step comes from a step that
    succeeded. *)
Lemma validate_and_set_changes_only_on_success field text st :
  candidate (snd (validate_and_set field text st)) <> candidate st ->
  fst (validate_and_set field text st) = true.
Proof.
  intros H. destruct (fst (validate_and_set field text st)) eqn:E; [reflexivity |].
  exfalso. apply H, validate_and_set_failure, E.
Qed.

(** The same seen from the turn, in a phase other than the question phase.
    Before it validates, the turn writes the language of the session into a
    record that names none; that apart, a turn whose validation fails ends
    with the record it started with. *)
Lemma gather_turn_failure_record user_text st :
  let st0 :=
    if not_text (Schemas.language (candidate st))
    then set_candidate (with_language (candidate st) (language st)) st else st in
  fst (validate_and_set (next_missing_field (candidate st0)) user_text st0) = false ->
  exists st', gather_turn user_text st = Completed st' /\ candidate st' = candidate st0.
Proof.
  intros st0 Hfail. unfold App.gather_turn. fold st0.
  destruct (is_empty (next_missing_field (candidate st0))).
  - eexists. split; reflexivity.
  - pose proof (validate_and_set_failure _ user_text st0 Hfail) as Hkeep.
    destruct (validate_and_set _ user_text st0) as [valid st1]. cbn [fst snd] in *.
    subst valid. eexists. split; [reflexivity |]. exact Hkeep.
Qed.

Lemma gather_turn_failure_keeps_record user_text st :
  not_text (Schemas.language (candidate st)) = false ->
  fst (validate_and_set (next_missing_field (candidate st)) user_text st) = false ->
  exists st', gather_turn user_text st = Completed st' /\ candidate st' = candidate st.
Proof.
  intros Hlang Hfail. pose proof (gather_turn_failure_record user_text st) as H.
  cbn zeta in H. rewrite Hlang in H. apply H, Hfail.
Qed.

(** ** The end of the conversation *)

(** The record, the questions and the answers are out of reach of the
    steps that read the input and close the conversation. *)
Lemma close_after_record_input user_text st :
  let st' := close_conversation (record_input user_text st) in
  phase st' = "end"
  /\ candidate st' = candidate st
  /\ questions st' = questions st
  /\ q_index st' = q_index st
  /\ answers st' = answers st
  /\ prefs st' = prefs st.
Proof.
  unfold close_conversation, App.record_input.
  destruct (negb (iso_code_ok (language st))); repeat split; reflexivity.
Qed.

Lemma greeting_keeps_progress st :
  candidate (greeting st) = candidate st
  /\ questions (greeting st) = questions st
  /\ q_index (greeting st) = q_index st
  /\ answers (greeting st) = answers st
  /\ prefs (greeting st) = prefs st.
Proof. unfold greeting. destruct (String.eqb (phase st) "greet"); repeat split; reflexivity. Qed.


Lemma messages_say role text meta st :
  messages (say role text meta st) = messages st ++ [mkMessage role text meta].
Proof. reflexivity. Qed.

(** What the closing turn does change besides the phase: the transcript
    gains the message of the user and the closing reply. *)
Lemma exit_message_transcript user_text st :
  exists user_message closing_reply,
    messages (close_conversation (record_input user_text st))
    = messages st ++ [user_message; closing_reply]
    /\ msg_role user_message = "user" /\ msg_content user_message = user_text
    /\ msg_role closing_reply = "assistant".
Proof.
  unfold close_conversation.
  change (messages (set_phase "end" ?x)) with (messages x).
  rewrite messages_say. unfold App.record_input. rewrite messages_say.
  destruct (negb (iso_code_ok (language st)));
    (eexists; eexists; rewrite <- app_assoc; repeat split; reflexivity).
Qed.

End Turn.

Section TurnExamples.
Import Py Schemas ModelClient Utils Llm App.


Lemma bye_ends_conversation : ends_conversation "BYE".
Proof. exists "bye". split; [simpl; tauto | left; reflexivity]. Defined.


(** The whole conversation of a candidate who declines and leaves. *)
Example decline_then_leave :
  exists st1 st2,
    bench_turn "not now" initial_state = Completed st1
    /\ candidate st1 = Candidate_default /\ phase st1 = "gather"
    /\ bench_turn "ok, bye!" st1 = Stopped st2
    /\ candidate st2 = Candidate_default /\ phase st2 = "end"
    /\ length (messages st2) = 6%nat.
Proof. eexists. eexists. repeat split; vm_compute; reflexivity. Qed.

End TurnExamples.

(* ===================================================================== *)
(** * More on the backend call (model_client.py) *)
(* ===================================================================== *)

Section BackendCallMore.

Variable OPENAI_MODEL_DEFAULT : string.
Variable uniform : nat -> Q.

Lemma seq_split_at n m : (n < m)%nat -> seq 0 m = seq 0 n ++ n :: seq (S n) (m - S n).
Proof.
  intros H. replace m with (n + S (m - S n))%nat at 1 by lia.
  rewrite seq_app. reflexivity.
Qed.






End BackendCallMore.

(* ===================================================================== *)
(** * Text helpers and JSON extraction (utils.py) *)
(* ===================================================================== *)

Section TextHelpers.

Lemma lstrip_head s :
  lstrip s = EmptyString \/ exists c r, lstrip s = String c r /\ is_space c = false.
Proof.
  induction s as [|c s IH]; [left; reflexivity |].
  cbn [lstrip]. destruct (is_space c) eqn:E; [exact IH |].
  right. exists c, s. split; [reflexivity | exact E].
Qed.

Lemma rstrip_idempotent s : rstrip (rstrip s) = rstrip s.
Proof.
  induction s as [|c s IH]; [reflexivity |].
  cbn [rstrip]. destruct (is_empty (rstrip s) && is_space c) eqn:E; [reflexivity |].
  cbn [rstrip]. rewrite IH, E. reflexivity.
Qed.

Lemma strip_idempotent s : strip (strip s) = strip s.
Proof.
  unfold strip. destruct (lstrip_head s) as [-> | (c & r & -> & Hc)]; [reflexivity |].
  assert (H : rstrip (String c r) = String c (rstrip r)).
  { cbn [rstrip]. rewrite Hc, andb_false_r. reflexivity. }
  rewrite H. cbn [lstrip]. rewrite Hc. rewrite <- H. apply rstrip_idempotent.
Qed.

Lemma sforall_lstrip p s : sforall p s = true -> sforall p (lstrip s) = true.
Proof.
  induction s as [|c s IH]; [reflexivity |]. intros H.
  cbn [sforall] in H. apply andb_prop in H as [Hc Hs].
  cbn [lstrip]. destruct (is_space c); [apply IH, Hs |].
  cbn [sforall]. rewrite Hc, Hs. reflexivity.
Qed.

Lemma sforall_rstrip p s : sforall p s = true -> sforall p (rstrip s) = true.
Proof.
  induction s as [|c s IH]; [reflexivity |]. intros H.
  cbn [sforall] in H. apply andb_prop in H as [Hc Hs].
  cbn [rstrip]. destruct (is_empty (rstrip s) && is_space c); [reflexivity |].
  cbn [sforall]. rewrite Hc, (IH Hs). reflexivity.
Qed.

Lemma sforall_strip p s : sforall p s = true -> sforall p (strip s) = true.
Proof. intros H. apply sforall_rstrip, sforall_lstrip, H. Qed.

(** The pieces between separators hold no separator. *)
Lemma split_on_pieces p s y :
  In y (split_on p s) -> sforall (fun c => negb (p c)) y = true.
Proof.
  revert y. induction s as [|c s IH]; intros y.
  - intros [<-|[]]. reflexivity.
  - cbn [split_on]. destruct (p c) eqn:Hc.
    + intros [<-|H]; [reflexivity | apply IH, H].
    + destruct (split_on p s) as [|h t] eqn:E.
      * intros [<-|[]]. cbn [sforall]. rewrite Hc. reflexivity.
      * intros [<-|H].
        -- cbn [sforall]. rewrite Hc. cbn [negb andb]. apply IH. left. reflexivity.
        -- apply IH. right. exact H.
Qed.

(** X6: every item that [csv_or_list] returns is non-empty, has no white
    space at its ends and holds neither a comma nor a semicolon. *)
Theorem csv_or_list_items text x :
  In x (csv_or_list text) ->
  is_empty x = false
  /\ strip x = x
  /\ sforall (fun c => negb (is_semicolon_or_comma c)) x = true.
Proof.
  unfold csv_or_list. intros H. apply filter_In in H as [H Hne].
  apply in_map_iff in H as (y & <- & Hy).
  split; [apply negb_true_iff, Hne |].
  split; [apply strip_idempotent |].
  apply sforall_strip, (split_on_pieces _ text), Hy.
Qed.

Lemma lower_upper_char c : lower_char (upper_char c) = lower_char c.
Proof. destruct c as [[] [] [] [] [] [] [] []]; reflexivity. Qed.

Lemma lower_lower_char c : lower_char (lower_char c) = lower_char c.
Proof. destruct c as [[] [] [] [] [] [] [] []]; reflexivity. Qed.

Lemma is_space_upper_char c : is_space (upper_char c) = is_space c.
Proof. destruct c as [[] [] [] [] [] [] [] []]; reflexivity. Qed.

Lemma is_space_lower_char c : is_space (lower_char c) = is_space c.
Proof. destruct c as [[] [] [] [] [] [] [] []]; reflexivity. Qed.

Lemma smap_smap f g s : smap f (smap g s) = smap (fun c => f (g c)) s.
Proof. induction s as [|c s IH]; [reflexivity |]. cbn [smap]. rewrite IH. reflexivity. Qed.

Lemma smap_ext f g s : (forall c, f c = g c) -> smap f s = smap g s.
Proof.
  intros H. induction s as [|c s IH]; [reflexivity |]. cbn [smap]. rewrite H, IH. reflexivity.
Qed.

Lemma is_empty_smap f s : is_empty (smap f s) = is_empty s.
Proof. destruct s; reflexivity. Qed.

Lemma lstrip_smap f s :
  (forall c, is_space (f c) = is_space c) -> lstrip (smap f s) = smap f (lstrip s).
Proof.
  intros H. induction s as [|c s IH]; [reflexivity |].
  cbn [smap lstrip]. rewrite H. destruct (is_space c); [exact IH | reflexivity].
Qed.

Lemma rstrip_smap f s :
  (forall c, is_space (f c) = is_space c) -> rstrip (smap f s) = smap f (rstrip s).
Proof.
  intros H. induction s as [|c s IH]; [reflexivity |].
  cbn [smap rstrip]. rewrite IH, is_empty_smap, H.
  destruct (is_empty (rstrip s) && is_space c); reflexivity.
Qed.

Lemma strip_smap f s :
  (forall c, is_space (f c) = is_space c) -> strip (smap f s) = smap f (strip s).
Proof. intros H. unfold strip. rewrite lstrip_smap, rstrip_smap by exact H. reflexivity. Qed.

(** The text that the tests look at, [strip] then [lower], is the same for
    a message and for the message in upper or in lower case. *)
Lemma lower_strip_upper s : lower (strip (upper s)) = lower (strip s).
Proof.
  unfold lower, upper. rewrite strip_smap by apply is_space_upper_char.
  rewrite smap_smap. apply smap_ext, lower_upper_char.
Qed.

Lemma lower_strip_lower s : lower (strip (lower s)) = lower (strip s).
Proof.
  unfold lower. rewrite strip_smap by apply is_space_lower_char.
  rewrite smap_smap. apply smap_ext, lower_lower_char.
Qed.



End TextHelpers.

Section JsonExtractionMore.

Variable json_loads : string -> res pyobj.
Variable str_compound : pyobj -> string.

(** X9: the extraction returns for every value whose text does not hold six
    backquotes in a row: lists and dictionaries, [None], texts, whatever
    the decoder does on them. *)
Theorem extract_returns_unless_fenced (text : pyobj) :
  contains FENCE (_ensure_text str_compound text) = false ->
  returns (extract_first_json_object json_loads str_compound text) = true.
Proof. apply extract_returns. Qed.



End JsonExtractionMore.

Section BracketSearch.

Lemma up_to_first_shape close s m :
  up_to_first close s = Some m ->
  exists body post,
    s = m +:+ post /\ m = body +:+ String close EmptyString
    /\ sforall (fun d => negb (Ascii.eqb d close)) body = true.
Proof.
  revert m. induction s as [|c s IH]; intros m; [discriminate |].
  cbn [up_to_first]. destruct (Ascii.eqb c close) eqn:E.
  - intros [= <-]. apply Ascii.eqb_eq in E. subst c.
    exists EmptyString, s. repeat split.
  - destruct (up_to_first close s) as [m'|]; [| discriminate].
    intros [= <-]. destruct (IH m' eq_refl) as (body & post & -> & -> & Hbody).
    exists (String c body), post. repeat split.
    cbn [sforall]. rewrite E, Hbody. reflexivity.
Qed.

(** X10: what the search for a bracketed piece finds is a piece of the
    text that opens with a brace and runs to the first closing brace after
    it, or opens with a square bracket and runs to the first closing square
    bracket after it. *)
Theorem search_bracketed_shape s m :
  search_bracketed s = Some m ->
  exists pre body post,
    s = pre +:+ m +:+ post
    /\ ((m = String "{" (body +:+ "}")
         /\ sforall (fun d => negb (Ascii.eqb d "}")) body = true)
        \/ (m = String "[" (body +:+ "]")
            /\ sforall (fun d => negb (Ascii.eqb d "]")) body = true)).
Proof.
  revert m. induction s as [|c s IH]; intros m; [discriminate |].
  cbn [search_bracketed].
  destruct (Ascii.eqb c "{") eqn:Ebrace.
  - apply Ascii.eqb_eq in Ebrace. subst c.
    destruct (up_to_first "}" s) as [m'|] eqn:Eup; cbn [option_map].
    + intros [= <-]. apply up_to_first_shape in Eup as (body & post & -> & -> & Hb).
      exists EmptyString, body, post. split; [reflexivity |]. left. split; [reflexivity | exact Hb].
    + intros H. destruct (IH m H) as (pre & body & post & -> & Hm).
      exists (String "{" pre), body, post. split; [reflexivity | exact Hm].
  - destruct (Ascii.eqb c "[") eqn:Ebracket.
    + apply Ascii.eqb_eq in Ebracket. subst c.
      destruct (up_to_first "]" s) as [m'|] eqn:Eup; cbn [option_map].
      * intros [= <-]. apply up_to_first_shape in Eup as (body & post & -> & -> & Hb).
        exists EmptyString, body, post. split; [reflexivity |]. right.
        split; [reflexivity | exact Hb].
      * intros H. destruct (IH m H) as (pre & body & post & -> & Hm).
        exists (String "[" pre), body, post. split; [reflexivity | exact Hm].
    + intros H. destruct (IH m H) as (pre & body & post & -> & Hm).
      exists (String c pre), body, post. split; [reflexivity | exact Hm].
Qed.

End BracketSearch.

Section LanguageDetection.

Variable langdetect_detect : string -> res string.

(** X11: language detection answers with the default for a blank text and
    when the detector fails, and never answers with the empty code when the
    default is not empty. *)
Theorem detect_language_falls_back text default :
  is_empty default = false ->
  is_empty (detect_language langdetect_detect text default) = false
  /\ (is_empty (strip text) = true ->
      detect_language langdetect_detect text default = default)
  /\ (returns (langdetect_detect (strip text)) = false ->
      detect_language langdetect_detect text default = default).
Proof.
  intros Hd. unfold detect_language. repeat split.
  - destruct (is_empty (strip text)); [exact Hd |].
    destruct (langdetect_detect (strip text)) as [code|e]; [| exact Hd].
    unfold sor. destruct (is_empty code) eqn:E; [exact Hd | exact E].
  - intros ->. reflexivity.
  - intros H. destruct (is_empty (strip text)); [reflexivity |].
    destruct (langdetect_detect (strip text)); [discriminate | reflexivity].
Qed.

End LanguageDetection.

(* ===================================================================== *)
(** * More on question generation (llm.py) *)
(* ===================================================================== *)

Section QuestionLists.

Variable QUESTIONS_PER_TOPIC MAX_TOPICS : Z.

Local Abbreviation cap_step := (Llm.cap_step QUESTIONS_PER_TOPIC).
Local Abbreviation _cap_per_topic := (Llm._cap_per_topic QUESTIONS_PER_TOPIC).
Local Abbreviation _fallback := (Llm._fallback QUESTIONS_PER_TOPIC MAX_TOPICS).

(** X12: validation gives back the questions it has dumped: a list of
    dumped questions passes unchanged. *)
Theorem validate_questions_round_trip (qs : list Question) :
  _validate_questions (List.map question_dict qs) = qs.
Proof.
  unfold _validate_questions. rewrite validate_loop. cbn [app].
  induction qs as [|q qs IH]; [reflexivity |].
  cbn [List.map List.filter]. destruct q as [t qu d]. cbn. f_equal. exact IH.
Qed.

(** X13: after the limit every topic has as many questions as before, up
    to the limit (none when the limit is not positive). *)
Theorem cap_per_topic_counts items t :
  count_topic t (_cap_per_topic items)
  = Nat.min (count_topic t items) (Z.to_nat QUESTIONS_PER_TOPIC).
Proof. apply cap_per_topic_count. Qed.

Lemma cap_loop_sublist items per out :
  exists kept, snd (fold_left cap_step items (per, out)) = out ++ kept
               /\ sublist kept items.
Proof.
  revert per out. induction items as [|q items IH]; intros per out.
  - exists []. split; [simpl; rewrite app_nil_r; reflexivity | constructor].
  - cbn [fold_left]. rewrite cap_step_eq. destruct (_ <=? _)%Z.
    + destruct (IH (<[topic q := (default 0%Z (per !! topic q) + 1)%Z]> per) (out ++ [q]))
        as (kept & -> & Hsub).
      exists (q :: kept). split; [rewrite <- app_assoc; reflexivity |].
      apply sublist_skip, Hsub.
    + destruct (IH (<[topic q := (default 0%Z (per !! topic q) + 1)%Z]> per) out)
        as (kept & -> & Hsub).
      exists kept. split; [reflexivity |]. apply sublist_cons, Hsub.
Qed.

Lemma cap_sublist items : sublist (_cap_per_topic items) items.
Proof.
  unfold Llm._cap_per_topic.
  destruct (cap_loop_sublist items ∅ []) as (kept & -> & Hsub). exact Hsub.
Qed.

(** X14: the limit only drops items: what it returns are items of its
    input in their order of arrival. *)
Theorem cap_per_topic_sublist items : sublist (_cap_per_topic items) items.
Proof. apply cap_sublist. Qed.

Lemma count_topic_zero_nil (l : list Question) :
  (forall t, count_topic t l = 0%nat) -> l = [].
Proof.
  destruct l as [|q l]; [reflexivity |]. intros H. specialize (H (topic q)).
  unfold count_topic in H. cbn [List.filter] in H. unfold on_topic at 1 in H.
  rewrite String.eqb_refl in H. discriminate.
Qed.

(** X15: applying the limit twice is the same as applying it once. *)
Theorem cap_per_topic_idempotent items :
  _cap_per_topic (_cap_per_topic items) = _cap_per_topic items.
Proof.
  destruct (Z.le_gt_cases 0 QUESTIONS_PER_TOPIC) as [Hpos|Hneg].
  - apply cap_per_topic_within. intros t. rewrite cap_per_topic_count. lia.
  - assert (H : _cap_per_topic items = []).
    { apply count_topic_zero_nil. intros t. rewrite cap_per_topic_count. lia. }
    rewrite H. reflexivity.
Qed.

(** X16: with a limit of at least 1 per topic the fallback is never empty,
    whatever the stack and whatever the limit on topics. *)
Theorem fallback_never_empty stack :
  (1 <= QUESTIONS_PER_TOPIC)%Z -> _fallback stack <> [].
Proof. apply fallback_nonempty. Qed.

Lemma validate_fallback_topics topics :
  _validate_questions (List.concat (List.map fallback_items topics))
  = List.concat (List.map template_questions topics).
Proof.
  unfold _validate_questions. rewrite validate_loop. cbn [app].
  induction topics as [|t topics IH]; [reflexivity |].
  cbn [List.map List.concat]. rewrite List.filter_app, List.map_app, IH. reflexivity.
Qed.

Lemma slice_to_In {A} (n : Z) (l : list A) x : In x (slice_to n l) -> In x l.
Proof.
  unfold slice_to. destruct (0 <=? n)%Z; intros H;
    apply list_elem_of_In; apply list_elem_of_In in H;
    eapply subseteq_take; exact H.
Qed.

Lemma slice_to_length {A} (n : Z) (l : list A) :
  (0 <= n)%Z -> (length (slice_to n l) <= Z.to_nat n)%nat.
Proof.
  intros H. unfold slice_to. destruct (Z.leb_spec 0 n); [| lia].
  rewrite length_take. lia.
Qed.

(** The topics the fallback works on. *)
Lemma fallback_shape stack :
  exists topics,
    _fallback stack = _cap_per_topic (List.concat (List.map template_questions topics))
    /\ (forall t, In t topics ->
          In t (_topics stack) \/ (_topics stack = [] /\ t = "General"))
    /\ ((0 < MAX_TOPICS)%Z -> (length topics <= Z.to_nat MAX_TOPICS)%nat).
Proof.
  unfold Llm._fallback.
  set (topics := if is_empty_list (_topics stack) then ["General"] else _topics stack).
  exists (if (0 <? MAX_TOPICS)%Z then slice_to MAX_TOPICS topics else topics).
  split; [| split].
  - rewrite fallback_base_loop. cbn [app]. rewrite validate_fallback_topics. reflexivity.
  - assert (Hin : forall t, In t topics ->
                  In t (_topics stack) \/ (_topics stack = [] /\ t = "General")).
    { unfold topics. destruct (_topics stack) as [|t0 rest]; cbn [is_empty_list].
      - intros t [<-|[]]. right. split; reflexivity.
      - intros t Ht. left. exact Ht. }
    intros t Ht. apply Hin. destruct (0 <? MAX_TOPICS)%Z; [| exact Ht].
    apply (slice_to_In MAX_TOPICS), Ht.
  - intros Hpos. destruct (Z.ltb_spec 0 MAX_TOPICS); [| lia].
    apply slice_to_length. lia.
Qed.

(** X17: every fallback question is one of the three fixed questions on
    its topic, carries one of the three difficulties, and its topic is a
    topic of the stack, or "General" when the stack has none. *)
Theorem fallback_questions_are_templates stack q :
  In q (_fallback stack) ->
  In q (template_questions (topic q))
  /\ In (difficulty q) DIFFICULTIES
  /\ (In (topic q) (_topics stack) \/ (_topics stack = [] /\ topic q = "General")).
Proof.
  destruct (fallback_shape stack) as (topics & -> & Htopics & _).
  intros Hq. apply cap_per_topic_sub in Hq.
  apply in_concat in Hq as (l & Hl & Hq).
  apply in_map_iff in Hl as (t & <- & Ht).
  assert (Htq : topic q = t).
  { cbn [template_questions In] in Hq. destruct Hq as [<-|[<-|[<-|[]]]]; reflexivity. }
  rewrite Htq. split; [exact Hq |]. split.
  - cbn [template_questions In] in Hq. unfold DIFFICULTIES.
    destruct Hq as [<-|[<-|[<-|[]]]]; cbn; tauto.
  - apply Htopics, Ht.
Qed.

Lemma sublist_length_le {A} (l1 l2 : list A) : sublist l1 l2 -> (length l1 <= length l2)%nat.
Proof. induction 1; simpl; lia. Qed.

Lemma concat_templates_length topics :
  length (List.concat (List.map template_questions topics)) = (3 * length topics)%nat.
Proof.
  induction topics as [|t topics IH]; [reflexivity |].
  cbn [List.map List.concat]. rewrite length_app, IH. cbn [template_questions length]. lia.
Qed.

(** X18: with a positive limit on topics the fallback has at most three
    questions for each of at most [MAX_TOPICS] topics. *)
Theorem fallback_size_bounded stack :
  (0 < MAX_TOPICS)%Z ->
  (length (_fallback stack) <= 3 * Z.to_nat MAX_TOPICS)%nat.
Proof.
  intros Hpos. destruct (fallback_shape stack) as (topics & -> & _ & Hlen).
  specialize (Hlen Hpos).
  pose proof (sublist_length_le _ _
                (cap_sublist (List.concat (List.map template_questions topics)))) as H.
  rewrite concat_templates_length in H. lia.
Qed.


End QuestionLists.

Section GenerationMore.

Variable PROVIDER OPENAI_MODEL OLLAMA_MODEL : string.
Variable QUESTIONS_PER_TOPIC MAX_TOPICS : Z.
Variable TEMPERATURE : Q.
Variable EVAL_ANSWERS : bool.
Variable OPENAI_MODEL_DEFAULT : string.
Variable uniform : nat -> Q.
Variable openai : backend.
Variable ollama_chat : request -> res pyobj.
Variable json_loads : string -> res pyobj.
Variable json_dumps : pyobj -> string.
Variable str_compound : pyobj -> string.

Local Abbreviation _cap_per_topic := (Llm._cap_per_topic QUESTIONS_PER_TOPIC).
Local Abbreviation _fallback := (Llm._fallback QUESTIONS_PER_TOPIC MAX_TOPICS).
Local Abbreviation generate_questions :=
  (Llm.generate_questions PROVIDER OPENAI_MODEL OLLAMA_MODEL QUESTIONS_PER_TOPIC MAX_TOPICS
     TEMPERATURE OPENAI_MODEL_DEFAULT uniform openai ollama_chat json_loads json_dumps
     str_compound).
Local Abbreviation grade_answer :=
  (Llm.grade_answer PROVIDER OPENAI_MODEL EVAL_ANSWERS OPENAI_MODEL_DEFAULT uniform openai
     json_loads json_dumps str_compound).

Lemma generation_parse_capped content r :
  generation_parse QUESTIONS_PER_TOPIC json_loads str_compound content = Ret r ->
  exists items, fst r = _cap_per_topic items.
Proof.
  unfold generation_parse.
  destruct (extract_first_json_object _ _ _) as [data|e]; [| discriminate]. cbn [bind].
  destruct (iterate _) as [raw|e]; [| discriminate]. cbn [bind].
  destruct (is_empty_list _); [discriminate |]. intros [= <-]. eexists. reflexivity.
Qed.

(** Whatever way generation takes, its questions have passed the limit. *)
Lemma generate_questions_capped stack language :
  exists items, fst (generate_questions stack language) = _cap_per_topic items.
Proof.
  unfold Llm.generate_questions.
  destruct (generation_content _ _ _ _ _ _ _ _ _ _ _ _ _ _) as [[content|early]|e] eqn:Hc;
    cbn [bind].
  - destruct (generation_parse _ _ _ content) as [r|e] eqn:Hp.
    + exact (generation_parse_capped _ _ Hp).
    + eexists. reflexivity.
  - apply generation_content_early in Hc as [cause ->]. eexists. reflexivity.
  - eexists. reflexivity.
Qed.

(** X19: the questions that generation returns, from the backend or from
    the fallback, never hold more than the limit per topic on any topic. *)
Theorem generate_questions_within_limit stack language t :
  (Z.of_nat (count_topic t (fst (generate_questions stack language)))
   <= Z.max 0 QUESTIONS_PER_TOPIC)%Z.
Proof.
  destruct (generate_questions_capped stack language) as [items ->].
  apply cap_per_topic_bound.
Qed.

(** X20: with a provider that is neither "openai" nor "ollama" no backend
    is called: generation returns the fallback and a diagnostic that names
    the provider. *)
Theorem generate_questions_unknown_provider stack language :
  String.eqb PROVIDER "openai" = false ->
  String.eqb PROVIDER "ollama" = false ->
  generate_questions stack language
  = (_fallback (StackDict (_as_dict stack)), "fallback:Unknown PROVIDER: " +:+ PROVIDER).
Proof.
  intros H1 H2. unfold Llm.generate_questions, generation_content.
  rewrite H1, H2. reflexivity.
Qed.

Lemma heuristic_verdict_known q answer :
  In (verdict (_heuristic_grade q answer)) ["pass"; "needs_improvement"].
Proof.
  unfold _heuristic_grade. cbn [verdict].
  destruct (_ || _); cbn; tauto.
Qed.

(** X21: whatever the backend answers, the verdict of a grading is "pass"
    or "needs_improvement". *)
Theorem grade_answer_verdict_known q answer language :
  In (verdict (grade_answer q answer language)) ["pass"; "needs_improvement"].
Proof.
  unfold Llm.grade_answer.
  destruct (negb EVAL_ANSWERS || negb (String.eqb PROVIDER "openai"));
    [apply heuristic_verdict_known |].
  destruct (openai_chat _ _ _ _ _ _) as [r|e]; cbn [bind]; [| apply heuristic_verdict_known].
  destruct (negb (ok r)); [apply heuristic_verdict_known |].
  destruct (extract_first_json_object _ _ _) as [data|e]; cbn [bind];
    [| apply heuristic_verdict_known].
  destruct (str_lower _) as [v|e]; cbn [bind]; [| apply heuristic_verdict_known].
  destruct (bool_decide (replace_char " " "_" v ∈ ["pass"; "needs_improvement"])) eqn:E;
    cbn [negb]; [| apply heuristic_verdict_known].
  cbn [verdict]. apply bool_decide_eq_true_1 in E. apply list_elem_of_In, E.
Qed.

(** X22: grading is the heuristic grading whenever the evaluation by the
    backend is switched off, the provider is not "openai", or no client can
    be built. *)
Theorem grade_answer_heuristic_without_backend q answer language :
  EVAL_ANSWERS = false \/ String.eqb PROVIDER "openai" = false
  \/ (exists e, openai = Unconfigured e) ->
  grade_answer q answer language = _heuristic_grade q answer.
Proof.
  intros H. unfold Llm.grade_answer.
  destruct H as [-> | [-> | [e ->]]].
  - reflexivity.
  - rewrite orb_true_r. reflexivity.
  - destruct (negb EVAL_ANSWERS || negb (String.eqb PROVIDER "openai")); reflexivity.
Qed.

End GenerationMore.

(* ===================================================================== *)
(** * More on the validators and the turn (app.py) *)
(* ===================================================================== *)

Section ValidatorsMore.

Lemma collapse_spaces_without_space s :
  sforall (fun c => negb (is_space c)) s = true -> collapse_spaces s = s.
Proof.
  induction s as [|c s IH]; [reflexivity |]. cbn [sforall]. intros H.
  apply andb_prop in H as [Hc Hs]. apply negb_true_iff in Hc.
  cbn [collapse_spaces]. rewrite Hc, (IH Hs). reflexivity.
Qed.

Lemma split_on_without_separator p s :
  sforall (fun c => negb (p c)) s = true -> split_on p s = [s].
Proof.
  induction s as [|c s IH]; [reflexivity |]. cbn [sforall]. intros H.
  apply andb_prop in H as [Hc Hs]. apply negb_true_iff in Hc.
  cbn [split_on]. rewrite Hc, (IH Hs). reflexivity.
Qed.

Lemma sforall_weaken (p q : ascii -> bool) s :
  (forall c, p c = true -> q c = true) -> sforall p s = true -> sforall q s = true.
Proof.
  intros Hpq. induction s as [|c s IH]; [reflexivity |]. cbn [sforall]. intros H.
  apply andb_prop in H as [Hc Hs]. rewrite (Hpq c Hc), (IH Hs). reflexivity.
Qed.

Lemma is_blank_is_space c : is_blank c = true -> is_space c = true.
Proof. unfold is_blank. intros H. apply Ascii.eqb_eq in H. subst c. reflexivity. Qed.


Lemma check_role_raise items e : fold_left check_role items (Raise e) = Raise e.
Proof. induction items as [|it items IH]; [reflexivity |]. cbn [fold_left]. exact IH. Qed.

Lemma check_role_loop items acc v :
  fold_left check_role items (Ret acc) = Ret v ->
  v = acc ++ items /\ Forall (fun it => role_ok it = true) items.
Proof.
  revert acc. induction items as [|it items IH]; intros acc.
  - intros [= <-]. rewrite app_nil_r. split; constructor.
  - cbn [fold_left]. unfold check_role at 2. cbn [bind].
    destruct (role_ok it) eqn:Hok; cbn [negb].
    + destruct (negb (existsb _ TECH_ROLE_KEYWORDS)).
      * rewrite check_role_raise. discriminate.
      * intros H. apply IH in H as [-> Hall]. rewrite <- app_assoc.
        split; [reflexivity |]. constructor; assumption.
    + rewrite check_role_raise. discriminate.
Qed.

(** X24: when the validation of the desired positions succeeds, its result
    is the list of the items between commas and semicolons, trimmed, in the
    order given and with repetitions kept; the list is not empty and every
    item is 2 to 50 characters of the allowed kind. *)
Theorem validate_positions_strict_result text v :
  validate_positions_strict text = Ret v ->
  v = csv_or_list text /\ v <> [] /\ Forall (fun it => role_ok it = true) v.
Proof.
  unfold validate_positions_strict, ensure_text.
  destruct (csv_or_list text) as [|it items] eqn:E; [discriminate |].
  cbn [is_empty_list]. intros H. apply check_role_loop in H as [-> Hall].
  cbn [app]. repeat split; [discriminate | exact Hall].
Qed.

End ValidatorsMore.

Section StoredValues.

Variable json_loads : string -> res pyobj.
Variable str_compound : pyobj -> string.
Variable extractOne_token_set : string -> list string -> option (string * Q).
Variable extractOne_WRatio : string -> list string -> option (string * Q).
Variable COUNTRIES : list string.
Variable countries_lookup : string -> res (string * string).
Variable geocode : string -> option string -> res (option GeoAddress).
Variable normalize_unicode : string -> string.
Variable search_email_shape : string -> option string.
Variable validate_email : string -> bool -> res string.
Variable EMAIL_DELIVERABILITY : string.
Variable load_profile : string -> res (option Profile).
Variable PhoneNumber : Type.
Variable phonenumbers_parse : string -> option string -> res PhoneNumber.
Variable is_valid_number : PhoneNumber -> bool.
Variable format_E164 : PhoneNumber -> string.
Variable DEFAULT_REGION : option string.
Variable float_of_string : string -> res pyfloat.

Local Abbreviation validate_and_set :=
  (App.validate_and_set json_loads str_compound extractOne_token_set extractOne_WRatio
     COUNTRIES countries_lookup geocode normalize_unicode search_email_shape validate_email
     EMAIL_DELIVERABILITY load_profile PhoneNumber phonenumbers_parse is_valid_number
     format_E164 DEFAULT_REGION float_of_string).

(** X25: the years of experience that a successful step stores are a
    number between 0 and 60; infinities and not-a-number are never stored. *)
Theorem stored_years_within_range text st :
  fst (validate_and_set "years_experience" text st) = true ->
  exists q,
    years_experience (candidate (snd (validate_and_set "years_experience" text st)))
    = Some (Finite q)
    /\ (0 <= q)%Q /\ (q <= 60)%Q.
Proof.
  unfold App.validate_and_set. cbn [String.eqb Ascii.eqb Bool.eqb].
  destruct (float_of_string _) as [val|e]; [| discriminate].
  destruct (years_in_range val) eqn:E; cbn [negb]; [| discriminate].
  intros _. destruct val as [q| | |]; try discriminate.
  exists q. split; [reflexivity |].
  unfold years_in_range in E. apply andb_prop in E as [E1 E2].
  split; apply Qle_bool_iff; assumption.
Qed.

Lemma any_bucket_has_entries parsed :
  any_bucket parsed
  = stack_has_entries (mkTechStack (get_list parsed "languages") (get_list parsed "frameworks")
                                   (get_list parsed "databases") (get_list parsed "tools")).
Proof.
  unfold any_bucket, stack_has_entries, CATEGORIES. cbn [existsb languages frameworks databases tools].
  destruct (is_empty_list (get_list parsed "languages")),
           (is_empty_list (get_list parsed "frameworks")),
           (is_empty_list (get_list parsed "databases")),
           (is_empty_list (get_list parsed "tools")); reflexivity.
Qed.

(** X26: the stack that a successful step stores has an entry in at least
    one category: a stack without entries is never written by validation. *)
Theorem stored_stack_has_entries text st :
  fst (validate_and_set "tech_stack" text st) = true ->
  exists ts,
    tech_stack (candidate (snd (validate_and_set "tech_stack" text st))) = Some ts
    /\ stack_has_entries ts = true.
Proof.
  unfold App.validate_and_set. cbn [String.eqb Ascii.eqb Bool.eqb].
  unfold set_tech_stack.
  destruct (App.parse_stack _ _ _ text) as [parsed|e]; [| discriminate].
  destruct (any_bucket parsed) eqn:E; cbn [negb]; [| discriminate].
  intros _. eexists. split; [reflexivity |].
  rewrite <- any_bucket_has_entries. exact E.
Qed.

End StoredValues.

Section ClassifierMore.

Variable json_loads : string -> res pyobj.
Variable str_compound : pyobj -> string.
Variable extractOne_token_set : string -> list string -> option (string * Q).

Local Abbreviation parse_stack := (App.parse_stack json_loads str_compound extractOne_token_set).
Local Abbreviation _match_known := (App._match_known extractOne_token_set).
Local Abbreviation match_into := (App.match_into extractOne_token_set).

Lemma map_Forall_by_computation (m : gmap string (string * string)) :
  forallb (fun entry => in_vocabulary (snd entry)) (map_to_list m) = true ->
  map_Forall (fun _ hit => in_vocabulary hit = true) m.
Proof.
  intros H k hit Hk. rewrite forallb_forall in H.
  apply (H (k, hit)). apply list_elem_of_In, elem_of_map_to_list, Hk.
Qed.

Lemma index_entries_in_vocabulary :
  map_Forall (fun _ hit => in_vocabulary hit = true) INDEX_LOWER.
Proof. apply map_Forall_by_computation. vm_compute. reflexivity. Qed.

Lemma alias_entries_in_vocabulary :
  map_Forall (fun _ hit => in_vocabulary hit = true) ALIASES_LOWER.
Proof. apply map_Forall_by_computation. vm_compute. reflexivity. Qed.

Lemma match_known_in_vocabulary token hit :
  _match_known token = Ret (Some hit) -> in_vocabulary hit = true.
Proof.
  unfold App._match_known.
  destruct (is_empty (strip token)); [discriminate |].
  destruct (bool_decide (casefold (strip token) ∈ NON_TECH)); [discriminate |].
  destruct (INDEX_LOWER !! casefold (strip token)) as [h|] eqn:E1.
  { intros [= <-]. exact (index_entries_in_vocabulary _ _ E1). }
  destruct (ALIASES_LOWER !! casefold (strip token)) as [h|] eqn:E2.
  { intros [= <-]. exact (alias_entries_in_vocabulary _ _ E2). }
  destruct (extractOne_token_set _ _) as [[best score]|]; [| discriminate].
  destruct (Qle_bool 92 score); [| discriminate].
  destruct (INDEX_LOWER !! best) as [h|] eqn:E3; [| discriminate].
  intros [= <-]. exact (index_entries_in_vocabulary _ _ E3).
Qed.

(** X27: whatever the fuzzy matcher proposes, a token is matched to an
    entry of the vocabulary under its own category or to nothing; a blank
    token and a token of the stop list are matched to nothing, without the
    fuzzy matcher being asked. *)
Theorem match_known_gives_vocabulary_entries token :
  (forall hit, _match_known token = Ret (Some hit) -> in_vocabulary hit = true)
  /\ (is_empty (strip token) = true -> _match_known token = Ret None)
  /\ (In (casefold (strip token)) NON_TECH -> _match_known token = Ret None).
Proof.
  split; [intros hit; apply match_known_in_vocabulary |]. split.
  - intros H. unfold App._match_known. rewrite H. reflexivity.
  - intros H. unfold App._match_known.
    destruct (is_empty (strip token)); [reflexivity |].
    rewrite bool_decide_eq_true_2; [reflexivity | apply list_elem_of_In, H].
Qed.

Lemma get_list_insert buckets cat l cat' :
  get_list (<[cat := l]> buckets) cat' = if decide (cat = cat') then l else get_list buckets cat'.
Proof. unfold get_list. rewrite lookup_insert. destruct (decide (cat = cat')); reflexivity. Qed.

Lemma empty_buckets_canonical : buckets_canonical empty_buckets.
Proof.
  intros cat. unfold empty_buckets, model_dump. cbn [languages frameworks databases tools].
  rewrite !get_list_insert. unfold get_list. rewrite lookup_empty.
  repeat destruct (decide _); cbn; split; constructor.
Qed.

Lemma add_hit_canonical buckets cat item :
  buckets_canonical buckets -> in_vocabulary (cat, item) = true ->
  buckets_canonical (add_hit buckets cat item).
Proof.
  intros Hinv Hhit cat'. unfold add_hit.
  destruct (bool_decide (item ∈ get_list buckets cat)) eqn:E; [apply Hinv |].
  apply bool_decide_eq_false_1 in E.
  rewrite get_list_insert. destruct (decide (cat = cat')) as [<-|]; [| apply Hinv].
  destruct (Hinv cat) as [Hnd Hall]. split.
  - apply NoDup_app. split; [exact Hnd |]. split.
    + intros x Hx Hx'. apply list_elem_of_singleton in Hx'. subst x. contradiction.
    + apply NoDup_singleton.
  - apply Forall_app. split; [exact Hall |]. constructor; [exact Hhit | constructor].
Qed.

Lemma match_into_canonical only acc token buckets' :
  (forall buckets, acc = Ret buckets -> buckets_canonical buckets) ->
  match_into only acc token = Ret buckets' -> buckets_canonical buckets'.
Proof.
  intros Hacc. unfold App.match_into.
  destruct acc as [buckets|e]; [| discriminate]. cbn [bind].
  specialize (Hacc buckets eq_refl).
  destruct (App._match_known _ token) as [[[cat item]|]|e] eqn:E; cbn [bind];
    [| intros [= <-]; exact Hacc | discriminate].
  apply match_known_in_vocabulary in E.
  destruct only as [wanted|].
  - destruct (String.eqb cat wanted); intros [= <-];
      [apply add_hit_canonical; assumption | exact Hacc].
  - intros [= <-]. apply add_hit_canonical; assumption.
Qed.

Lemma match_into_loop_canonical only tokens acc buckets' :
  (forall buckets, acc = Ret buckets -> buckets_canonical buckets) ->
  fold_left (match_into only) tokens acc = Ret buckets' -> buckets_canonical buckets'.
Proof.
  revert acc. induction tokens as [|token tokens IH]; intros acc Hacc.
  - cbn [fold_left]. intros H. apply Hacc, H.
  - cbn [fold_left]. apply IH. intros buckets Hb.
    exact (match_into_canonical only acc token buckets Hacc Hb).
Qed.

Lemma parse_stack_json_canonical s buckets :
  parse_stack_json json_loads str_compound extractOne_token_set s = Some buckets ->
  buckets_canonical buckets.
Proof.
  unfold parse_stack_json.
  destruct (json_loads s) as [[| | | | |data|]|e]; try discriminate.
  match goal with
  | |- match ?filled with _ => _ end = _ -> _ =>
      assert (Hfilled : forall b, filled = Ret b -> buckets_canonical b);
      [| destruct filled as [b|e];
         [destruct (any_bucket b); [intros [= <-]; apply Hfilled; reflexivity | discriminate]
         | discriminate]]
  end.
  generalize CATEGORIES as cats.
  assert (Hgen : forall cats acc,
             (forall b, acc = Ret b -> buckets_canonical b) ->
             forall b,
               fold_left (fun acc cat =>
                            bind acc (fun buckets =>
                            bind (iterate (por (default (PList []) (assoc cat data)) (PList [])))
                              (fun items =>
                                 fold_left (App.match_into extractOne_token_set (Some cat))
                                           (List.map (str_of str_compound) items)
                                           (Ret buckets))))
                         cats acc = Ret b -> buckets_canonical b).
  { induction cats as [|cat cats IH]; intros acc Hacc b.
    - cbn [fold_left]. apply Hacc.
    - cbn [fold_left]. apply IH. intros b'.
      destruct acc as [bk|e]; [| discriminate]. cbn [bind].
      destruct (iterate _) as [items|e]; [| discriminate]. cbn [bind].
      apply match_into_loop_canonical. intros b0 [= <-]. apply Hacc. reflexivity. }
  intros cats b. apply Hgen. intros b0 [= <-]. apply empty_buckets_canonical.
Qed.

Lemma labeled_line_canonical acc line r :
  (forall b flag, acc = Ret (b, flag) -> buckets_canonical b) ->
  labeled_line extractOne_token_set acc line = Ret r -> buckets_canonical (fst r).
Proof.
  intros Hacc. unfold labeled_line.
  destruct acc as [[buckets any_label]|e]; [| discriminate]. cbn [bind].
  specialize (Hacc buckets any_label eq_refl).
  destruct (split_once ":" line) as [[key val]|]; [| intros [= <-]; exact Hacc].
  destruct (bool_decide (lower (strip key) ∈ CATEGORIES)); [| intros [= <-]; exact Hacc].
  destruct (fold_left _ (csv_or_list val) (Ret buckets)) as [b|e] eqn:E; [| discriminate].
  cbn [bind]. intros [= <-]. cbn [fst].
  assert (Hstart : forall b0, Ret buckets = Ret b0 -> buckets_canonical b0)
    by (intros b0 [= <-]; exact Hacc).
  exact (match_into_loop_canonical _ _ _ _ Hstart E).
Qed.

Lemma labeled_lines_canonical lines acc r :
  (forall b flag, acc = Ret (b, flag) -> buckets_canonical b) ->
  fold_left (labeled_line extractOne_token_set) lines acc = Ret r ->
  buckets_canonical (fst r).
Proof.
  revert acc. induction lines as [|line lines IH]; intros acc Hacc.
  - cbn [fold_left]. intros ->. destruct r as [b flag]. apply (Hacc b flag). reflexivity.
  - cbn [fold_left]. apply IH. intros b flag Hb.
    exact (labeled_line_canonical acc line (b, flag) Hacc Hb).
Qed.

(** X28: whatever strategy classifies the text, and whatever the decoder
    and the fuzzy matcher answer, the buckets that come out hold no item
    twice, and every item is an entry of the vocabulary that stands under
    the category of its bucket. *)
Theorem parse_stack_buckets_canonical text buckets :
  parse_stack text = Ret buckets -> buckets_canonical buckets.
Proof.
  unfold App.parse_stack, ensure_text.
  destruct (parse_stack_json _ _ _ text) as [b|] eqn:Ejson.
  { intros [= <-]. exact (parse_stack_json_canonical _ _ Ejson). }
  destruct (fold_left _ (splitlines text) _) as [[b flag]|e] eqn:Elines; [| discriminate].
  cbn [bind].
  assert (Hb : buckets_canonical b).
  { assert (Hstart : forall b0 f, Ret (empty_buckets, false) = Ret (b0, f) ->
                                  buckets_canonical b0)
      by (intros b0 f [= <- <-]; exact empty_buckets_canonical).
    exact (labeled_lines_canonical _ _ _ Hstart Elines). }
  destruct (flag && any_bucket b); [intros [= <-]; exact Hb |].
  apply match_into_loop_canonical. intros b0 [= <-]. exact Hb.
Qed.

End ClassifierMore.

Section TranscriptAndLocation.

Variable PROVIDER OPENAI_MODEL OLLAMA_MODEL : string.
Variable QUESTIONS_PER_TOPIC MAX_TOPICS : Z.
Variable TEMPERATURE : Q.
Variable EVAL_ANSWERS : bool.
Variable OPENAI_MODEL_DEFAULT : string.
Variable uniform : nat -> Q.
Variable openai : backend.
Variable ollama_chat : request -> res pyobj.
Variable json_loads : string -> res pyobj.
Variable json_dumps : pyobj -> string.
Variable str_compound : pyobj -> string.
Variable extractOne_token_set : string -> list string -> option (string * Q).
Variable extractOne_WRatio : string -> list string -> option (string * Q).
Variable COUNTRIES : list string.
Variable countries_lookup : string -> res (string * string).
Variable geocode : string -> option string -> res (option GeoAddress).
Variable normalize_unicode : string -> string.
Variable search_email_shape : string -> option string.
Variable validate_email : string -> bool -> res string.
Variable EMAIL_DELIVERABILITY : string.
Variable load_profile : string -> res (option Profile).
Variable PhoneNumber : Type.
Variable phonenumbers_parse : string -> option string -> res PhoneNumber.
Variable is_valid_number : PhoneNumber -> bool.
Variable format_E164 : PhoneNumber -> string.
Variable DEFAULT_REGION : option string.
Variable float_of_string : string -> res pyfloat.
Variable langdetect_detect : string -> res string.
Variable vader_compound : option (string -> Q).
Variable round3 : Q -> Q.

Local Abbreviation validate_and_set :=
  (App.validate_and_set json_loads str_compound extractOne_token_set extractOne_WRatio
     COUNTRIES countries_lookup geocode normalize_unicode search_email_shape validate_email
     EMAIL_DELIVERABILITY load_profile PhoneNumber phonenumbers_parse is_valid_number
     format_E164 DEFAULT_REGION float_of_string).
Local Abbreviation turn :=
  (App.turn PROVIDER OPENAI_MODEL OLLAMA_MODEL QUESTIONS_PER_TOPIC MAX_TOPICS TEMPERATURE
     EVAL_ANSWERS OPENAI_MODEL_DEFAULT uniform openai ollama_chat json_loads json_dumps
     str_compound extractOne_token_set extractOne_WRatio COUNTRIES countries_lookup geocode
     normalize_unicode search_email_shape validate_email EMAIL_DELIVERABILITY load_profile
     PhoneNumber phonenumbers_parse is_valid_number format_E164 DEFAULT_REGION
     float_of_string langdetect_detect vader_compound round3).
Local Abbreviation normalize_location_input :=
  (App.normalize_location_input extractOne_WRatio COUNTRIES countries_lookup geocode).

Lemma grows_refl st : transcript_grows st st.
Proof. exists []. rewrite app_nil_r. reflexivity. Qed.

Lemma grows_trans st1 st2 st3 :
  transcript_grows st1 st2 -> transcript_grows st2 st3 -> transcript_grows st1 st3.
Proof.
  intros [m1 H1] [m2 H2]. exists (m1 ++ m2). rewrite H2, H1, app_assoc. reflexivity.
Qed.

Lemma grows_same st st' : messages st' = messages st -> transcript_grows st st'.
Proof. intros H. exists []. rewrite app_nil_r. exact H. Qed.

Lemma grows_say role text meta st : transcript_grows st (say role text meta st).
Proof. eexists. reflexivity. Qed.

Lemma grows_say_after role text meta st st' :
  transcript_grows st st' -> transcript_grows st (say role text meta st').
Proof. intros H. eapply grows_trans; [exact H | apply grows_say]. Qed.

Lemma grows_ask_for field st : transcript_grows st (ask_for field st).
Proof. unfold ask_for. apply grows_say. Qed.

Lemma grows_ask_current_question st : transcript_grows st (ask_current_question st).
Proof. unfold ask_current_question. destruct (current_question st); apply grows_say. Qed.

Lemma grows_apply_profile prof st : transcript_grows st (apply_profile prof st).
Proof.
  apply grows_same. unfold apply_profile.
  destruct (not_text (prof_language prof)), (not_text (prof_preferred_difficulty prof)),
           (prof_recent_topics prof) as [[|? ?]|]; reflexivity.
Qed.

Ltac grows :=
  cbn [snd outcome_state];
  first [ apply grows_refl
        | apply grows_say
        | apply grows_same; reflexivity
        | eexists; reflexivity
        | apply grows_say_after, grows_say ].

Lemma grows_accepted_profile c prof st :
  transcript_grows st (snd (accepted c (apply_profile prof st))).
Proof.
  eapply grows_trans; [apply (grows_apply_profile prof) | grows].
Qed.

Lemma grows_set_email c ttxt st :
  transcript_grows st
    (snd (set_email extractOne_WRatio normalize_unicode search_email_shape validate_email
            EMAIL_DELIVERABILITY load_profile c ttxt st)).
Proof.
  unfold set_email.
  destruct (validate_email _ false) as [normalized|e]; [| unfold rejected; grows].
  destruct (String.eqb _ "strict").
  - destruct (validate_email normalized true) as [v|e].
    + destruct (load_profile normalized); [apply grows_accepted_profile | unfold rejected; grows].
    + destruct (exn_class_of e); try (unfold rejected; grows).
      destruct (load_profile normalized).
      * eapply grows_trans; [apply grows_say | apply grows_accepted_profile].
      * unfold rejected. grows.
  - destruct (load_profile normalized); [apply grows_accepted_profile | unfold rejected; grows].
Qed.

Lemma grows_set_tech_stack c text st :
  transcript_grows st
    (snd (set_tech_stack json_loads str_compound extractOne_token_set c text st)).
Proof.
  unfold set_tech_stack.
  destruct (App.parse_stack _ _ _ text) as [parsed|e]; [| unfold rejected; grows].
  destruct (negb (any_bucket parsed)); [grows |].
  destruct (is_empty_list _); unfold accepted; grows.
Qed.

Lemma grows_validate_and_set field text st :
  transcript_grows st (snd (validate_and_set field text st)).
Proof.
  unfold App.validate_and_set.
  repeat match goal with
         | |- context [if String.eqb field ?f then _ else _] =>
             destruct (String.eqb field f)
         end.
  - destruct (is_affirmative _); unfold accepted; grows.
  - destruct (validate_full_name _); unfold accepted, rejected; grows.
  - apply grows_set_email.
  - destruct (phonenumbers_parse _ _) as [num|e]; [| unfold rejected; grows].
    destruct (negb (is_valid_number num)); unfold accepted, rejected; grows.
  - destruct (float_of_string _) as [val|e]; [| unfold rejected; grows].
    destruct (negb (years_in_range val)); unfold accepted, rejected; grows.
  - destruct (validate_positions_strict _); unfold accepted, rejected; grows.
  - destruct (App.normalize_location_input _ _ _ _ _); unfold accepted, rejected; grows.
  - apply grows_set_tech_stack.
  - unfold accepted. grows.
Qed.

Lemma grows_greeting st : transcript_grows st (greeting st).
Proof. unfold greeting. destruct (String.eqb (phase st) "greet"); [apply grows_say | apply grows_refl]. Qed.

Lemma grows_record_input user_text st :
  transcript_grows st (record_input langdetect_detect vader_compound round3 user_text st).
Proof.
  unfold record_input. destruct (negb (iso_code_ok (language st))); grows.
Qed.

Lemma grows_answer_turn user_text st :
  transcript_grows st
    (outcome_state (answer_turn PROVIDER OPENAI_MODEL EVAL_ANSWERS OPENAI_MODEL_DEFAULT uniform
                      openai json_loads json_dumps str_compound user_text st)).
Proof.
  unfold answer_turn. destruct (current_question st) as [q|]; [| apply grows_say].
  destruct (feedback _) as [| | |f| | |]; try apply grows_refl.
  match goal with |- context [if ?b then _ else _] => destruct b end; cbn [outcome_state].
  - eapply grows_trans; [| apply grows_ask_current_question]. grows.
  - eexists. cbn. rewrite <- app_assoc. reflexivity.
Qed.

Lemma grows_gather_turn user_text st :
  transcript_grows st
    (outcome_state (gather_turn PROVIDER OPENAI_MODEL OLLAMA_MODEL QUESTIONS_PER_TOPIC
                      MAX_TOPICS TEMPERATURE OPENAI_MODEL_DEFAULT uniform openai ollama_chat
                      json_loads json_dumps str_compound extractOne_token_set
                      extractOne_WRatio COUNTRIES countries_lookup geocode normalize_unicode
                      search_email_shape validate_email EMAIL_DELIVERABILITY load_profile
                      PhoneNumber phonenumbers_parse is_valid_number format_E164
                      DEFAULT_REGION float_of_string user_text st)).
Proof.
  unfold gather_turn.
  set (st0 := if not_text (Schemas.language (candidate st))
              then set_candidate (with_language (candidate st) (language st)) st else st).
  assert (H0 : transcript_grows st st0).
  { unfold st0. destruct (not_text _); apply grows_same; reflexivity. }
  destruct (is_empty (next_missing_field (candidate st0))); cbn [outcome_state].
  { apply grows_say_after, H0. }
  pose proof (grows_validate_and_set (next_missing_field (candidate st0)) user_text st0) as H1.
  destruct (validate_and_set _ user_text st0) as [valid st1]. cbn [snd] in H1.
  pose proof (grows_trans _ _ _ H0 H1) as H01.
  destruct valid; cbn [outcome_state].
  - destruct (negb (is_empty (next_missing_field (candidate st1)))); cbn [outcome_state].
    + eapply grows_trans; [exact H01 | apply grows_ask_for].
    + destruct (generate _ _ _ _ _ _ _ _ _ _ _ _ _ _ _) as [qs err].
      match goal with |- context [if ?b then _ else _] => destruct b end; cbn [outcome_state].
      * eapply grows_trans; [| apply grows_ask_current_question].
        eapply grows_trans; [exact H01 |]. apply grows_same. reflexivity.
      * apply grows_say_after. eapply grows_trans; [exact H01 |]. apply grows_same. reflexivity.
  - eapply grows_trans; [exact H01 | apply grows_ask_for].
Qed.

(** X29: a turn never rewrites the transcript: whatever the input, the
    phase and the collaborators, the messages after the turn are the messages
    before it followed by those the turn has added. *)
Theorem turn_appends_to_transcript user_text st :
  transcript_grows st (outcome_state (turn user_text st)).
Proof.
  unfold App.turn.
  pose proof (grows_greeting st) as Hg.
  destruct (is_empty user_text); cbn [outcome_state]; [exact Hg |].
  pose proof (grows_record_input user_text (greeting st)) as Hr.
  pose proof (grows_trans _ _ _ Hg Hr) as H.
  destruct (is_exit user_text); cbn [outcome_state].
  - unfold close_conversation. eapply grows_trans; [exact H |].
    eapply grows_trans; [apply grows_say | apply grows_same; reflexivity].
  - destruct (String.eqb _ "questions").
    + eapply grows_trans; [exact H | apply grows_answer_turn].
    + eapply grows_trans; [exact H | apply grows_gather_turn].
Qed.


End TranscriptAndLocation.

(* ===================================================================== *)
(** * Further examples *)
(* ===================================================================== *)

Section FurtherExamples.
Import Py Schemas ModelClient Utils Llm App.




Lemma csv_or_list_items_witness :
  In "Data Scientist" (csv_or_list " ML Engineer ;Data Scientist,, ")
  /\ is_empty "Data Scientist" = false
  /\ strip "Data Scientist" = "Data Scientist"
  /\ sforall (fun c => negb (is_semicolon_or_comma c)) "Data Scientist" = true.
Proof.
  assert (H : In "Data Scientist" (csv_or_list " ML Engineer ;Data Scientist,, ")).
  { vm_compute. right. left. reflexivity. }
  split; [exact H |].
  apply (csv_or_list_items " ML Engineer ;Data Scientist,, " "Data Scientist" H).
Defined.

Lemma extract_returns_unless_fenced_witness :
  contains FENCE (_ensure_text (fun _ => "") (PStr "Sure: {broken")) = false
  /\ returns (extract_first_json_object rejecting_decoder (fun _ => "")
                (PStr "Sure: {broken")) = true.
Proof.
  split; [reflexivity |].
  apply (extract_returns_unless_fenced rejecting_decoder (fun _ => "")
           (PStr "Sure: {broken")).
  reflexivity.
Defined.

Lemma search_bracketed_shape_witness :
  search_bracketed "Here: {a} or [b] }" = Some "{a}"
  /\ exists pre body post,
       "Here: {a} or [b] }" = pre +:+ "{a}" +:+ post
       /\ (("{a}" = String "{" (body +:+ "}")
            /\ sforall (fun d => negb (Ascii.eqb d "}")) body = true)
           \/ ("{a}" = String "[" (body +:+ "]")
               /\ sforall (fun d => negb (Ascii.eqb d "]")) body = true)).
Proof.
  split; [reflexivity |].
  apply (search_bracketed_shape "Here: {a} or [b] }" "{a}"). reflexivity.
Defined.

Lemma detect_language_falls_back_witness :
  is_empty "en" = false
  /\ is_empty (detect_language (fun _ => Ret "") "bonjour" "en") = false.
Proof.
  split; [reflexivity |].
  apply (detect_language_falls_back (fun _ => Ret "") "bonjour" "en"). reflexivity.
Defined.

Lemma fallback_never_empty_witness :
  (1 <= 1)%Z /\ _fallback 1 0 empty_stack <> [].
Proof.
  split; [lia |]. apply (fallback_never_empty 1 0 empty_stack). lia.
Defined.

Lemma fallback_questions_are_templates_witness :
  In {| topic := "Docker";
        question := "Describe a debugging incident you solved in Docker.";
        difficulty := "intermediate" |} (_fallback 3 2 python_docker)
  /\ In "intermediate" DIFFICULTIES
  /\ (In "Docker" (_topics python_docker)
      \/ (_topics python_docker = [] /\ "Docker" = "General")).
Proof.
  assert (H : In {| topic := "Docker";
                    question := "Describe a debugging incident you solved in Docker.";
                    difficulty := "intermediate" |} (_fallback 3 2 python_docker)).
  { vm_compute. do 4 right. left. reflexivity. }
  split; [exact H |].
  apply (fallback_questions_are_templates 3 2 python_docker _ H).
Defined.

Lemma fallback_size_bounded_witness :
  (0 < 2)%Z /\ (length (_fallback 3 2 python_docker) <= 3 * Z.to_nat 2)%nat.
Proof.
  split; [lia |]. apply (fallback_size_bounded 3 2 python_docker). lia.
Defined.

Lemma generate_questions_unknown_provider_witness :
  String.eqb "anthropic" "openai" = false
  /\ String.eqb "anthropic" "ollama" = false
  /\ generate_questions "anthropic" "gpt-4o-mini" "llama3.1" 3 2 (1 # 5) "gpt-4o-mini"
       (fun _ => 0%Q) no_key (fun _ => Raise (Exn OSError "connection refused"))
       rejecting_decoder (fun _ => "") (fun _ => "") python_docker "en"
     = (_fallback 3 2 (StackDict (_as_dict python_docker)),
        "fallback:Unknown PROVIDER: " +:+ "anthropic").
Proof.
  split; [reflexivity |]. split; [reflexivity |].
  apply (generate_questions_unknown_provider "anthropic" "gpt-4o-mini" "llama3.1" 3 2 (1 # 5)
           "gpt-4o-mini" (fun _ => 0%Q) no_key
           (fun _ => Raise (Exn OSError "connection refused"))
           rejecting_decoder (fun _ => "") (fun _ => "") python_docker "en");
    reflexivity.
Defined.

Lemma grade_answer_heuristic_without_backend_witness :
  grade_answer "openai" "gpt-4o-mini" true "gpt-4o-mini" (fun _ => 0%Q) no_key
    rejecting_decoder (fun _ => "") (fun _ => "") some_question long_answer "en"
  = _heuristic_grade some_question long_answer.
Proof.
  apply (grade_answer_heuristic_without_backend "openai" "gpt-4o-mini" true "gpt-4o-mini"
           (fun _ => 0%Q) no_key rejecting_decoder (fun _ => "") (fun _ => "")
           some_question long_answer "en").
  right. right. eexists. reflexivity.
Defined.


Lemma validate_positions_strict_result_witness :
  validate_positions_strict "ML Engineer; Data Scientist"
  = Ret ["ML Engineer"; "Data Scientist"]
  /\ ["ML Engineer"; "Data Scientist"] = csv_or_list "ML Engineer; Data Scientist"
  /\ ["ML Engineer"; "Data Scientist"] <> []
  /\ Forall (fun it => role_ok it = true) ["ML Engineer"; "Data Scientist"].
Proof.
  split; [reflexivity |].
  apply (validate_positions_strict_result "ML Engineer; Data Scientist"). reflexivity.
Defined.

Lemma stored_years_within_range_witness :
  fst (bench_years "years_experience" " 5 " waiting_for_consent) = true
  /\ exists q,
       years_experience
         (candidate (snd (bench_years "years_experience" " 5 " waiting_for_consent)))
       = Some (Finite q)
       /\ (0 <= q)%Q /\ (q <= 60)%Q.
Proof.
  split; [reflexivity |].
  apply (stored_years_within_range rejecting_decoder (fun _ => "") no_fuzzy_match
           no_fuzzy_match ["India"; "France"] (fun _ => Raise (Exn KeyError "country"))
           (fun _ _ => Ret None) (fun s => s) (fun _ => None)
           (fun _ _ => Raise (Exn EmailNotValidError "The email address is not valid."))
           "relaxed" (fun _ => Ret None) string
           (fun _ _ => Raise (Exn NumberParseException "The string supplied did not seem to be a phone number."))
           (fun _ => false) (fun n => n) None float_of_five " 5 " waiting_for_consent).
  reflexivity.
Defined.

Lemma stored_stack_has_entries_witness :
  fst (bench_validate_and_set "tech_stack" "python, django, postgres, docker"
         waiting_for_consent) = true
  /\ exists ts,
       tech_stack
         (candidate (snd (bench_validate_and_set "tech_stack"
                            "python, django, postgres, docker" waiting_for_consent)))
       = Some ts
       /\ stack_has_entries ts = true.
Proof.
  split; [reflexivity |].
  apply (stored_stack_has_entries rejecting_decoder (fun _ => "") no_fuzzy_match
           no_fuzzy_match ["India"; "France"] (fun _ => Raise (Exn KeyError "country"))
           (fun _ _ => Ret None) (fun s => s) (fun _ => None)
           (fun _ _ => Raise (Exn EmailNotValidError "The email address is not valid."))
           "relaxed" (fun _ => Ret None) string
           (fun _ _ => Raise (Exn NumberParseException "The string supplied did not seem to be a phone number."))
           (fun _ => false) (fun n => n) None
           (fun _ => Raise (Exn ValueError "could not convert string to float"))
           "python, django, postgres, docker" waiting_for_consent).
  reflexivity.
Defined.

Lemma parse_stack_buckets_canonical_witness :
  App.parse_stack rejecting_decoder (fun _ => "") no_fuzzy_match
    "python, django, python, postgres"
  = Ret (model_dump (mkTechStack ["Python"] ["Django"] ["PostgreSQL"] []))
  /\ buckets_canonical (model_dump (mkTechStack ["Python"] ["Django"] ["PostgreSQL"] [])).
Proof.
  assert (H : App.parse_stack rejecting_decoder (fun _ => "") no_fuzzy_match
                "python, django, python, postgres"
              = Ret (model_dump (mkTechStack ["Python"] ["Django"] ["PostgreSQL"] []))).
  { vm_compute. reflexivity. }
  split; [exact H |].
  apply (parse_stack_buckets_canonical rejecting_decoder (fun _ => "") no_fuzzy_match
           "python, django, python, postgres" _ H).
Defined.


End FurtherExamples.
